(** * g-chat backend: usage throttle and streaming chat orchestrator

    A shallow embedding of
      - [app/utils/rate_limiter.py]   (fixed-window request and token budgets),
      - [app/utils/errors.py]         (the exception classes that are raised),
      - [app/crud/chat.py], [app/threads/thread_service.py] (thread and turn rows),
      - [app/chat/chat_service.py]    (the server-sent-event generator),
      - [app/api/routes/chat.py]      (the [POST /chat/{thread_id}] handler),
      - [app/api/routes/threads.py], [app/api/routes/rate_limits.py]
                                      (the thread and status handlers),
      - [app/utils/token_utils.py]    (token totals of a thread),
    followed by the properties of the specification stated over it.

    Conventions.
      - A Python [str] is the list of its code points; [py] decodes a UTF-8
        literal, so that literals read as they do in the source.
      - Python [int] is [Z]; a reading of [time.time()] is a rational.
      - Everything outside the process (settings read from the environment,
        the tokenizer, the system clock, the database session's failures,
        the hosted model) is a field of the class [Environment].
      - Handler code runs in a state-and-exception monad over a [world]
        (database rows, the throttle's global window, the effect log).
        One request is run to completion; interleavings with other requests
        at [await] points are outside the model. *)

From Stdlib Require Import ZArith NArith QArith Qminmax Qround List String Ascii Bool Lia.
From Stdlib Require Import DecimalString.
Import ListNotations.


(* ===================================================================== *)
(** ** Python text *)
(* ===================================================================== *)

Module Text.

(** A [str]: its sequence of Unicode code points. *)
Definition pystr : Type := list N.

(** UTF-8 decoding of a source literal (ill-formed tails are dropped). *)
Fixpoint utf8 (bytes : list N) : pystr :=
  match bytes with
  | [] => []
  | b :: r =>
    if (b <? 128)%N then b :: utf8 r
    else if (b <? 224)%N then
      match r with
      | c1 :: r1 => ((b mod 32) * 64 + c1 mod 64)%N :: utf8 r1
      | _ => []
      end
    else if (b <? 240)%N then
      match r with
      | c1 :: c2 :: r2 =>
        ((b mod 16) * 4096 + (c1 mod 64) * 64 + c2 mod 64)%N :: utf8 r2
      | _ => []
      end
    else
      match r with
      | c1 :: c2 :: c3 :: r3 =>
        ((b mod 8) * 262144 + (c1 mod 64) * 4096 + (c2 mod 64) * 64 + c3 mod 64)%N
          :: utf8 r3
      | _ => []
      end
  end.

Definition py (literal : string) : pystr :=
  utf8 (map N_of_ascii (list_ascii_of_string literal)).

(** [len(text)] *)
Definition len (text : pystr) : Z := Z.of_nat (List.length text).

(** A [str] is falsy exactly when it is empty. *)
Definition truthy (text : pystr) : bool :=
  match text with [] => false | _ :: _ => true end.

(** [str(n)] for an [int]. *)
Definition str_int (n : Z) : pystr := py (NilZero.string_of_int (Z.to_int n)).

(** *** [json.dumps] on a string value (standard library defaults:
    [ensure_ascii=True], separators [", "] and [": "]). *)

Definition hex_digit (d : N) : N :=
  if (d <? 10)%N then (48 + d)%N else (87 + d)%N.

(** [\uXXXX] with four lower-case hexadecimal digits. *)
Definition u_escape (n : N) : pystr :=
  [92; 117;
   hex_digit ((n / 4096) mod 16); hex_digit ((n / 256) mod 16);
   hex_digit ((n / 16) mod 16); hex_digit (n mod 16)]%N.

Definition escape_char (c : N) : pystr :=
  if (c =? 92)%N then [92; 92]%N
  else if (c =? 34)%N then [92; 34]%N
  else if (c =? 8)%N then [92; 98]%N
  else if (c =? 12)%N then [92; 102]%N
  else if (c =? 10)%N then [92; 110]%N
  else if (c =? 13)%N then [92; 114]%N
  else if (c =? 9)%N then [92; 116]%N
  else if ((32 <=? c) && (c <=? 126))%N then [c]
  else if (c <? 65536)%N then u_escape c
  else
    let n := (c - 65536)%N in
    u_escape (N.lor 55296 (N.land (N.shiftr n 10) 1023))
      ++ u_escape (N.lor 56320 (N.land n 1023)).

Definition json_string (text : pystr) : pystr :=
  [34%N] ++ flat_map escape_char text ++ [34%N].

(** [json.dumps({'content': text})] *)
Definition json_dumps_content (text : pystr) : pystr :=
  py "{" ++ json_string (py "content") ++ py ": " ++ json_string text ++ py "}".

End Text.
Import Text.

(* ===================================================================== *)
(** ** app/utils/errors.py and the exceptions seen by the handlers *)
(* ===================================================================== *)

Module Errors.

Inductive exn : Type :=
| RateLimitError (limit_type : pystr) (limit : Z)
    (** [APIError] subclass of errors.py *)
| HTTPException (status_code : Z) (detail : pystr)
    (** FastAPI's request-level failure *)
| Exception (message : pystr).
    (** anything raised by a library: its [str(e)] *)

(** [e.message] as set by [RateLimitError.__init__]. *)
Definition rate_limit_message (limit_type : pystr) (limit : Z) : pystr :=
  limit_type ++ py " rate limit exceeded: " ++ str_int limit ++ py " per minute".

(** [e.status_code] of a [RateLimitError]. *)
Definition rate_limit_status_code : Z := 429.

(** [str(e)] *)
Definition str (e : exn) : pystr :=
  match e with
  | RateLimitError limit_type limit => rate_limit_message limit_type limit
  | HTTPException status_code detail => str_int status_code ++ py ": " ++ detail
  | Exception message => message
  end.

End Errors.
Import Errors.

(* ===================================================================== *)
(** ** What the process takes from outside *)
(* ===================================================================== *)

(** One chunk of the model's streamed reply: its [text] attribute, [None]
    when the attribute is absent or unset. *)
Definition chunk : Type := option pystr.

(** The object returned by [chat.send_message_stream]: a finite,
    non-restartable iterator that may raise instead of yielding. *)
Inductive iterator : Type :=
| StopIteration
| Next (c : chunk) (rest : iterator)
| Raises (message : pystr).

(** The iterator that yields the chunks [cs] and then goes on as [ending]. *)
Fixpoint chunks_then (cs : list chunk) (ending : iterator) : iterator :=
  match cs with
  | [] => ending
  | c :: cs' => Next c (chunks_then cs' ending)
  end.

(** [{"role": role, "parts": [{"text": content}]}] *)
Record history_item : Type := HistoryItem {
  hist_role : pystr;
  hist_parts : list pystr
}.

(** The chat session returned by [client.chats.create]: what
    [send_message_stream(question)] does on it. *)
Definition chat_session : Type := pystr -> pystr + iterator.

Class Environment : Type := {
  (** settings.py: [int(os.environ.get(..., "60"))], [int(... "60000")] *)
  REQUESTS_PER_MINUTE : Z;
  TOKENS_PER_MINUTE : Z;
  (** [tiktoken.get_encoding("cl100k_base").encode(text)], [None] when
      either call raises *)
  tiktoken_encode : pystr -> option (list N);
  (** the n-th reading of the system clock by this process, in seconds *)
  clock : nat -> Q;
  (** the n-th round trip on the database session raises this message *)
  db_fault : nat -> option pystr;
  (** [genai.Client(api_key=...).chats.create(model=..., history=...)],
      [inl] when the import, the client or the session creation raises *)
  chats_create : pystr -> list history_item -> pystr + chat_session
}.


(* ===================================================================== *)
(** ** app/utils/rate_limiter.py *)
(* ===================================================================== *)

(** The functions of the module are given as transformers of the global
    dictionary: each takes the readings of [time.time()] it makes and the
    dictionary as it finds it, and returns its result with the dictionary
    as it leaves it.  Log lines are left out. *)

Module RateLimiter.

(** The global [usage_tracking] dictionary. *)
Record usage : Type := Usage {
  last_reset : Q;
  tokens_used : Z;
  requests_used : Z
}.

(** [x > y] on clock readings. *)
Definition Qgtb (x y : Q) : bool := negb (Qle_bool x y).

(** [int(x)] on a float: truncation towards zero. *)
Definition py_int (x : Q) : Z := Z.quot (Qnum x) (Zpos (Qden x)).

(** [check_and_reset_counters]; [current_time] is its reading of
    [time.time()]. The dictionary is replaced as a whole. *)
Definition check_and_reset_counters (current_time : Q) (usage_tracking : usage)
  : usage :=
  if Qgtb (current_time - last_reset usage_tracking) 60
  then {| last_reset := current_time; tokens_used := 0; requests_used := 0 |}
  else usage_tracking.

(** [usage_tracking["tokens_used"] += n] and
    [usage_tracking["requests_used"] += n]. *)
Definition add_tokens_used (n : Z) (u : usage) : usage :=
  {| last_reset := last_reset u;
     tokens_used := tokens_used u + n;
     requests_used := requests_used u |}.

Definition add_requests_used (n : Z) (u : usage) : usage :=
  {| last_reset := last_reset u;
     tokens_used := tokens_used u;
     requests_used := requests_used u + n |}.

(** One entry of the dictionary returned by [get_rate_limit_status]. *)
Record budget : Type := Budget {
  limit : Z;
  used : Z;
  remaining : Z;
  reset_after_seconds : Z
}.

Record rate_limit_status : Type := RateLimitStatus {
  requests : budget;
  tokens : budget
}.

Section WithEnvironment.
Context {env : Environment}.

(** [count_tokens]: tiktoken, or a quarter of the length when it raises. *)
Definition count_tokens (text : pystr) : Z :=
  match tiktoken_encode text with
  | Some encoded => Z.of_nat (List.length encoded)
  | None => len text / 4
  end.

(** [check_token_rate_limit] *)
Definition check_token_rate_limit
  (current_time : Q) (token_count : Z) (usage_tracking : usage) : bool * usage :=
  let usage_tracking := check_and_reset_counters current_time usage_tracking in
  if (tokens_used usage_tracking + token_count >? TOKENS_PER_MINUTE)%Z
  then (false, usage_tracking)
  else (true, add_tokens_used token_count usage_tracking).

(** [track_request]; the periodic log line has no effect on the state. *)
Definition track_request (current_time : Q) (usage_tracking : usage)
  : (exn + unit) * usage :=
  let usage_tracking := check_and_reset_counters current_time usage_tracking in
  if (requests_used usage_tracking >=? REQUESTS_PER_MINUTE)%Z
  then (inl (RateLimitError (py "Request") REQUESTS_PER_MINUTE), usage_tracking)
  else (inr tt, add_requests_used 1 usage_tracking).

(** [get_rate_limit_status]: [current_time] is the reading taken inside
    [check_and_reset_counters], [status_time] the second reading, taken
    for [time_until_reset]. *)
Definition get_rate_limit_status
  (current_time status_time : Q) (usage_tracking : usage)
  : rate_limit_status * usage :=
  let usage_tracking := check_and_reset_counters current_time usage_tracking in
  let time_until_reset :=
    Qmax 0 (60 - (status_time - last_reset usage_tracking)) in
  let remaining_requests :=
    Z.max 0 (REQUESTS_PER_MINUTE - requests_used usage_tracking) in
  ({| requests :=
        {| limit := REQUESTS_PER_MINUTE;
           used := requests_used usage_tracking;
           remaining := remaining_requests;
           reset_after_seconds := py_int time_until_reset |};
      tokens :=
        {| limit := TOKENS_PER_MINUTE;
           used := tokens_used usage_tracking;
           remaining := TOKENS_PER_MINUTE - tokens_used usage_tracking;
           reset_after_seconds := py_int time_until_reset |} |},
   usage_tracking).

End WithEnvironment.

(** A call on the throttle together with the clock readings it takes. *)
Inductive call : Type :=
| TrackRequest (current_time : Q)
| CheckTokenRateLimit (current_time : Q) (token_count : Z)
| GetRateLimitStatus (current_time status_time : Q).

(** The reading a call hands to [check_and_reset_counters]. *)
Definition reset_check_time (c : call) : Q :=
  match c with
  | TrackRequest t => t
  | CheckTokenRateLimit t _ => t
  | GetRateLimitStatus t _ => t
  end.

(** What a call gives back to its caller. *)
Inductive outcome : Type :=
| Tracked (result : exn + unit)
| Checked (within_limit : bool)
| Status (status : rate_limit_status).

Definition run_call {env : Environment} (c : call) (u : usage)
  : outcome * usage :=
  match c with
  | TrackRequest t =>
    let (r, u') := track_request t u in (Tracked r, u')
  | CheckTokenRateLimit t n =>
    let (b, u') := check_token_rate_limit t n u in (Checked b, u')
  | GetRateLimitStatus t t' =>
    let (s, u') := get_rate_limit_status t t' u in (Status s, u')
  end.

(** A sequence of calls, oldest first: what each gave back, and the window
    left behind. *)
Fixpoint run_calls {env : Environment} (cs : list call) (u : usage)
  : list outcome * usage :=
  match cs with
  | [] => ([], u)
  | c :: cs' =>
    let (o, u') := run_call c u in
    let (os, u'') := run_calls cs' u' in
    (o :: os, u'')
  end.

(** The window a reset at [current_time] installs. *)
Definition fresh_window (current_time : Q) : usage :=
  {| last_reset := current_time; tokens_used := 0; requests_used := 0 |}.

(** Does the call find the window expired? *)
Definition expires (c : call) (u : usage) : bool :=
  Qgtb (reset_check_time c - last_reset u) 60.

(** No call of the sequence finds the window expired. *)
Fixpoint no_reset {env : Environment} (cs : list call) (u : usage) : bool :=
  match cs with
  | [] => true
  | c :: cs' => negb (expires c u) && no_reset cs' (snd (run_call c u))
  end.

(** The requests admitted and the tokens admitted by a sequence of calls. *)
Definition admitted_request (o : outcome) : Z :=
  match o with
  | Tracked (inr _) => 1
  | _ => 0
  end.

Definition admitted_token_count (c : call) (o : outcome) : Z :=
  match c, o with
  | CheckTokenRateLimit _ n, Checked true => n
  | _, _ => 0
  end.

Fixpoint admitted_requests (os : list outcome) : Z :=
  match os with
  | [] => 0
  | o :: os' => admitted_request o + admitted_requests os'
  end.

Fixpoint admitted_tokens (cs : list call) (os : list outcome) : Z :=
  match cs, os with
  | c :: cs', o :: os' => admitted_token_count c o + admitted_tokens cs' os'
  | _, _ => 0
  end.

End RateLimiter.


(* ===================================================================== *)
(** ** app/models/chat.py: the rows *)
(* ===================================================================== *)

Definition uuid : Type := N.
Definition datetime : Type := Q.

Module Thread.
(** The columns of [threads] ([created_at] is filled by the server). *)
Record t : Type := Make {
  id : uuid;
  title : pystr;
  user_id : uuid;
  updated_at : option datetime;
  is_archived : bool
}.
End Thread.

Module Conversation.
(** The columns of [conversations] that [create_conversation] sets
    ([id] and [created_at] are column defaults). *)
Record t : Type := Make {
  thread_id : uuid;
  role : pystr;
  content : pystr;
  model : option pystr;
  token_count : option Z
}.
End Conversation.

(** The two tables, rows in insertion order. *)
Record Db : Type := MakeDb {
  threads : list Thread.t;
  conversations : list Conversation.t
}.

(** [{"role": ..., "content": ..., "model": ..., "token_count": ...}]:
    [content] is read with [[]], the others with [.get]. *)
Module Message.
Record t : Type := Make {
  role : pystr;
  content : pystr;
  model : option pystr;
  token_count : option Z
}.
End Message.

(** [ChatRequestWithThread] of app/models/base.py. *)
Module ChatRequestWithThread.
Record t : Type := Make {
  model : pystr;
  question : pystr
}.
End ChatRequestWithThread.

(* ===================================================================== *)
(** ** The world a request runs in *)
(* ===================================================================== *)

(** What the process does that is visible from outside, in order. *)
Inductive effect : Type :=
| Inserted (row : Conversation.t)
    (** [create_conversation] committed a row *)
| Touched (thread_id : uuid) (updated_at : datetime)
    (** the thread's [updated_at] was set and committed *)
| ChatsCreate (model : pystr) (history : list history_item)
    (** the chat session was asked for: [client.chats.create(...)] *)
| SendMessageStream (question : pystr)
    (** [chat.send_message_stream] was called *)
| Yield (event : pystr).
    (** the generator handed one string to the transport *)

Record world : Type := World {
  db : Db;
  usage_tracking : RateLimiter.usage;
  ticks : nat;          (** clock readings taken so far *)
  db_ops : nat;         (** database round trips made so far *)
  log : list effect
}.

(** State and exceptions: the state survives a raise. *)
Definition M (A : Type) : Type := world -> (exn + A) * world.

Definition ret {A} (a : A) : M A := fun w => (inr a, w).

Definition bind {A B} (m : M A) (k : A -> M B) : M B :=
  fun w =>
    match m w with
    | (inr a, w') => k a w'
    | (inl e, w') => (inl e, w')
    end.

Definition raise {A} (e : exn) : M A := fun w => (inl e, w).

(** [try: body  except Exception as e: handler(e)] *)
Definition try_except {A} (body : M A) (handler : exn -> M A) : M A :=
  fun w =>
    match body w with
    | (inr a, w') => (inr a, w')
    | (inl e, w') => handler e w'
    end.

Declare Scope monad_scope.
Delimit Scope monad_scope with monad.
Notation "x <- m ;; k" := (bind m (fun x => k))
  (at level 61, m at next level, right associativity) : monad_scope.
Notation "m ;; k" := (bind m (fun _ => k))
  (at level 61, right associativity) : monad_scope.
Open Scope monad_scope.

Definition set_db (d : Db) (w : world) : world :=
  {| db := d; usage_tracking := usage_tracking w; ticks := ticks w;
     db_ops := db_ops w; log := log w |}.

Definition set_usage_tracking (u : RateLimiter.usage) (w : world) : world :=
  {| db := db w; usage_tracking := u; ticks := ticks w;
     db_ops := db_ops w; log := log w |}.

Definition tick (w : world) : world :=
  {| db := db w; usage_tracking := usage_tracking w; ticks := S (ticks w);
     db_ops := db_ops w; log := log w |}.

Definition count_db_op (w : world) : world :=
  {| db := db w; usage_tracking := usage_tracking w; ticks := ticks w;
     db_ops := S (db_ops w); log := log w |}.

Definition append_log (e : effect) (w : world) : world :=
  {| db := db w; usage_tracking := usage_tracking w; ticks := ticks w;
     db_ops := db_ops w; log := log w ++ [e] |}.

Definition emit (e : effect) : M unit := fun w => (inr tt, append_log e w).

(** [yield s] in a generator whose consumer reads it to the end. *)
Definition yield (s : pystr) : M unit := emit (Yield s).

Section WithEnvironment.
Context {env : Environment}.

(** [time.time()] and [datetime.utcnow()]: the next reading of the clock. *)
Definition time_time : M Q := fun w => (inr (clock (ticks w)), tick w).
Definition datetime_utcnow : M datetime := time_time.

(** One round trip on the session: it raises when the environment says
    so, and otherwise runs the statement on the tables. *)
Definition round_trip {A} (statement : Db -> A * Db) : M A :=
  fun w =>
    match db_fault (db_ops w) with
    | Some message => (inl (Exception message), count_db_op w)
    | None =>
      let (a, d) := statement (db w) in
      (inr a, set_db d (count_db_op w))
    end.

(** [check_token_rate_limit] as the generator calls it: on the global
    window of the process, with the clock read where
    [check_and_reset_counters] calls [time.time()].  Its effect on the
    window is [RateLimiter.check_token_rate_limit]. *)
Definition check_token_rate_limit (token_count : Z) : M bool :=
  current_time <- time_time ;;
  fun w =>
    let (ok, u) :=
      RateLimiter.check_token_rate_limit current_time token_count
        (usage_tracking w) in
    (inr ok, set_usage_tracking u w).

End WithEnvironment.


(* ===================================================================== *)
(** ** app/crud/chat.py *)
(* ===================================================================== *)

Module Crud.
Section WithEnvironment.
Context {env : Environment}.

(** [db.query(Thread).filter(Thread.id == thread_id).first()] *)
Definition get_thread (thread_id : uuid) : M (option Thread.t) :=
  round_trip (fun d =>
    (find (fun th => (Thread.id th =? thread_id)%N) (threads d), d)).

(** [create_conversation]: add, commit, refresh. *)
Definition create_conversation (conversation : Conversation.t)
  : M Conversation.t :=
  round_trip (fun d =>
    (tt, {| threads := threads d;
            conversations := conversations d ++ [conversation] |})) ;;
  emit (Inserted conversation) ;;
  ret conversation.

End WithEnvironment.
End Crud.

(* ===================================================================== *)
(** ** app/threads/thread_service.py *)
(* ===================================================================== *)

Module ThreadService.
Section WithEnvironment.
Context {env : Environment}.

Definition get_thread (thread_id : uuid) : M (option Thread.t) :=
  Crud.get_thread thread_id.

(** [get_thread_messages_optimized]: role and content of the thread's
    rows, oldest first. *)
Definition get_thread_messages_optimized (thread_id : uuid)
  : M (list history_item) :=
  round_trip (fun d =>
    (map (fun row =>
            {| hist_role := Conversation.role row;
               hist_parts := [Conversation.content row] |})
         (filter (fun row => (Conversation.thread_id row =? thread_id)%N)
                 (conversations d)),
     d)).

(** [message.get("token_count") or count_tokens(message["content"])] *)
Definition token_count_or_count (message : Message.t) : Z :=
  match Message.token_count message with
  | Some n => if (n =? 0)%Z
              then RateLimiter.count_tokens (Message.content message)
              else n
  | None => RateLimiter.count_tokens (Message.content message)
  end.

(** [db.query(Thread).filter(Thread.id == thread_id).update(...)] *)
Definition set_updated_at (thread_id : uuid) (now : datetime) (d : Db) : Db :=
  {| threads :=
       map (fun th =>
              if (Thread.id th =? thread_id)%N
              then {| Thread.id := Thread.id th;
                      Thread.title := Thread.title th;
                      Thread.user_id := Thread.user_id th;
                      Thread.updated_at := Some now;
                      Thread.is_archived := Thread.is_archived th |}
              else th)
           (threads d);
     conversations := conversations d |}.

(** [add_messages_to_thread] *)
Definition add_messages_to_thread
  (thread_id : uuid)
  (user_message assistant_response : option Message.t) : M bool :=
  thread <- get_thread thread_id ;;
  match thread with
  | None => ret false
  | Some _ =>
    match user_message with
    | Some user_message =>
      let user_token_count := token_count_or_count user_message in
      Crud.create_conversation
        {| Conversation.thread_id := thread_id;
           Conversation.role := py "user";
           Conversation.content := Message.content user_message;
           Conversation.model := None;
           Conversation.token_count := Some user_token_count |} ;;
      ret tt
    | None => ret tt
    end ;;
    match assistant_response with
    | Some assistant_response =>
      let assistant_token_count := token_count_or_count assistant_response in
      Crud.create_conversation
        {| Conversation.thread_id := thread_id;
           Conversation.role := py "model";
           Conversation.content := Message.content assistant_response;
           Conversation.model := Message.model assistant_response;
           Conversation.token_count := Some assistant_token_count |} ;;
      ret tt
    | None => ret tt
    end ;;
    now <- datetime_utcnow ;;
    round_trip (fun d => (tt, set_updated_at thread_id now d)) ;;
    emit (Touched thread_id now) ;;
    ret true
  end.

End WithEnvironment.
End ThreadService.

(* ===================================================================== *)
(** ** app/chat/chat_service.py *)
(* ===================================================================== *)

(** What a handler returns. The generator of a [StreamingResponse] has not
    run yet: the framework runs it after the handler has returned. *)
Inductive response : Type :=
| StreamingResponse (body : M unit)
| Dict (role content : pystr).

Module ChatService.

(** [f"data: {payload}\n\n"] *)
Definition sse (payload : pystr) : pystr := py "data: " ++ payload ++ [10; 10]%N.

(** [f"data: {json.dumps({'content': text})}\n\n"] *)
Definition content_event (text : pystr) : pystr := sse (json_dumps_content text).

(** ["data: [DONE]\n\n"] *)
Definition DONE : pystr := sse (py "[DONE]").

Definition TRUNCATED : pystr :=
  py "⚠️ Token rate limit exceeded. Response truncated.".

Definition error_text (e : exn) : pystr := py "⚠️ Error: " ++ str e.

(** How the [for] loop of [stream_response] is left. *)
Inductive loop_exit : Type :=
| Exhausted (accumulated_text : pystr)
| Returned.

(** [hasattr(chunk, "text") and chunk.text] *)
Definition chunk_text (c : chunk) : option pystr :=
  match c with
  | Some text => if truthy text then Some text else None
  | None => None
  end.

(** The texts of the chunks the loop does not skip, in order. *)
Definition texts (cs : list chunk) : list pystr :=
  flat_map (fun c => match chunk_text c with Some t => [t] | None => [] end) cs.

Section WithEnvironment.
Context {env : Environment}.

Definition send_message_stream (chat : chat_session) (question : pystr)
  : M iterator :=
  emit (SendMessageStream question) ;;
  match chat question with
  | inl message => raise (Exception message)
  | inr response => ret response
  end.

(** [for chunk in response: ...]; the [await asyncio.sleep(0.01)] after a
    forwarded fragment changes nothing in the world. *)
Fixpoint for_chunk_in (response : iterator) (accumulated_text : pystr)
  : M loop_exit :=
  match response with
  | StopIteration => ret (Exhausted accumulated_text)
  | Raises message => raise (Exception message)
  | Next c rest =>
    match chunk_text c with
    | Some new_text =>
      let accumulated_text := accumulated_text ++ new_text in
      let chunk_tokens := RateLimiter.count_tokens new_text in
      within_limit <- check_token_rate_limit chunk_tokens ;;
      if negb within_limit
      then yield (content_event TRUNCATED) ;; yield DONE ;; ret Returned
      else yield (content_event new_text) ;; for_chunk_in rest accumulated_text
    | None => for_chunk_in rest accumulated_text
    end
  end.

(** [stream_response] *)
Definition stream_response
  (chat : chat_session) (question : pystr) (thread_id : uuid) (model : pystr)
  : M unit :=
  try_except
    (response <- send_message_stream chat question ;;
     exit <- for_chunk_in response [] ;;
     match exit with
     | Returned => ret tt
     | Exhausted accumulated_text =>
       let assistant_message :=
         {| Message.role := py "model";
            Message.content := accumulated_text;
            Message.model := Some model;
            Message.token_count :=
              Some (RateLimiter.count_tokens accumulated_text) |} in
       ThreadService.add_messages_to_thread thread_id None
         (Some assistant_message) ;;
       yield DONE
     end)
    (fun e => yield (content_event (error_text e)) ;; yield DONE).

(** [process_chat_request] *)
Definition process_chat_request
  (question : pystr) (history : list history_item) (model : pystr)
  (thread_id : uuid) : M response :=
  try_except
    (emit (ChatsCreate model history) ;;
     match chats_create model history with
     | inl message => raise (Exception message)
     | inr chat =>
       ret (StreamingResponse (stream_response chat question thread_id model))
     end)
    (fun e =>
       ret (Dict (py "model") (py "⚠️ Error processing request: " ++ str e))).

End WithEnvironment.
End ChatService.

(* ===================================================================== *)
(** ** app/api/routes/chat.py *)
(* ===================================================================== *)

Module ChatRoute.
Section WithEnvironment.
Context {env : Environment}.

(** [chat_with_thread]. The handler takes the request body, the thread id
    of the path and the session; it has no parameter for the caller.  The
    per-address limit of the [@limiter.limit] decorator acts before the
    handler is entered and is not part of it. *)
Definition chat_with_thread
  (chat_request : ChatRequestWithThread.t) (thread_id : uuid) : M response :=
  try_except
    (let question := ChatRequestWithThread.question chat_request in
     existing_conversation_history <-
       try_except (ThreadService.get_thread_messages_optimized thread_id)
                  (fun _ => ret []) ;;
     let complete_messages := existing_conversation_history in
     let new_user_message :=
       {| Message.role := py "user";
          Message.content := question;
          Message.model := None;
          Message.token_count := Some (RateLimiter.count_tokens question) |} in
     ThreadService.add_messages_to_thread thread_id
       (Some new_user_message) None ;;
     response_stream <-
       ChatService.process_chat_request question complete_messages
         (ChatRequestWithThread.model chat_request) thread_id ;;
     ret response_stream)
    (fun e =>
       match e with
       | RateLimitError limit_type limit =>
         raise (HTTPException rate_limit_status_code
                              (rate_limit_message limit_type limit))
       | HTTPException _ _ => raise e
       | Exception _ => raise (HTTPException 500 (str e))
       end).

(** The request as the framework serves it: the handler, then the body of
    the streaming response it returned, read to the end. *)
Definition serve_chat
  (chat_request : ChatRequestWithThread.t) (thread_id : uuid) : M unit :=
  r <- chat_with_thread chat_request thread_id ;;
  match r with
  | StreamingResponse body => body
  | Dict _ _ => ret tt
  end.

End WithEnvironment.
End ChatRoute.

(* ===================================================================== *)
(** ** Vocabulary of the properties *)
(* ===================================================================== *)

(** The [except] clauses of [chat_with_thread]: the exception the handler
    raises for the one it caught. *)
Definition as_http_exception (e : exn) : exn :=
  match e with
  | RateLimitError limit_type limit =>
    HTTPException rate_limit_status_code (rate_limit_message limit_type limit)
  | HTTPException _ _ => e
  | Exception _ => HTTPException 500 (str e)
  end.

Section Vocabulary.
Context {env : Environment}.
Import ChatService.

(** The decision the loop takes on a fragment in a given world. *)
Definition within_limit (new_text : pystr) (w : world) : bool :=
  fst (RateLimiter.check_token_rate_limit
         (clock (ticks w)) (RateLimiter.count_tokens new_text)
         (usage_tracking w)).

(** The world after that decision: the clock has been read once and the
    window is as [check_token_rate_limit] left it. *)
Definition after_check (new_text : pystr) (w : world) : world :=
  set_usage_tracking
    (snd (RateLimiter.check_token_rate_limit
            (clock (ticks w)) (RateLimiter.count_tokens new_text)
            (usage_tracking w)))
    (tick w).

(** The log only grows. *)
Definition grows (w w' : world) : Prop := exists evs, log w' = log w ++ evs.

(** The row [add_messages_to_thread] writes for a user message. *)
Definition user_row (thread_id : uuid) (m : Message.t) : Conversation.t :=
  {| Conversation.thread_id := thread_id;
     Conversation.role := py "user";
     Conversation.content := Message.content m;
     Conversation.model := None;
     Conversation.token_count := Some (ThreadService.token_count_or_count m) |}.

(** The same for an assistant response. *)
Definition model_row (thread_id : uuid) (m : Message.t) : Conversation.t :=
  {| Conversation.thread_id := thread_id;
     Conversation.role := py "model";
     Conversation.content := Message.content m;
     Conversation.model := Message.model m;
     Conversation.token_count := Some (ThreadService.token_count_or_count m) |}.

(** [get_thread] finds a row for the id. *)
Definition thread_exists (thread_id : uuid) (d : Db) : Prop :=
  exists th, find (fun th => (Thread.id th =? thread_id)%N) (threads d) = Some th.

(** The world after one row has been stored for an existing thread:
    three round trips, one clock reading. *)
Definition stored (thread_id : uuid) (row : Conversation.t) (w : world) : world :=
  {| db := ThreadService.set_updated_at thread_id (clock (ticks w))
             {| threads := threads (db w);
                conversations := conversations (db w) ++ [row] |};
     usage_tracking := usage_tracking w;
     ticks := S (ticks w);
     db_ops := S (S (S (db_ops w)));
     log := log w ++ [Inserted row; Touched thread_id (clock (ticks w))] |}.

(** The message [stream_response] stores once the loop is exhausted. *)
Definition assistant_message (accumulated_text model : pystr) : Message.t :=
  {| Message.role := py "model";
     Message.content := accumulated_text;
     Message.model := Some model;
     Message.token_count := Some (RateLimiter.count_tokens accumulated_text) |}.

(** What the [except] clause of [stream_response] does. *)
Definition reported (e : exn) (w : world) : world :=
  append_log (Yield DONE) (append_log (Yield (content_event (error_text e))) w).

(** The dictionary the handler builds for the question. *)
Definition new_user_message (question : pystr) : Message.t :=
  {| Message.role := py "user";
     Message.content := question;
     Message.model := None;
     Message.token_count := Some (RateLimiter.count_tokens question) |}.

(** What [process_chat_request] hands back. *)
Definition chat_response
  (question : pystr) (history : list history_item) (model : pystr)
  (thread_id : uuid) : response :=
  match chats_create model history with
  | inl message =>
    Dict (py "model")
         (py "⚠️ Error processing request: " ++ str (Exception message))
  | inr chat => StreamingResponse (stream_response chat question thread_id model)
  end.

(** The history query: one round trip. *)
Definition history_of (thread_id : uuid) (d : Db) : list history_item :=
  map (fun row =>
         {| hist_role := Conversation.role row;
            hist_parts := [Conversation.content row] |})
      (filter (fun row => (Conversation.thread_id row =? thread_id)%N)
              (conversations d)).

(** The history the handler works with: the thread's rows, or nothing
    when the query raised. *)
Definition history_seen (thread_id : uuid) (w : world) : list history_item :=
  match db_fault (db_ops w) with
  | Some _ => []
  | None => history_of thread_id (db w)
  end.

End Vocabulary.


(* ===================================================================== *)
(** ** Concrete scenarios *)
(* ===================================================================== *)

Module Scenario.

(** A tokenizer that returns one token per code point, so that
    [count_tokens text = len text]. *)
Definition len_tokenizer (text : pystr) : option (list N) := Some text.

(** A session that streams the given fragments and stops. *)
Definition replies (fragments : list pystr) : chat_session :=
  fun _ => inr (chunks_then (map Some fragments) StopIteration).

(** A session whose stream raises after the given fragments. *)
Definition breaks_after (fragments : list pystr) (message : pystr)
  : chat_session :=
  fun _ => inr (chunks_then (map Some fragments) (Raises message)).

(** A frozen clock, a healthy database, a model that always answers with
    [chat], and the given token budget. *)
Definition quiet (tokens_per_minute : Z) (chat : chat_session) : Environment :=
  {| REQUESTS_PER_MINUTE := 60;
     TOKENS_PER_MINUTE := tokens_per_minute;
     tiktoken_encode := len_tokenizer;
     clock := fun _ => 0;
     db_fault := fun _ => None;
     chats_create := fun _ _ => inr chat |}.


Definition alice : uuid := 7%N.

(** Thread 1, owned by [alice], with one earlier exchange. *)
Definition alices_thread : Db :=
  {| threads :=
       [ {| Thread.id := 1%N; Thread.title := py "notes";
            Thread.user_id := alice; Thread.updated_at := None;
            Thread.is_archived := false |} ];
     conversations :=
       [ {| Conversation.thread_id := 1%N; Conversation.role := py "user";
            Conversation.content := py "hi"; Conversation.model := None;
            Conversation.token_count := Some 2%Z |} ] |}.

Definition idle_window : RateLimiter.usage :=
  {| RateLimiter.last_reset := 0;
     RateLimiter.tokens_used := 0;
     RateLimiter.requests_used := 0 |}.

Definition start (d : Db) : world :=
  {| db := d; usage_tracking := idle_window; ticks := 0%nat; db_ops := 0%nat;
     log := [] |}.

Definition ask (question : string) : ChatRequestWithThread.t :=
  {| ChatRequestWithThread.model := py "gemini-2.0-flash";
     ChatRequestWithThread.question := py question |}.

(** The sessions and environments of the examples. *)
Definition two_fragments : chat_session := replies [py "aaaaa"; py "bbbbb"].

Definition hello_world : chat_session :=
  replies [py "Hel"; py "lo"; py " world"].

Definition broken_stream : chat_session :=
  breaks_after [py "Hel"] (py "upstream reset").

Definition refuses : chat_session := fun _ => inl (py "quota exhausted").

(** A token budget of 5 with a tokenizer counting code points. *)
Definition tight : Environment := quiet 5 two_fragments.

Definition roomy : Environment := quiet 60000 hello_world.

Definition flaky : Environment := quiet 60000 broken_stream.


Definition gemini : pystr := py "gemini-2.0-flash".

End Scenario.


(* ===================================================================== *)
(** ** The rest of the throttle, as the routes call it *)
(* ===================================================================== *)

Module Process.
Section WithEnvironment.
Context {env : Environment}.

(** [track_request] on the global window of the process. *)
Definition track_request : M unit :=
  current_time <- time_time ;;
  fun w =>
    let (r, u) := RateLimiter.track_request current_time (usage_tracking w) in
    (r, set_usage_tracking u w).

(** [get_rate_limit_status] on the global window of the process: the
    clock is read in [check_and_reset_counters] and again for
    [time_until_reset]. *)
Definition get_rate_limit_status : M RateLimiter.rate_limit_status :=
  current_time <- time_time ;;
  status_time <- time_time ;;
  fun w =>
    let (status, u) :=
      RateLimiter.get_rate_limit_status current_time status_time
        (usage_tracking w) in
    (inr status, set_usage_tracking u w).

End WithEnvironment.
End Process.

(* ===================================================================== *)
(** ** app/api/routes/rate_limits.py *)
(* ===================================================================== *)

Module RateLimitsRoute.

(** [get_rate_limits]: the request is tracked, then the status is read. *)
Definition get_rate_limits {env : Environment}
  : M RateLimiter.rate_limit_status :=
  Process.track_request ;;
  status <- Process.get_rate_limit_status ;;
  ret status.

End RateLimitsRoute.

(* ===================================================================== *)
(** ** The statements the remaining queries run on the tables *)
(* ===================================================================== *)

Module Sql.

(** [filter(Conversation.thread_id == thread_id)] ordered by
    [created_at]: the rows of a thread, oldest first. *)
Definition rows_of (thread_id : uuid) (d : Db) : list Conversation.t :=
  filter (fun row => (Conversation.thread_id row =? thread_id)%N)
         (conversations d).

(** [db.delete(db_thread)] and the commit: the row goes, and with it the
    conversations of the thread (the relationship cascades). *)
Definition without_thread (thread_id : uuid) (d : Db) : Db :=
  {| threads :=
       filter (fun th => negb (Thread.id th =? thread_id)%N) (threads d);
     conversations :=
       filter (fun row => negb (Conversation.thread_id row =? thread_id)%N)
              (conversations d) |}.

(** [db.query(Conversation).filter(...).delete()] and the commit. *)
Definition without_messages (thread_id : uuid) (d : Db) : Db :=
  {| threads := threads d;
     conversations :=
       filter (fun row => negb (Conversation.thread_id row =? thread_id)%N)
              (conversations d) |}.

(** The counts that are not null. *)
Definition token_counts (rows : list Conversation.t) : list Z :=
  flat_map (fun row => match Conversation.token_count row with
                       | Some n => [n]
                       | None => []
                       end) rows.

(** [func.sum(Conversation.token_count)] with the filter
    [token_count.isnot(None)]: [None] when no row is left. *)
Definition sum_token_count (rows : list Conversation.t) : option Z :=
  match token_counts rows with
  | [] => None
  | counts => Some (fold_right Z.add 0%Z counts)
  end.

(** [result or 0] on an optional integer. *)
Definition or_zero (result : option Z) : Z :=
  match result with
  | Some n => n
  | None => 0%Z
  end.

(** [COALESCE(x, 0)] *)
Definition coalesce_zero (result : option Z) : option Z :=
  match result with
  | Some n => Some n
  | None => Some 0%Z
  end.

End Sql.

(* ===================================================================== *)
(** ** app/crud/chat.py, continued *)
(* ===================================================================== *)

Module CrudMore.
Section WithEnvironment.
Context {env : Environment}.

(** [get_user_threads] *)
Definition get_user_threads (user_id : uuid) : M (list Thread.t) :=
  round_trip (fun d =>
    (filter (fun th => (Thread.user_id th =? user_id)%N) (threads d), d)).

(** [delete_thread] *)
Definition delete_thread (thread_id : uuid) : M bool :=
  db_thread <- Crud.get_thread thread_id ;;
  match db_thread with
  | None => ret false
  | Some _ =>
    round_trip (fun d => (tt, Sql.without_thread thread_id d)) ;;
    ret true
  end.

(** [get_thread_conversations], with its [offset] and [limit]. *)
Definition get_thread_conversations
  (thread_id : uuid) (skip limit : nat) : M (list Conversation.t) :=
  round_trip (fun d =>
    (firstn limit (skipn skip (Sql.rows_of thread_id d)), d)).

End WithEnvironment.
End CrudMore.

(* ===================================================================== *)
(** ** app/threads/thread_service.py, continued *)
(* ===================================================================== *)

Module ThreadServiceMore.
Section WithEnvironment.
Context {env : Environment}.

(** [get_all_threads] *)
Definition get_all_threads (user_id : uuid) : M (list Thread.t) :=
  CrudMore.get_user_threads user_id.

(** [delete_thread] *)
Definition delete_thread (thread_id : uuid) : M bool :=
  CrudMore.delete_thread thread_id.

(** [get_thread_messages]: [skip] and [limit] are left at their
    defaults, 0 and 100. *)
Definition get_thread_messages (thread_id : uuid) : M (list Conversation.t) :=
  CrudMore.get_thread_conversations thread_id 0 100.

(** [get_thread_token_count] *)
Definition get_thread_token_count (thread_id : uuid) : M Z :=
  result <- round_trip (fun d =>
              (Sql.sum_token_count (Sql.rows_of thread_id d), d)) ;;
  ret (Sql.or_zero result).

End WithEnvironment.
End ThreadServiceMore.

(* ===================================================================== *)
(** ** app/chat/chat_service.py, continued *)
(* ===================================================================== *)

Module ChatServiceMore.

(** [get_total_tokens_from_db] *)
Definition get_total_tokens_from_db {env : Environment} (thread_id : uuid)
  : M Z :=
  result <- round_trip (fun d =>
              (Sql.sum_token_count (Sql.rows_of thread_id d), d)) ;;
  ret (Sql.or_zero result).

End ChatServiceMore.

(* ===================================================================== *)
(** ** app/utils/token_utils.py *)
(* ===================================================================== *)

Module TokenUtils.

(** The dictionary returned by [get_thread_token_usage_stats]. *)
Record stats : Type := Stats {
  total_tokens : Z;
  user_tokens : Z;
  assistant_tokens : Z;
  message_count : Z;
  average_tokens_per_message : Q
}.

(** [Conversation.role == "user"] and
    [Conversation.role.in_(["assistant", "model"])]. *)
Definition is_user (row : Conversation.t) : bool :=
  if list_eq_dec N.eq_dec (Conversation.role row) (py "user")
  then true else false.

Definition is_assistant (row : Conversation.t) : bool :=
  if list_eq_dec N.eq_dec (Conversation.role row) (py "assistant")
  then true
  else if list_eq_dec N.eq_dec (Conversation.role row) (py "model")
       then true else false.

Section WithEnvironment.
Context {env : Environment}.

(** [calculate_input_tokens_for_messages]: the total, and the messages
    as the caching loop leaves them. *)
Definition calculate_input_tokens_for_messages (messages : list Message.t)
  : Z * list Message.t :=
  let total_tokens :=
    fold_right Z.add 0%Z (map ThreadService.token_count_or_count messages) in
  (total_tokens,
   map (fun msg =>
          match Message.token_count msg with
          | None =>
            {| Message.role := Message.role msg;
               Message.content := Message.content msg;
               Message.model := Message.model msg;
               Message.token_count :=
                 Some (RateLimiter.count_tokens (Message.content msg)) |}
          | Some _ => msg
          end)
       messages).

(** [get_thread_total_tokens_optimized] *)
Definition get_thread_total_tokens_optimized (thread_id : uuid) : M Z :=
  result <- round_trip (fun d =>
              (Sql.coalesce_zero
                 (Sql.sum_token_count (Sql.rows_of thread_id d)), d)) ;;
  ret (Sql.or_zero result).

(** [get_thread_token_usage_stats] *)
Definition get_thread_token_usage_stats (thread_id : uuid) : M stats :=
  user_sum <- round_trip (fun d =>
    (Sql.sum_token_count (filter is_user (Sql.rows_of thread_id d)), d)) ;;
  let user_tokens := Sql.or_zero user_sum in
  assistant_sum <- round_trip (fun d =>
    (Sql.sum_token_count (filter is_assistant (Sql.rows_of thread_id d)), d)) ;;
  let assistant_tokens := Sql.or_zero assistant_sum in
  let total_tokens := (user_tokens + assistant_tokens)%Z in
  counted <- round_trip (fun d =>
    (Some (Z.of_nat (List.length (Sql.rows_of thread_id d))), d)) ;;
  let message_count := Sql.or_zero counted in
  ret {| total_tokens := total_tokens;
         user_tokens := user_tokens;
         assistant_tokens := assistant_tokens;
         message_count := message_count;
         average_tokens_per_message :=
           if (message_count >? 0)%Z
           then inject_Z total_tokens / inject_Z message_count
           else 0 |}.

End WithEnvironment.
End TokenUtils.

(* ===================================================================== *)
(** ** app/api/routes/threads.py *)
(* ===================================================================== *)

Module ThreadsRoute.

(** [str(thread_id)] for a [uuid.UUID]: 32 lower-case hexadecimal digits
    in groups of 8, 4, 4, 4 and 12. *)
Fixpoint hex_digits (count : nat) (n : N) : pystr :=
  match count with
  | O => []
  | S count' => hex_digits count' (n / 16) ++ [hex_digit (n mod 16)]
  end.

Definition str_uuid (u : uuid) : pystr :=
  let digits := hex_digits 32 u in
  firstn 8 digits ++ py "-" ++ firstn 4 (skipn 8 digits) ++ py "-"
    ++ firstn 4 (skipn 12 digits) ++ py "-" ++ firstn 4 (skipn 16 digits)
    ++ py "-" ++ skipn 20 digits.

Definition not_found (thread_id : uuid) : exn :=
  HTTPException 404 (py "Thread with ID " ++ str_uuid thread_id
                       ++ py " not found").

(** [except HTTPException: raise] followed by
    [except Exception as e: raise HTTPException(500, str(e))]. *)
Definition reraise_as_500 (e : exn) : exn :=
  match e with
  | HTTPException _ _ => e
  | _ => HTTPException 500 (str e)
  end.

Section WithEnvironment.
Context {env : Environment}.

(** [list_all_threads] *)
Definition list_all_threads (current_user : uuid) : M (list Thread.t) :=
  Process.track_request ;;
  ThreadServiceMore.get_all_threads current_user.

(** [get_thread_by_id] *)
Definition get_thread_by_id (thread_id current_user : uuid) : M Thread.t :=
  Process.track_request ;;
  thread <- ThreadService.get_thread thread_id ;;
  match thread with
  | None => raise (not_found thread_id)
  | Some thread =>
    if negb (Thread.user_id thread =? current_user)%N
    then raise (HTTPException 403
                  (py "You don't have permission to access this thread"))
    else ret thread
  end.

(** [delete_thread_by_id]; the result is the ["message"] of the
    dictionary it returns. *)
Definition delete_thread_by_id (thread_id current_user : uuid) : M pystr :=
  try_except
    (Process.track_request ;;
     thread <- ThreadService.get_thread thread_id ;;
     match thread with
     | None => raise (not_found thread_id)
     | Some thread =>
       if negb (Thread.user_id thread =? current_user)%N
       then raise (HTTPException 403
                     (py "You don't have permission to delete this thread"))
       else
         success <- ThreadServiceMore.delete_thread thread_id ;;
         if negb success
         then raise (HTTPException 500
                       (py "Error deleting thread " ++ str_uuid thread_id))
         else ret (py "Thread '" ++ Thread.title thread
                     ++ py "' deleted successfully")
     end)
    (fun e => raise (reraise_as_500 e)).

(** [get_messages_for_thread] *)
Definition get_messages_for_thread (thread_id current_user : uuid)
  : M (list Conversation.t) :=
  Process.track_request ;;
  thread <- ThreadService.get_thread thread_id ;;
  match thread with
  | None => raise (not_found thread_id)
  | Some thread =>
    if negb (Thread.user_id thread =? current_user)%N
    then raise (HTTPException 403
                  (py "You don't have permission to access this thread"))
    else ThreadServiceMore.get_thread_messages thread_id
  end.

(** [clear_thread_messages]; the result is the ["message"] of the
    dictionary it returns. *)
Definition clear_thread_messages (thread_id current_user : uuid) : M pystr :=
  Process.track_request ;;
  thread <- ThreadService.get_thread thread_id ;;
  match thread with
  | None => raise (not_found thread_id)
  | Some thread =>
    if negb (Thread.user_id thread =? current_user)%N
    then raise (HTTPException 403
                  (py "You don't have permission to clear messages in this thread"))
    else
      round_trip (fun d => (tt, Sql.without_messages thread_id d)) ;;
      ret (py "Messages cleared successfully")
  end.

End WithEnvironment.
End ThreadsRoute.

(* ===================================================================== *)
(** ** Vocabulary of the further properties *)
(* ===================================================================== *)

(** A character that [json.dumps] leaves as it is: printable ASCII. *)
Definition printableb (c : N) : bool := ((32 <=? c) && (c <=? 126))%N.

(** The iterator without the chunks that carry no text. *)
Fixpoint drop_textless (it : iterator) : iterator :=
  match it with
  | StopIteration => StopIteration
  | Raises message => Raises message
  | Next c rest =>
    match ChatService.chunk_text c with
    | Some _ => Next c (drop_textless rest)
    | None => drop_textless rest
    end
  end.

(** The sum of the counts stored for a thread, null counts left out. *)
Definition thread_total (thread_id : uuid) (d : Db) : Z :=
  fold_right Z.add 0%Z (Sql.token_counts (Sql.rows_of thread_id d)).

(** The thread with this id, as [get_thread] finds it. *)
Definition thread_of (thread_id : uuid) (d : Db) : option Thread.t :=
  find (fun th => (Thread.id th =? thread_id)%N) (threads d).

(** The thread exists and belongs to the user. *)
Definition owns (user : uuid) (thread_id : uuid) (d : Db) : Prop :=
  exists th, thread_of thread_id d = Some th /\ Thread.user_id th = user.

Section RouteVocabulary.
Context {env : Environment}.

(** The window as the next [track_request] finds it after its reset
    check. *)
Definition window_now (w : world) : RateLimiter.usage :=
  RateLimiter.check_and_reset_counters (clock (ticks w)) (usage_tracking w).

(** The request budget of that window is used up. *)
Definition budget_used_up (w : world) : Prop :=
  (RateLimiter.requests_used (window_now w) >= REQUESTS_PER_MINUTE)%Z.

(** The world after [track_request] has counted the request. *)
Definition tracked (w : world) : world :=
  set_usage_tracking (RateLimiter.add_requests_used 1 (window_now w)) (tick w).

End RouteVocabulary.

(* ===================================================================== *)
(** ** Further scenarios *)
(* ===================================================================== *)

Module Visitors.
Import Scenario.

Definition bob : uuid := 8%N.

(** Thread 1 of [alice] as before, and thread 2 of [bob] with a row of
    another role and a row without a count. *)
Definition two_threads : Db :=
  {| threads :=
       threads alices_thread
       ++ [ {| Thread.id := 2%N; Thread.title := py "plans";
               Thread.user_id := bob; Thread.updated_at := None;
               Thread.is_archived := false |} ];
     conversations :=
       conversations alices_thread
       ++ [ {| Conversation.thread_id := 2%N;
               Conversation.role := py "system";
               Conversation.content := py "be brief";
               Conversation.model := None;
               Conversation.token_count := Some 8%Z |};
            {| Conversation.thread_id := 2%N;
               Conversation.role := py "user";
               Conversation.content := py "when";
               Conversation.model := None;
               Conversation.token_count := None |};
            {| Conversation.thread_id := 2%N;
               Conversation.role := py "model";
               Conversation.content := py "soon";
               Conversation.model := Some (py "gemini-2.0-flash");
               Conversation.token_count := Some 4%Z |} ] |}.

(** A window whose request budget of 60 is used up. *)
Definition spent_window : RateLimiter.usage :=
  {| RateLimiter.last_reset := 0;
     RateLimiter.tokens_used := 0;
     RateLimiter.requests_used := 60 |}.

Definition busy (d : Db) : world :=
  {| db := d; usage_tracking := spent_window; ticks := 0%nat;
     db_ops := 0%nat; log := [] |}.

(** An environment in which no chat session can be created. *)
Definition no_session : Environment :=
  {| REQUESTS_PER_MINUTE := 60;
     TOKENS_PER_MINUTE := 60000;
     tiktoken_encode := len_tokenizer;
     clock := fun _ => 0;
     db_fault := fun _ => None;
     chats_create := fun _ _ => inl (py "API key not valid") |}.

(** Two messages as the callers build them. *)
Definition question : Message.t :=
  {| Message.role := py "user"; Message.content := py "q";
     Message.model := None; Message.token_count := None |}.

Definition answer : Message.t :=
  {| Message.role := py "assistant"; Message.content := py "fine";
     Message.model := Some (py "gemini-2.0-flash");
     Message.token_count := Some 0%Z |}.

End Visitors.


(* ===================================================================== *)
(** * Proof steps shared by the properties *)
(* ===================================================================== *)

(** Unfolding the monad's combinators. *)
Ltac run :=
  unfold bind, ret, raise, try_except, yield, emit, time_time,
    datetime_utcnow in *.

(** Unfolding the updates of a world. *)
Ltac worlds :=
  unfold append_log, set_db, set_usage_tracking, count_db_op, tick in *;
  simpl in *.

(** The log of the goal's world is the old log followed by [evs]. *)
Ltac grew evs :=
  exists evs; worlds; rewrite <- ?app_assoc, ?app_nil_r; reflexivity.


(* ===================================================================== *)
(** * Properties of the usage throttle *)
(* ===================================================================== *)

Section ThrottleProperties.
Context {env : Environment}.
Import RateLimiter.

Lemma Qgtb_true (x y : Q) : Qgtb x y = true <-> (y < x)%Q.
Proof.
  unfold Qgtb. rewrite negb_true_iff. split; intro H.
  - apply Qnot_le_lt. intro Hle. apply Qle_bool_iff in Hle. congruence.
  - destruct (Qle_bool x y) eqn:E; [|reflexivity].
    apply Qle_bool_iff in E. exfalso. exact (Qlt_not_le _ _ H E).
Qed.

Lemma Qgtb_false (x y : Q) : Qgtb x y = false <-> (x <= y)%Q.
Proof.
  unfold Qgtb. rewrite negb_false_iff. apply Qle_bool_iff.
Qed.

(** An expired window is replaced by a fresh one, a live one is kept. *)
Lemma check_and_reset_expired (current_time : Q) (u : usage) :
  (60 < current_time - last_reset u)%Q ->
  check_and_reset_counters current_time u = fresh_window current_time.
Proof.
  intro H. unfold check_and_reset_counters.
  apply Qgtb_true in H. rewrite H. reflexivity.
Qed.

Lemma check_and_reset_live (current_time : Q) (u : usage) :
  (current_time - last_reset u <= 60)%Q ->
  check_and_reset_counters current_time u = u.
Proof.
  intro H. unfold check_and_reset_counters.
  apply Qgtb_false in H. rewrite H. reflexivity.
Qed.

(** A window that has just been installed is not expired at the reading
    that installed it. *)
Lemma check_and_reset_fresh (current_time : Q) :
  check_and_reset_counters current_time (fresh_window current_time)
  = fresh_window current_time.
Proof.
  apply check_and_reset_live. simpl.
  setoid_replace (current_time - current_time)%Q with 0%Q by ring.
  discriminate.
Qed.

Lemma check_and_reset_idempotent (current_time : Q) (u : usage) :
  check_and_reset_counters current_time (check_and_reset_counters current_time u)
  = check_and_reset_counters current_time u.
Proof.
  destruct (Qgtb (current_time - last_reset u) 60) eqn:E.
  - apply Qgtb_true in E. rewrite (check_and_reset_expired _ _ E).
    apply check_and_reset_fresh.
  - apply Qgtb_false in E. now rewrite !(check_and_reset_live _ _ E).
Qed.

(** C4. After the reset check, [track_request] raises
    [RateLimitError("Request", REQUESTS_PER_MINUTE)] and leaves the window
    as it is when [requests_used >= REQUESTS_PER_MINUTE], and otherwise
    adds exactly one to [requests_used] and returns;
    [check_token_rate_limit(count)] returns [False] and leaves the window
    as it is when [tokens_used + count > TOKENS_PER_MINUTE], and otherwise
    adds exactly [count] to [tokens_used] and returns [True]. *)
Theorem admission_after_reset_check
  (current_time : Q) (token_count : Z) (u : usage) :
  let window := check_and_reset_counters current_time u in
  ((requests_used window >= REQUESTS_PER_MINUTE)%Z ->
     track_request current_time u
     = (inl (RateLimitError (py "Request") REQUESTS_PER_MINUTE), window))
  /\ ((requests_used window < REQUESTS_PER_MINUTE)%Z ->
        track_request current_time u
        = (inr tt,
           {| last_reset := last_reset window;
              tokens_used := tokens_used window;
              requests_used := requests_used window + 1 |}))
  /\ ((tokens_used window + token_count > TOKENS_PER_MINUTE)%Z ->
        check_token_rate_limit current_time token_count u = (false, window))
  /\ ((tokens_used window + token_count <= TOKENS_PER_MINUTE)%Z ->
        check_token_rate_limit current_time token_count u
        = (true,
           {| last_reset := last_reset window;
              tokens_used := tokens_used window + token_count;
              requests_used := requests_used window |})).
Proof.
  intro window. unfold track_request, check_token_rate_limit.
  fold window. repeat split; intro H.
  - destruct (Z.geb_spec (requests_used window) REQUESTS_PER_MINUTE);
      [reflexivity | lia].
  - destruct (Z.geb_spec (requests_used window) REQUESTS_PER_MINUTE);
      [lia | reflexivity].
  - rewrite Z.gtb_ltb.
    destruct (Z.ltb_spec TOKENS_PER_MINUTE (tokens_used window + token_count));
      [reflexivity | lia].
  - rewrite Z.gtb_ltb.
    destruct (Z.ltb_spec TOKENS_PER_MINUTE (tokens_used window + token_count));
      [lia | reflexivity].
Qed.

(** On a non-negative float, [int] is the floor. *)
Lemma py_int_floor (x : Q) : (0 <= x)%Q -> py_int x = Qfloor x.
Proof.
  destruct x as [n d]. unfold Qle, py_int, Qfloor. simpl. intro H.
  apply Z.quot_div_nonneg; lia.
Qed.

(** C3 (amended). For every window state, after the reset check,
    [get_rate_limit_status] reports for the requests budget
    [remaining = max(0, limit - used)]; for the tokens budget
    [remaining = limit - used], which is [max(0, limit - used)] whenever
    [tokens_used] has not passed [TOKENS_PER_MINUTE]; and for both budgets
    [reset_after_seconds] is the whole number of seconds in
    [max(0, 60 - (now - last_reset))], the fraction being cut off by
    [int(...)]. The window is left as the reset check left it.  Only the
    floor of the tokens entry depends on the window being within the
    token budget. *)
Theorem status_after_reset_check (current_time status_time : Q) (u : usage) :
  let window := check_and_reset_counters current_time u in
  let status := fst (get_rate_limit_status current_time status_time u) in
  let time_until_reset := Qmax 0 (60 - (status_time - last_reset window)) in
  limit (requests status) = REQUESTS_PER_MINUTE
  /\ used (requests status) = requests_used window
  /\ remaining (requests status)
     = Z.max 0 (REQUESTS_PER_MINUTE - requests_used window)
  /\ limit (tokens status) = TOKENS_PER_MINUTE
  /\ used (tokens status) = tokens_used window
  /\ remaining (tokens status)
     = (TOKENS_PER_MINUTE - tokens_used window)%Z
  /\ ((tokens_used window <= TOKENS_PER_MINUTE)%Z ->
      remaining (tokens status)
      = Z.max 0 (TOKENS_PER_MINUTE - tokens_used window))
  /\ reset_after_seconds (requests status) = Qfloor time_until_reset
  /\ reset_after_seconds (tokens status) = Qfloor time_until_reset
  /\ (inject_Z (reset_after_seconds (requests status)) <= time_until_reset)%Q
  /\ (time_until_reset < inject_Z (reset_after_seconds (requests status)) + 1)%Q
  /\ snd (get_rate_limit_status current_time status_time u) = window.
Proof.
  intros window status time_until_reset.
  assert (Hfloor : py_int time_until_reset = Qfloor time_until_reset).
  { apply py_int_floor. apply Q.le_max_l. }
  unfold status, get_rate_limit_status. fold window. simpl.
  fold time_until_reset. rewrite Hfloor.
  do 6 (split; [reflexivity|]).
  split; [intro Htokens; lia|].
  do 2 (split; [reflexivity|]).
  split; [apply Qfloor_le|].
  split; [|reflexivity].
  rewrite <- (inject_Z_plus _ 1). apply Qlt_floor.
Qed.

(** Every call starts with the reset check, so running the check first
    changes nothing. *)
Lemma run_call_after_reset_check (c : call) (u : usage) :
  run_call c (check_and_reset_counters (reset_check_time c) u) = run_call c u.
Proof.
  destruct c; simpl;
    unfold track_request, check_token_rate_limit, get_rate_limit_status;
    rewrite check_and_reset_idempotent; reflexivity.
Qed.

Lemma run_calls_app (cs1 cs2 : list call) (u : usage) :
  snd (run_calls (cs1 ++ cs2) u) = snd (run_calls cs2 (snd (run_calls cs1 u))).
Proof.
  revert u. induction cs1 as [|c cs1 IH]; intro u; simpl.
  - reflexivity.
  - destruct (run_call c u) as [o u1]. specialize (IH u1).
    destruct (run_calls (cs1 ++ cs2) u1) as [os u2].
    destruct (run_calls cs1 u1) as [os1 u3]. simpl in *. exact IH.
Qed.

Lemma run_call_without_reset (c : call) (u : usage) :
  expires c u = false ->
  let (o, u') := run_call c u in
  last_reset u' = last_reset u
  /\ requests_used u' = (requests_used u + admitted_request o)%Z
  /\ tokens_used u' = (tokens_used u + admitted_token_count c o)%Z.
Proof.
  unfold expires. intro Hlive.
  assert (Hsame : check_and_reset_counters (reset_check_time c) u = u).
  { unfold check_and_reset_counters. rewrite Hlive. reflexivity. }
  destruct c as [t | t n | t t']; simpl in *.
  - unfold track_request. rewrite Hsame.
    destruct (requests_used u >=? REQUESTS_PER_MINUTE)%Z; simpl;
      repeat split; lia.
  - unfold check_token_rate_limit. rewrite Hsame.
    destruct (tokens_used u + n >? TOKENS_PER_MINUTE)%Z; simpl;
      repeat split; lia.
  - unfold get_rate_limit_status. rewrite Hsame. simpl. repeat split; lia.
Qed.

Lemma run_calls_without_reset (cs : list call) :
  forall u, no_reset cs u = true ->
  let (os, u') := run_calls cs u in
  last_reset u' = last_reset u
  /\ requests_used u' = (requests_used u + admitted_requests os)%Z
  /\ tokens_used u' = (tokens_used u + admitted_tokens cs os)%Z.
Proof.
  induction cs as [|c cs IH]; intros u H; simpl in *.
  - repeat split; lia.
  - apply andb_true_iff in H. destruct H as [Hc Hcs].
    apply negb_true_iff in Hc.
    pose proof (run_call_without_reset c u Hc) as Hstep.
    destruct (run_call c u) as [o u1]. simpl in Hcs.
    specialize (IH u1 Hcs). destruct (run_calls cs u1) as [os u2].
    destruct Hstep as (Hl1 & Hr1 & Ht1). destruct IH as (Hl2 & Hr2 & Ht2).
    simpl. repeat split; [congruence | lia | lia].
Qed.

Lemma fresh_window_not_expired (c : call) :
  expires c (fresh_window (reset_check_time c)) = false.
Proof.
  unfold expires. apply Qgtb_false. simpl.
  setoid_replace (reset_check_time c - reset_check_time c)%Q with 0%Q by ring.
  discriminate.
Qed.

(** C8. Whenever a call (request admission, token admission or status)
    observes [now - last_reset > 60], the window it reads and updates is
    the fresh one ([last_reset = now], both counters zero): what the call
    returns and every later result and window are those of the same calls
    made on that fresh window, whatever was counted before.  Until the
    next reset the counters are exactly the requests and the tokens
    admitted since this one. *)
Theorem counters_restart_at_window_boundary
  (before : list call) (c : call) (rest : list call) (u : usage) :
  let window := snd (run_calls before u) in
  let fresh := fresh_window (reset_check_time c) in
  let final := snd (run_calls (before ++ c :: rest) u) in
  let outcomes := fst (run_calls (c :: rest) window) in
  (reset_check_time c - last_reset window > 60)%Q ->
  check_and_reset_counters (reset_check_time c) window = fresh
  /\ run_call c window = run_call c fresh
  /\ run_calls (c :: rest) window = run_calls (c :: rest) fresh
  /\ final = snd (run_calls (c :: rest) fresh)
  /\ (no_reset rest (snd (run_call c window)) = true ->
      last_reset final = reset_check_time c
      /\ requests_used final = admitted_requests outcomes
      /\ tokens_used final = admitted_tokens (c :: rest) outcomes).
Proof.
  intros window fresh final outcomes Hexpired.
  assert (Hreset : check_and_reset_counters (reset_check_time c) window = fresh)
    by (apply check_and_reset_expired; exact Hexpired).
  assert (Hcall : run_call c window = run_call c fresh).
  { rewrite <- (run_call_after_reset_check c window), Hreset.
    reflexivity. }
  assert (Hcalls : run_calls (c :: rest) window = run_calls (c :: rest) fresh).
  { simpl. rewrite Hcall. reflexivity. }
  assert (Hfinal : final = snd (run_calls (c :: rest) fresh)).
  { unfold final. rewrite run_calls_app. fold window.
    rewrite Hcalls. reflexivity. }
  split; [exact Hreset|]. split; [exact Hcall|]. split; [exact Hcalls|].
  split; [exact Hfinal|]. intro Hquiet.
  assert (Hnone : no_reset (c :: rest) fresh = true).
  { simpl. unfold fresh at 1. rewrite fresh_window_not_expired.
    rewrite <- Hcall. exact Hquiet. }
  pose proof (run_calls_without_reset (c :: rest) fresh Hnone) as Htally.
  unfold outcomes. rewrite Hfinal, Hcalls.
  destruct (run_calls (c :: rest) fresh) as [os u'].
  destruct Htally as (Hl & Hr & Ht). simpl in *.
  repeat split; [assumption | lia | lia].
Qed.

(** With a non-negative token budget and a window that respects it, no
    call makes [tokens_used] pass [TOKENS_PER_MINUTE]. *)
Lemma tokens_used_within_budget (c : call) (u : usage) :
  (0 <= TOKENS_PER_MINUTE)%Z ->
  (tokens_used u <= TOKENS_PER_MINUTE)%Z ->
  (tokens_used (snd (run_call c u)) <= TOKENS_PER_MINUTE)%Z.
Proof.
  intros Hbudget Hu.
  assert (Hw : forall t,
    (tokens_used (check_and_reset_counters t u) <= TOKENS_PER_MINUTE)%Z).
  { intro t. unfold check_and_reset_counters.
    destruct (Qgtb (t - last_reset u) 60); simpl; assumption. }
  destruct c as [t | t n | t t']; simpl.
  - unfold track_request. specialize (Hw t).
    destruct (requests_used (check_and_reset_counters t u)
              >=? REQUESTS_PER_MINUTE)%Z; simpl; assumption.
  - unfold check_token_rate_limit. specialize (Hw t).
    rewrite Z.gtb_ltb.
    destruct (Z.ltb_spec TOKENS_PER_MINUTE
                (tokens_used (check_and_reset_counters t u) + n));
      simpl; lia.
  - apply Hw.
Qed.

End ThrottleProperties.


(* ===================================================================== *)
(** * Properties of the stream generator *)
(* ===================================================================== *)

Section StreamProperties.
Context {env : Environment}.
Import ChatService.

(** The lifted token check always returns, reads the clock once, and
    touches nothing but the window. *)
Lemma check_token_rate_limit_run (n : Z) (w : world) :
  check_token_rate_limit n w
  = (inr (fst (RateLimiter.check_token_rate_limit
                 (clock (ticks w)) n (usage_tracking w))),
     set_usage_tracking
       (snd (RateLimiter.check_token_rate_limit
               (clock (ticks w)) n (usage_tracking w)))
       (tick w)).
Proof.
  unfold check_token_rate_limit. run. simpl.
  destruct (RateLimiter.check_token_rate_limit _ _ _); reflexivity.
Qed.

Lemma for_chunk_in_skip (c : chunk) (rest : iterator) (acc : pystr) (w : world) :
  chunk_text c = None ->
  for_chunk_in (Next c rest) acc w = for_chunk_in rest acc w.
Proof. intro H. simpl. rewrite H. reflexivity. Qed.

Lemma for_chunk_in_forward
  (c : chunk) (new_text : pystr) (rest : iterator) (acc : pystr) (w : world) :
  chunk_text c = Some new_text ->
  within_limit new_text w = true ->
  for_chunk_in (Next c rest) acc w
  = for_chunk_in rest (acc ++ new_text)
      (append_log (Yield (content_event new_text)) (after_check new_text w)).
Proof.
  intros Hc Hok. simpl. rewrite Hc. unfold bind at 1.
  rewrite check_token_rate_limit_run. fold (within_limit new_text w).
  rewrite Hok. simpl. reflexivity.
Qed.

Lemma for_chunk_in_truncate
  (c : chunk) (new_text : pystr) (rest : iterator) (acc : pystr) (w : world) :
  chunk_text c = Some new_text ->
  within_limit new_text w = false ->
  for_chunk_in (Next c rest) acc w
  = (inr Returned,
     append_log (Yield DONE)
       (append_log (Yield (content_event TRUNCATED)) (after_check new_text w))).
Proof.
  intros Hc Hok. simpl. rewrite Hc. unfold bind at 1.
  rewrite check_token_rate_limit_run. fold (within_limit new_text w).
  rewrite Hok. simpl. reflexivity.
Qed.

Lemma grows_refl (w : world) : grows w w.
Proof. exists []. now rewrite app_nil_r. Qed.

Lemma grows_trans (w1 w2 w3 : world) : grows w1 w2 -> grows w2 w3 -> grows w1 w3.
Proof.
  intros [e1 H1] [e2 H2]. exists (e1 ++ e2). now rewrite H2, H1, app_assoc.
Qed.

Lemma grows_same_log (w w' : world) : log w' = log w -> grows w w'.
Proof. intro H. exists []. now rewrite app_nil_r. Qed.

Lemma grows_append (e : effect) (w w' : world) :
  grows w w' -> grows w (append_log e w').
Proof.
  intros [evs H]. exists (evs ++ [e]). simpl. now rewrite H, app_assoc.
Qed.

(** The loop leaves the tables and the session alone and only adds to the
    log; when it is left by [return], the last thing logged is the
    sentinel. *)
Lemma for_chunk_in_frame (it : iterator) :
  forall (acc : pystr) (w : world),
    let (r, w') := for_chunk_in it acc w in
    db w' = db w /\ db_ops w' = db_ops w /\ grows w w'
    /\ (r = inr Returned ->
        exists evs, log w' = log w ++ evs ++ [Yield DONE]).
Proof.
  induction it as [| c rest IH | message]; intros acc w.
  - simpl. repeat split; try apply grows_refl. discriminate.
  - destruct (chunk_text c) as [new_text|] eqn:Hc.
    + destruct (within_limit new_text w) eqn:Hok.
      * rewrite (for_chunk_in_forward c new_text rest acc w Hc Hok).
        specialize (IH (acc ++ new_text)
          (append_log (Yield (content_event new_text)) (after_check new_text w))).
        destruct (for_chunk_in rest _ _) as [r w'].
        destruct IH as (Hdb & Hops & Hgrow & Hret).
        simpl in Hdb, Hops. repeat split; try assumption.
        -- eapply grows_trans; [|exact Hgrow].
           apply grows_append, grows_same_log. reflexivity.
        -- intro Hr. destruct (Hret Hr) as [evs Hevs].
           exists (Yield (content_event new_text) :: evs).
           rewrite Hevs. simpl. now rewrite <- app_assoc.
      * rewrite (for_chunk_in_truncate c new_text rest acc w Hc Hok).
        simpl. repeat split.
        -- exists [Yield (content_event TRUNCATED); Yield DONE].
           simpl. now rewrite <- app_assoc.
        -- intros _. exists [Yield (content_event TRUNCATED)].
           simpl. now rewrite <- !app_assoc.
    + rewrite (for_chunk_in_skip c rest acc w Hc). apply IH.
  - simpl. repeat split; try apply grows_refl. discriminate.
Qed.

(** Chunks that the loop gets through without truncation: the texts are
    appended to the accumulator and forwarded, one content event each, and
    the loop goes on with whatever follows. *)
Lemma for_chunk_in_prefix (cs : list chunk) :
  forall (acc : pystr) (w : world) (acc1 : pystr) (w1 : world),
    for_chunk_in (chunks_then cs StopIteration) acc w
      = (inr (Exhausted acc1), w1) ->
    acc1 = acc ++ List.concat (texts cs)
    /\ log w1 = log w ++ map (fun t => Yield (content_event t)) (texts cs)
    /\ db w1 = db w
    /\ db_ops w1 = db_ops w
    /\ forall ending, for_chunk_in (chunks_then cs ending) acc w
                      = for_chunk_in ending acc1 w1.
Proof.
  induction cs as [|c cs IH]; intros acc w acc1 w1 H.
  - simpl in H. unfold ret in H. inversion H; subst.
    simpl. rewrite !app_nil_r. repeat split; reflexivity.
  - change (chunks_then (c :: cs) StopIteration)
      with (Next c (chunks_then cs StopIteration)) in H.
    assert (Hsplit : forall ending,
      chunks_then (c :: cs) ending = Next c (chunks_then cs ending))
      by reflexivity.
    unfold texts. simpl flat_map. fold (texts cs).
    destruct (chunk_text c) as [new_text|] eqn:Hc.
    + destruct (within_limit new_text w) eqn:Hok.
      * rewrite (for_chunk_in_forward c new_text _ acc w Hc Hok) in H.
        destruct (IH _ _ _ _ H) as (Hacc & Hlog & Hdb & Hops & Hnext).
        simpl in Hlog, Hdb, Hops.
        repeat split; try assumption.
        -- rewrite Hacc. simpl. now rewrite app_assoc.
        -- rewrite Hlog. simpl. now rewrite <- app_assoc.
        -- intro ending. rewrite Hsplit.
           rewrite (for_chunk_in_forward c new_text _ acc w Hc Hok).
           apply Hnext.
      * rewrite (for_chunk_in_truncate c new_text _ acc w Hc Hok) in H.
        discriminate.
    + rewrite (for_chunk_in_skip c _ acc w Hc) in H.
      destruct (IH _ _ _ _ H) as (Hacc & Hlog & Hdb & Hops & Hnext).
      repeat split; try assumption.
      intro ending. rewrite Hsplit.
      rewrite (for_chunk_in_skip c _ acc w Hc). apply Hnext.
Qed.


Lemma add_messages_user
  (thread_id : uuid) (m : Message.t) (w : world) :
  thread_exists thread_id (db w) ->
  db_fault (db_ops w) = None ->
  db_fault (S (db_ops w)) = None ->
  db_fault (S (S (db_ops w))) = None ->
  ThreadService.add_messages_to_thread thread_id (Some m) None w
  = (inr true, stored thread_id (user_row thread_id m) w).
Proof.
  intros [th Hth] H0 H1 H2.
  unfold ThreadService.add_messages_to_thread, ThreadService.get_thread,
    Crud.get_thread, Crud.create_conversation, round_trip. run.
  rewrite H0, Hth. simpl. rewrite H1. simpl. rewrite H2. simpl.
  unfold stored, user_row. worlds. now rewrite <- app_assoc.
Qed.

Lemma add_messages_assistant
  (thread_id : uuid) (m : Message.t) (w : world) :
  thread_exists thread_id (db w) ->
  db_fault (db_ops w) = None ->
  db_fault (S (db_ops w)) = None ->
  db_fault (S (S (db_ops w))) = None ->
  ThreadService.add_messages_to_thread thread_id None (Some m) w
  = (inr true, stored thread_id (model_row thread_id m) w).
Proof.
  intros [th Hth] H0 H1 H2.
  unfold ThreadService.add_messages_to_thread, ThreadService.get_thread,
    Crud.get_thread, Crud.create_conversation, round_trip. run.
  rewrite H0, Hth. simpl. rewrite H1. simpl. rewrite H2. simpl.
  unfold stored, model_row. worlds. now rewrite <- app_assoc.
Qed.

Lemma add_messages_grows
  (thread_id : uuid) (um ar : option Message.t) (w : world) :
  grows w (snd (ThreadService.add_messages_to_thread thread_id um ar w)).
Proof.
  unfold ThreadService.add_messages_to_thread, ThreadService.get_thread,
    Crud.get_thread, Crud.create_conversation, round_trip, grows. run.
  destruct (db_fault (db_ops w)); simpl; [grew (@nil effect) |].
  destruct (find _ _); simpl; [| grew (@nil effect)].
  destruct um as [um|], ar as [ar|]; simpl;
    repeat match goal with
    | |- context [db_fault ?n] => destruct (db_fault n); simpl
    end;
    first
      [ grew (@nil effect)
      | grew [Inserted (user_row thread_id um)]
      | grew [Inserted (model_row thread_id ar)]
      | grew [Touched thread_id (clock (ticks w))]
      | grew [Inserted (user_row thread_id um);
              Inserted (model_row thread_id ar)]
      | grew [Inserted (user_row thread_id um);
              Touched thread_id (clock (ticks w))]
      | grew [Inserted (model_row thread_id ar);
              Touched thread_id (clock (ticks w))]
      | grew [Inserted (user_row thread_id um);
              Inserted (model_row thread_id ar);
              Touched thread_id (clock (ticks w))] ].
Qed.

(** [stream_response], path by path. *)
Lemma stream_response_paths
  (chat : chat_session) (question : pystr) (thread_id : uuid) (model : pystr)
  (w : world) :
  let w0 := append_log (SendMessageStream question) w in
  stream_response chat question thread_id model w
  = match chat question with
    | inl message => (inr tt, reported (Exception message) w0)
    | inr response =>
      match for_chunk_in response [] w0 with
      | (inl e, w1) => (inr tt, reported e w1)
      | (inr Returned, w1) => (inr tt, w1)
      | (inr (Exhausted accumulated_text), w1) =>
        match ThreadService.add_messages_to_thread thread_id None
                (Some (assistant_message accumulated_text model)) w1 with
        | (inl e, w2) => (inr tt, reported e w2)
        | (inr _, w2) => (inr tt, append_log (Yield DONE) w2)
        end
      end
    end.
Proof.
  intro w0. unfold stream_response, send_message_stream. run.
  fold w0. simpl.
  destruct (chat question) as [message | response]; [reflexivity|].
  destruct (for_chunk_in response [] w0) as [[e | [acc |]] w1];
    try reflexivity.
  fold (assistant_message acc model).
  destruct (ThreadService.add_messages_to_thread _ _ _ w1) as [[e | b] w2];
    reflexivity.
Qed.

(** The token count stored with the assistant message is the count of
    its content. *)
Lemma token_count_of_assistant_message (accumulated_text model : pystr) :
  ThreadService.token_count_or_count (assistant_message accumulated_text model)
  = RateLimiter.count_tokens accumulated_text.
Proof.
  unfold ThreadService.token_count_or_count, assistant_message. simpl.
  destruct (RateLimiter.count_tokens accumulated_text =? 0)%Z; reflexivity.
Qed.

(** A stream cut by the token budget, in full: the fragments before the
    rejected one are forwarded, then the notice and the sentinel are
    yielded, and the generator returns. *)
Lemma stream_response_truncated
  (chat : chat_session) (question : pystr) (thread_id : uuid) (model : pystr)
  (w : world) (before : list chunk) (c : chunk) (new_text : pystr)
  (rest : iterator) (accumulated_text : pystr) (w1 : world) :
  chat question = inr (chunks_then before (Next c rest)) ->
  chunk_text c = Some new_text ->
  for_chunk_in (chunks_then before StopIteration) []
    (append_log (SendMessageStream question) w)
    = (inr (Exhausted accumulated_text), w1) ->
  within_limit new_text w1 = false ->
  stream_response chat question thread_id model w
  = (inr tt,
     append_log (Yield DONE)
       (append_log (Yield (content_event TRUNCATED)) (after_check new_text w1)))
  /\ log w1 = log w ++ SendMessageStream question
                :: map (fun t => Yield (content_event t)) (texts before)
  /\ db w1 = db w.
Proof.
  intros Hchat Hc Hloop Hreject.
  destruct (for_chunk_in_prefix before _ _ _ _ Hloop)
    as (_ & Hlog & Hdb & _ & Hnext).
  rewrite stream_response_paths, Hchat. simpl.
  rewrite Hnext, (for_chunk_in_truncate c new_text rest _ w1 Hc Hreject).
  repeat split.
  - rewrite Hlog. simpl. now rewrite <- app_assoc.
  - exact Hdb.
Qed.

(** C6. Once the token check of a fragment returns [False], that fragment
    is not forwarded and nothing after it is: what the stream has emitted
    is the content events of the fragments before it, then the truncation
    notice, then the terminal sentinel, whatever the rest of the upstream
    iterator holds. *)
Theorem truncation_stops_forwarding
  (chat : chat_session) (question : pystr) (thread_id : uuid) (model : pystr)
  (w : world) (before : list chunk) (c : chunk) (new_text : pystr)
  (rest : iterator) (accumulated_text : pystr) (w1 : world) :
  chat question = inr (chunks_then before (Next c rest)) ->
  chunk_text c = Some new_text ->
  for_chunk_in (chunks_then before StopIteration) []
    (append_log (SendMessageStream question) w)
    = (inr (Exhausted accumulated_text), w1) ->
  within_limit new_text w1 = false ->
  exists w2,
    stream_response chat question thread_id model w = (inr tt, w2)
    /\ log w2
       = log w ++ SendMessageStream question
           :: map (fun t => Yield (content_event t)) (texts before)
           ++ [Yield (content_event TRUNCATED); Yield DONE].
Proof.
  intros Hchat Hc Hloop Hreject.
  destruct (stream_response_truncated chat question thread_id model w before c
              new_text rest accumulated_text w1 Hchat Hc Hloop Hreject)
    as (Hrun & Hlog & _).
  eexists. split; [exact Hrun|].
  worlds. rewrite Hlog. rewrite <- !app_assoc. reflexivity.
Qed.

(** C1 (amended). When the token check of some fragment returns [False],
    the generator returns after the truncation notice and the sentinel
    without storing anything: the tables are as they were before the
    stream, no row is written, and the text accumulated so far is dropped. *)
Theorem truncation_persists_nothing
  (chat : chat_session) (question : pystr) (thread_id : uuid) (model : pystr)
  (w : world) (before : list chunk) (c : chunk) (new_text : pystr)
  (rest : iterator) (accumulated_text : pystr) (w1 : world) :
  chat question = inr (chunks_then before (Next c rest)) ->
  chunk_text c = Some new_text ->
  for_chunk_in (chunks_then before StopIteration) []
    (append_log (SendMessageStream question) w)
    = (inr (Exhausted accumulated_text), w1) ->
  within_limit new_text w1 = false ->
  exists w2,
    stream_response chat question thread_id model w = (inr tt, w2)
    /\ db w2 = db w
    /\ db_ops w2 = db_ops w
    /\ (forall row, In (Inserted row) (log w2) -> In (Inserted row) (log w))
    /\ exists forwarded,
         log w2 = log w ++ forwarded
                    ++ [Yield (content_event TRUNCATED); Yield DONE].
Proof.
  intros Hchat Hc Hloop Hreject.
  destruct (stream_response_truncated chat question thread_id model w before c
              new_text rest accumulated_text w1 Hchat Hc Hloop Hreject)
    as (Hrun & Hlog & Hdb).
  destruct (for_chunk_in_prefix before _ _ _ _ Hloop) as (_ & _ & _ & Hops & _).
  eexists. split; [exact Hrun|].
  worlds. repeat split; try assumption.
  - intros row Hin. rewrite Hlog in Hin.
    rewrite <- !app_assoc in Hin. apply in_app_or in Hin.
    destruct Hin as [Hin | Hin]; [exact Hin|]. exfalso.
    simpl in Hin. destruct Hin as [Hin | Hin]; [discriminate|].
    apply in_app_or in Hin. destruct Hin as [Hin | Hin].
    + apply in_map_iff in Hin. destruct Hin as (t & Ht & _). discriminate.
    + simpl in Hin. destruct Hin as [Hin | [Hin | []]]; discriminate.
  - exists (SendMessageStream question
            :: map (fun t => Yield (content_event t)) (texts before)).
    rewrite Hlog. rewrite <- !app_assoc. reflexivity.
Qed.

(** The accumulated text is the concatenation of the texts of all chunks
    in arrival order (a chunk without text contributes nothing). *)
Lemma concat_texts (cs : list chunk) :
  List.concat (texts cs)
  = flat_map (fun c => match c with Some t => t | None => [] end) cs.
Proof.
  induction cs as [|c cs IH]; [reflexivity|].
  unfold texts in *. simpl. rewrite concat_app, IH. f_equal.
  destruct c as [[|a t]|]; simpl; rewrite ?app_nil_r; reflexivity.
Qed.

(** C5 (amended). When the stream is read to exhaustion with no
    truncation and no exception, and the thread exists when the reply is
    stored, exactly one row is added: a model-role row for that thread
    whose content is the concatenation of the fragments in arrival order,
    whose token count is [count_tokens] of that content and whose model is
    the requested model id; the sentinel follows. *)
Theorem completed_stream_persists_reply
  (chat : chat_session) (question : pystr) (thread_id : uuid) (model : pystr)
  (w : world) (cs : list chunk) (accumulated_text : pystr) (w1 : world) :
  chat question = inr (chunks_then cs StopIteration) ->
  for_chunk_in (chunks_then cs StopIteration) []
    (append_log (SendMessageStream question) w)
    = (inr (Exhausted accumulated_text), w1) ->
  thread_exists thread_id (db w) ->
  db_fault (db_ops w) = None ->
  db_fault (S (db_ops w)) = None ->
  db_fault (S (S (db_ops w))) = None ->
  let reply := List.concat (texts cs) in
  let row :=
    {| Conversation.thread_id := thread_id;
       Conversation.role := py "model";
       Conversation.content := reply;
       Conversation.model := Some model;
       Conversation.token_count := Some (RateLimiter.count_tokens reply) |} in
  exists w2,
    stream_response chat question thread_id model w = (inr tt, w2)
    /\ accumulated_text = reply
    /\ conversations (db w2) = conversations (db w) ++ [row]
    /\ log w2
       = log w ++ SendMessageStream question
           :: map (fun t => Yield (content_event t)) (texts cs)
           ++ [Inserted row; Touched thread_id (clock (ticks w1)); Yield DONE].
Proof.
  intros Hchat Hloop Hthread H0 H1 H2 reply row.
  destruct (for_chunk_in_prefix cs _ _ _ _ Hloop)
    as (Hacc & Hlog & Hdb & Hops & _).
  simpl in Hacc. fold reply in Hacc.
  rewrite stream_response_paths, Hchat. simpl. rewrite Hloop.
  rewrite add_messages_assistant;
    [ | rewrite Hdb; exact Hthread | rewrite Hops; assumption ..].
  assert (Hrow : model_row thread_id (assistant_message accumulated_text model)
                 = row).
  { unfold model_row. rewrite token_count_of_assistant_message.
    unfold row. simpl. rewrite Hacc. reflexivity. }
  rewrite Hrow. eexists. split; [reflexivity|]. worlds.
  repeat split.
  - exact Hacc.
  - rewrite Hdb. reflexivity.
  - rewrite Hlog. rewrite <- !app_assoc. reflexivity.
Qed.

(** A content event and the sentinel differ at their seventh character. *)
Lemma content_event_is_not_DONE (text : pystr) : content_event text <> DONE.
Proof.
  unfold content_event, DONE, sse, json_dumps_content.
  intro H. vm_compute (py "data: ") in H. vm_compute (py "{") in H.
  vm_compute (py "[DONE]") in H. simpl in H. discriminate.
Qed.

Lemma stream_response_ends_with_DONE
  (chat : chat_session) (question : pystr) (thread_id : uuid) (model : pystr)
  (w : world) :
  exists w' events,
    stream_response chat question thread_id model w = (inr tt, w')
    /\ log w' = log w ++ SendMessageStream question :: events ++ [Yield DONE].
Proof.
  rewrite stream_response_paths. simpl.
  set (w0 := append_log (SendMessageStream question) w).
  destruct (chat question) as [message | response].
  - eexists. exists [Yield (content_event (error_text (Exception message)))].
    split; [reflexivity|]. unfold reported, w0. worlds.
    now rewrite <- !app_assoc.
  - pose proof (for_chunk_in_frame response [] w0) as Hframe.
    destruct (for_chunk_in response [] w0) as [[e | [acc |]] w1].
    + destruct Hframe as (_ & _ & [evs Hevs] & _).
      eexists. exists (evs ++ [Yield (content_event (error_text e))]).
      split; [reflexivity|]. unfold reported. unfold w0 in Hevs. worlds.
      rewrite Hevs. now rewrite <- !app_assoc.
    + destruct Hframe as (_ & _ & [evs Hevs] & _).
      pose proof (add_messages_grows thread_id None
                    (Some (assistant_message acc model)) w1) as [evs2 Hevs2].
      destruct (ThreadService.add_messages_to_thread _ _ _ w1) as [[e | b] w2];
        simpl in Hevs2.
      * eexists. exists (evs ++ evs2 ++ [Yield (content_event (error_text e))]).
        split; [reflexivity|]. unfold reported. unfold w0 in Hevs. worlds.
        rewrite Hevs2, Hevs. now rewrite <- !app_assoc.
      * eexists. exists (evs ++ evs2).
        split; [reflexivity|]. unfold w0 in Hevs. worlds.
        rewrite Hevs2, Hevs. now rewrite <- !app_assoc.
    + destruct Hframe as (_ & _ & _ & Hret).
      destruct (Hret eq_refl) as [evs Hevs].
      eexists. exists evs.
      split; [reflexivity|]. unfold w0 in Hevs. worlds.
      rewrite Hevs. now rewrite <- !app_assoc.
Qed.

(** C7 (amended). Every stream that is opened ends with the sentinel:
    every run of the stream generator returns normally and the last thing
    it emits is ["data: [DONE]\n\n"], which no content event equals.  If
    [send_message_stream] raises, or the iterator raises after some
    fragments have been forwarded, what follows the forwarded fragments
    is exactly one content event carrying the error text and then the
    sentinel, and the tables are left as they were: no model-role row is
    written and the rows already stored stay.  A stream is opened exactly
    when the session has been created: if creating it raises,
    [process_chat_request] returns the dictionary with the error text,
    and nothing is emitted, neither an error event nor the sentinel. *)
Theorem stream_ends_with_sentinel :
  (forall chat question thread_id model w,
     exists w' events,
       stream_response chat question thread_id model w = (inr tt, w')
       /\ log w' = log w ++ events ++ [Yield DONE])
  /\ (forall text, content_event text <> DONE)
  /\ (forall chat question thread_id model w message,
        chat question = inl message ->
        exists w',
          stream_response chat question thread_id model w = (inr tt, w')
          /\ log w'
             = log w ++ [SendMessageStream question;
                         Yield (content_event (error_text (Exception message)));
                         Yield DONE]
          /\ db w' = db w)
  /\ (forall chat question thread_id model w before message accumulated_text w1,
        chat question = inr (chunks_then before (Raises message)) ->
        for_chunk_in (chunks_then before StopIteration) []
          (append_log (SendMessageStream question) w)
          = (inr (Exhausted accumulated_text), w1) ->
        exists w',
          stream_response chat question thread_id model w = (inr tt, w')
          /\ log w'
             = log w ++ SendMessageStream question
                 :: map (fun t => Yield (content_event t)) (texts before)
                 ++ [Yield (content_event (error_text (Exception message)));
                     Yield DONE]
          /\ db w' = db w)
  /\ (forall question history model thread_id w chat,
        chats_create model history = inr chat ->
        process_chat_request question history model thread_id w
        = (inr (StreamingResponse
                  (stream_response chat question thread_id model)),
           append_log (ChatsCreate model history) w))
  /\ (forall question history model thread_id w message,
        chats_create model history = inl message ->
        process_chat_request question history model thread_id w
        = (inr (Dict (py "model")
                  (py "⚠️ Error processing request: " ++ message)),
           append_log (ChatsCreate model history) w)).
Proof.
  split.
  { intros chat question thread_id model w.
    destruct (stream_response_ends_with_DONE chat question thread_id model w)
      as (w' & events & Hrun & Hlog).
    exists w', (SendMessageStream question :: events). now split. }
  split; [exact content_event_is_not_DONE|].
  split.
  { intros chat question thread_id model w message Hchat.
    rewrite stream_response_paths, Hchat. eexists. split; [reflexivity|].
    unfold reported. worlds. split; [|reflexivity].
    now rewrite <- !app_assoc. }
  split.
  { intros chat question thread_id model w before message acc w1 Hchat Hloop.
    destruct (for_chunk_in_prefix before _ _ _ _ Hloop)
      as (_ & Hlog & Hdb & _ & Hnext).
    rewrite stream_response_paths, Hchat. simpl. rewrite Hnext. simpl.
    eexists. split; [reflexivity|]. unfold reported. worlds.
    split; [|exact Hdb]. rewrite Hlog. now rewrite <- !app_assoc. }
  split.
  - intros question history model thread_id w chat Hcreate.
    unfold process_chat_request, try_except, bind, emit, raise, ret.
    simpl. rewrite Hcreate. reflexivity.
  - intros question history model thread_id w message Hcreate.
    unfold process_chat_request, try_except, bind, emit, raise, ret.
    simpl. rewrite Hcreate. reflexivity.
Qed.

End StreamProperties.

(* ===================================================================== *)
(** * Properties of the chat route *)
(* ===================================================================== *)

Section RouteProperties.
Context {env : Environment}.
Import ChatService ChatRoute.

(** [process_chat_request] never raises: it creates the session with the
    history it is given and wraps the generator, or returns the error
    dictionary. *)
Lemma process_chat_request_run
  (question : pystr) (history : list history_item) (model : pystr)
  (thread_id : uuid) (w : world) :
  process_chat_request question history model thread_id w
  = (inr (chat_response question history model thread_id),
     append_log (ChatsCreate model history) w).
Proof.
  unfold process_chat_request, chat_response. run. simpl.
  destruct (chats_create model history); reflexivity.
Qed.

(** The handler in two steps: whatever the history query did, the user
    message is stored next; if that raises the request fails with the
    mapped exception, and otherwise the session is created with the
    history that was seen. *)
Lemma chat_with_thread_steps
  (chat_request : ChatRequestWithThread.t) (thread_id : uuid) (w : world) :
  let question := ChatRequestWithThread.question chat_request in
  let model := ChatRequestWithThread.model chat_request in
  let history := history_seen thread_id w in
  chat_with_thread chat_request thread_id w
  = match ThreadService.add_messages_to_thread thread_id
            (Some (new_user_message question)) None (count_db_op w) with
    | (inl e, w1) => (inl (as_http_exception e), w1)
    | (inr _, w1) =>
      (inr (chat_response question history model thread_id),
       append_log (ChatsCreate model history) w1)
    end.
Proof.
  intros question model history.
  unfold chat_with_thread, ThreadService.get_thread_messages_optimized,
    round_trip, history, history_seen. run.
  fold question. fold model. fold (new_user_message question).
  assert (Hsame : set_db (db w) (count_db_op w) = count_db_op w)
    by (destruct w; reflexivity).
  destruct (db_fault (db_ops w)) as [message|]; simpl; rewrite ?Hsame;
    fold (history_of thread_id (db w));
    destruct (ThreadService.add_messages_to_thread _ _ _ (count_db_op w))
      as [[e | stored_ok] w1];
    rewrite ?process_chat_request_run;
    try reflexivity; destruct e; reflexivity.
Qed.

(** The token count stored with the user message is the count of the
    question. *)
Lemma token_count_of_new_user_message (question : pystr) :
  ThreadService.token_count_or_count (new_user_message question)
  = RateLimiter.count_tokens question.
Proof.
  unfold ThreadService.token_count_or_count, new_user_message. simpl.
  destruct (RateLimiter.count_tokens question =? 0)%Z; reflexivity.
Qed.

(** Storing a user message for an existing thread: either the session
    raises, before the row is written or right after it, or the row is
    stored and the thread touched. *)
Lemma add_messages_user_cases
  (thread_id : uuid) (m : Message.t) (w : world) :
  thread_exists thread_id (db w) ->
  (exists message w1,
     ThreadService.add_messages_to_thread thread_id (Some m) None w
       = (inl (Exception message), w1)
     /\ (log w1 = log w \/ log w1 = log w ++ [Inserted (user_row thread_id m)]))
  \/ (db_fault (db_ops w) = None
      /\ db_fault (S (db_ops w)) = None
      /\ db_fault (S (S (db_ops w))) = None
      /\ ThreadService.add_messages_to_thread thread_id (Some m) None w
         = (inr true, stored thread_id (user_row thread_id m) w)).
Proof.
  intros Hthread.
  destruct (db_fault (db_ops w)) as [m0|] eqn:H0;
    [|destruct (db_fault (S (db_ops w))) as [m1|] eqn:H1;
      [|destruct (db_fault (S (S (db_ops w)))) as [m2|] eqn:H2]].
  4: { right. repeat split. now apply add_messages_user. }
  all: left; destruct Hthread as [th Hth];
    unfold ThreadService.add_messages_to_thread, ThreadService.get_thread,
      Crud.get_thread, Crud.create_conversation, round_trip; run;
    rewrite H0; simpl; rewrite ?Hth; simpl; rewrite ?H1; simpl;
    rewrite ?H2; simpl; eexists; eexists; (split; [reflexivity|]).
  - left. reflexivity.
  - left. reflexivity.
  - right. reflexivity.
Qed.


(** C9 (amended). When the referenced thread exists, the user-role row
    (content the question, token count [count_tokens(question)]) is
    stored before any call to the model: either the session raises while
    storing and the request fails without calling the model, or the row
    is written first, then the chat session is created, and the streaming
    call is made afterwards by the generator the framework runs once the
    handler has returned. *)
Theorem user_turn_precedes_model_call
  (chat_request : ChatRequestWithThread.t) (thread_id : uuid) (w : world) :
  let question := ChatRequestWithThread.question chat_request in
  let model := ChatRequestWithThread.model chat_request in
  let history := history_seen thread_id w in
  let row :=
    {| Conversation.thread_id := thread_id;
       Conversation.role := py "user";
       Conversation.content := question;
       Conversation.model := None;
       Conversation.token_count := Some (RateLimiter.count_tokens question) |} in
  thread_exists thread_id (db w) ->
  exists r w2 new,
    serve_chat chat_request thread_id w = (r, w2)
    /\ log w2 = log w ++ new
    /\ ((exists status_code detail, r = inl (HTTPException status_code detail))
        /\ (new = [] \/ new = [Inserted row])
        \/ r = inr tt
           /\ exists later,
                new = Inserted row :: Touched thread_id (clock (ticks w))
                        :: ChatsCreate model history :: later
                /\ match chats_create model history with
                   | inl _ => later = []
                   | inr _ => exists events,
                       later = SendMessageStream question
                                 :: events ++ [Yield DONE]
                   end)
    /\ (db_fault (S (db_ops w)) = None ->
        db_fault (S (S (db_ops w))) = None ->
        db_fault (S (S (S (db_ops w)))) = None ->
        r = inr tt).
Proof.
  intros question model history row Hthread.
  assert (Hrow : user_row thread_id (new_user_message question) = row).
  { unfold user_row. rewrite token_count_of_new_user_message. reflexivity. }
  pose proof (chat_with_thread_steps chat_request thread_id w) as Hsteps.
  cbv zeta in Hsteps. fold question model history in Hsteps.
  destruct (add_messages_user_cases thread_id (new_user_message question)
              (count_db_op w) Hthread)
    as [(message & w1 & Hstore & Hlog) | (H1 & H2 & H3 & Hstore)];
    rewrite Hstore in Hsteps; rewrite Hrow in *.
  - (* the session raised while the message was being stored *)
    unfold serve_chat, bind. rewrite Hsteps. simpl.
    exists (inl (HTTPException 500 message)), w1.
    destruct Hlog as [Hlog | Hlog].
    + exists []. split; [reflexivity|]. split.
      * rewrite Hlog. simpl. now rewrite app_nil_r.
      * split.
        -- left. split; [now exists 500%Z, message | now left].
        -- intros F1 F2 F3. simpl in Hstore.
           exfalso. revert Hstore.
           rewrite (add_messages_user thread_id _ (count_db_op w) Hthread
                      F1 F2 F3).
           discriminate.
    + exists [Inserted row]. split; [reflexivity|]. split.
      * rewrite Hlog. reflexivity.
      * split.
        -- left. split; [now exists 500%Z, message | now right].
        -- intros F1 F2 F3. simpl in Hstore.
           exfalso. revert Hstore.
           rewrite (add_messages_user thread_id _ (count_db_op w) Hthread
                      F1 F2 F3).
           discriminate.
  - (* stored *)
    unfold serve_chat, bind. rewrite Hsteps. unfold chat_response.
    destruct (chats_create model history) as [message | chat].
    + exists (inr tt). eexists.
      exists [Inserted row; Touched thread_id (clock (ticks w));
              ChatsCreate model history].
      split; [reflexivity|]. split; [worlds; now rewrite <- !app_assoc|].
      split; [|reflexivity].
      right. split; [reflexivity|]. exists []. split; reflexivity.
    + match goal with
      | |- context [stream_response chat question thread_id model ?w0] =>
        destruct (stream_response_ends_with_DONE chat question thread_id
                    model w0) as (w2 & events & Hrun & Hlog)
      end.
      exists (inr tt), w2.
      exists (Inserted row :: Touched thread_id (clock (ticks w))
              :: ChatsCreate model history
              :: SendMessageStream question :: events ++ [Yield DONE]).
      split; [exact Hrun|]. split.
      * rewrite Hlog. worlds. now rewrite <- !app_assoc.
      * split; [|reflexivity].
        right. split; [reflexivity|]. eexists. split; [reflexivity|].
        now exists events.
Qed.


End RouteProperties.


(* ===================================================================== *)
(** * Concrete runs *)
(* ===================================================================== *)

Import Scenario ChatService ChatRoute.

(** C1, as stated, fails: with a budget of 5 tokens and the fragments
    ["aaaaa"], ["bbbbb"], the first fragment is forwarded, the second is
    refused, and after the notice and the sentinel the thread holds no
    model-role row at all. *)
Lemma truncated_stream_stores_no_reply :
  let w' := snd (@stream_response tight two_fragments (py "q") 1%N gemini
                   (start alices_thread)) in
  log w' = [SendMessageStream (py "q");
            Yield (content_event (py "aaaaa"));
            Yield (content_event TRUNCATED);
            Yield DONE]
  /\ ~ exists row, In row (conversations (db w'))
                   /\ Conversation.role row = py "model".
Proof.
  split.
  - vm_compute. reflexivity.
  - intros (row & Hin & Hrole). vm_compute in Hin.
    destruct Hin as [<- | []]. vm_compute in Hrole. discriminate.
Qed.

(** C5, as stated, fails: for a thread id that no row of [threads] has,
    the fragments ["Hel"], ["lo"], [" world"] are read to exhaustion with
    no truncation and no exception, the sentinel is sent, and no
    model-role row is stored. *)
Lemma completed_stream_without_thread_stores_nothing :
  let w0 := append_log (SendMessageStream (py "q")) (start alices_thread) in
  let run := @stream_response roomy hello_world (py "q") 2%N gemini
               (start alices_thread) in
  fst (@for_chunk_in roomy
         (chunks_then (map Some [py "Hel"; py "lo"; py " world"]) StopIteration)
         [] w0)
    = inr (Exhausted (py "Hello world"))
  /\ fst run = inr tt
  /\ log (snd run) = [SendMessageStream (py "q");
                      Yield (content_event (py "Hel"));
                      Yield (content_event (py "lo"));
                      Yield (content_event (py " world"));
                      Yield DONE]
  /\ conversations (db (snd run)) = conversations alices_thread
  /\ ~ exists row, In row (conversations (db (snd run)))
                   /\ Conversation.role row = py "model".
Proof.
  repeat split; try (vm_compute; reflexivity).
  intros (row & Hin & Hrole). vm_compute in Hin.
  destruct Hin as [<- | []]. vm_compute in Hrole. discriminate.
Qed.

(** C9, as stated, fails: for a thread id that no row of [threads] has,
    the request is served and the streaming call to the model is made,
    yet no user-role row was stored before it (nor after). *)
Lemma missing_thread_model_called_without_user_turn :
  let run := @serve_chat roomy (ask "q") 2%N (start alices_thread) in
  fst run = inr tt
  /\ In (SendMessageStream (py "q")) (log (snd run))
  /\ (forall row, ~ In (Inserted row) (log (snd run)))
  /\ conversations (db (snd run)) = conversations alices_thread.
Proof.
  repeat split; try (vm_compute; reflexivity).
  - vm_compute. tauto.
  - intros row Hin. vm_compute in Hin.
    repeat (destruct Hin as [Hin | Hin]; [discriminate|]). exact Hin.
Qed.

(** C3, as stated, fails: half a second into the window the status
    reports 59 seconds until the reset, not [max(0, 60 - 0.5) = 59.5]. *)
Lemma reset_after_seconds_is_truncated :
  let window := RateLimiter.check_and_reset_counters (1#2) idle_window in
  let status :=
    fst (@RateLimiter.get_rate_limit_status roomy (1#2) (1#2) idle_window) in
  RateLimiter.reset_after_seconds (RateLimiter.requests status) = 59%Z
  /\ ~ (RateLimiter.remaining (RateLimiter.requests status)
          = Z.max 0 (@REQUESTS_PER_MINUTE roomy - RateLimiter.requests_used window)
        /\ RateLimiter.remaining (RateLimiter.tokens status)
          = Z.max 0 (@TOKENS_PER_MINUTE roomy - RateLimiter.tokens_used window)
        /\ (inject_Z (RateLimiter.reset_after_seconds (RateLimiter.requests status))
            == Qmax 0 (60 - ((1#2) - RateLimiter.last_reset window)))%Q
        /\ (inject_Z (RateLimiter.reset_after_seconds (RateLimiter.tokens status))
            == Qmax 0 (60 - ((1#2) - RateLimiter.last_reset window)))%Q).
Proof.
  split; [reflexivity|].
  intros (_ & _ & H & _). vm_compute in H. discriminate.
Qed.

(** C7, as stated, fails when the call that raises is the creation of
    the session: the handler answers with a dictionary instead of a
    stream, and serving the request emits no event at all, neither an
    error fragment nor the sentinel; the question stays stored. *)
Lemma failed_session_sends_no_sentinel :
  let w := start alices_thread in
  let run := @serve_chat Visitors.no_session (ask "q") 1%N w in
  fst (@chat_with_thread Visitors.no_session (ask "q") 1%N w)
    = inr (Dict (py "model")
             (py "⚠️ Error processing request: API key not valid"))
  /\ fst run = inr tt
  /\ log (snd run)
     = [Inserted (Conversation.Make 1%N (py "user") (py "q") None (Some 1%Z));
        Touched 1%N 0;
        ChatsCreate gemini [HistoryItem (py "user") [py "hi"]]]
  /\ (forall event, ~ In (Yield event) (log (snd run)))
  /\ ~ (exists events, log (snd run) = events ++ [Yield DONE]).
Proof.
  intros w run.
  assert (Hlog : log (snd run)
    = [Inserted (Conversation.Make 1%N (py "user") (py "q") None (Some 1%Z));
       Touched 1%N 0;
       ChatsCreate gemini [HistoryItem (py "user") [py "hi"]]])
    by (vm_compute; reflexivity).
  split; [vm_compute; reflexivity|]. split; [vm_compute; reflexivity|].
  split; [exact Hlog|]. split.
  - intros event Hin. rewrite Hlog in Hin. simpl in Hin.
    destruct Hin as [H | [H | [H | []]]]; discriminate.
  - intros [events Hevents]. rewrite Hlog in Hevents.
    assert (Hlast : last (events ++ [Yield DONE]) (Yield DONE) = Yield DONE)
      by apply last_last.
    rewrite <- Hevents in Hlast. simpl in Hlast. discriminate.
Qed.

(** C2. What the handler does where the claim expects [NotFound] or
    [Forbidden]: for a thread id that does not exist it returns a
    streaming response, and serving it calls the model and forwards its
    fragments; for a thread owned by [alice] it stores the question and
    the reply for whoever sends the request, the handler having no
    parameter for the caller. *)
Theorem chat_route_checks_neither_thread_nor_owner :
  (exists body w1,
     @chat_with_thread roomy (ask "hello") 2%N (start alices_thread)
       = (inr (StreamingResponse body), w1)
     /\ log w1 = [ChatsCreate gemini []])
  /\ (let run := @serve_chat roomy (ask "hello") 2%N (start alices_thread) in
      fst run = inr tt
      /\ In (SendMessageStream (py "hello")) (log (snd run))
      /\ In (Yield (content_event (py "Hel"))) (log (snd run)))
  /\ (let run := @serve_chat roomy (ask "hello") 1%N (start alices_thread) in
      map Thread.user_id (threads alices_thread) = [alice]
      /\ fst run = inr tt
      /\ conversations (db (snd run))
         = conversations alices_thread
           ++ [ Conversation.Make 1%N (py "user") (py "hello") None (Some 5%Z);
                Conversation.Make 1%N (py "model") (py "Hello world")
                  (Some gemini) (Some 11%Z) ]).
Proof.
  split; [|split].
  - eexists. eexists. split; [reflexivity|]. vm_compute. reflexivity.
  - repeat split; try (vm_compute; reflexivity); vm_compute; tauto.
  - repeat split; vm_compute; reflexivity.
Qed.

(** With a window beyond the token budget, the tokens entry of the status
    is negative while the requests entry is floored at zero. *)
Remark tokens_remaining_is_not_floored :
  let status :=
    fst (@RateLimiter.get_rate_limit_status tight 0 0
           (RateLimiter.Usage 0 7 61)) in
  RateLimiter.remaining (RateLimiter.tokens status) = (-2)%Z
  /\ RateLimiter.remaining (RateLimiter.requests status) = 0%Z.
Proof. split; reflexivity. Qed.

(** C4 at concrete windows: a full and a free request
    budget of 60, a full and a free token budget of 5. *)
Lemma admission_after_reset_check_witness :
  let full_requests := RateLimiter.Usage 0 0 60 in
  let full_tokens := RateLimiter.Usage 0 5 0 in
  @RateLimiter.track_request tight 0 full_requests
    = (inl (RateLimitError (py "Request") 60), full_requests)
  /\ @RateLimiter.track_request tight 0 idle_window
     = (inr tt, RateLimiter.Usage 0 0 1)
  /\ @RateLimiter.check_token_rate_limit tight 0 5 full_tokens
     = (false, full_tokens)
  /\ @RateLimiter.check_token_rate_limit tight 0 5 idle_window
     = (true, RateLimiter.Usage 0 5 0).
Proof.
  intros full_requests full_tokens.
  pose proof (@admission_after_reset_check tight 0 5 full_requests)
    as (Hraise & _ & _ & _).
  pose proof (@admission_after_reset_check tight 0 5 idle_window)
    as (_ & Hadmit & _ & Htrue).
  pose proof (@admission_after_reset_check tight 0 5 full_tokens)
    as (_ & _ & Hfalse & _).
  split; [apply Hraise; vm_compute; discriminate|].
  split; [apply Hadmit; reflexivity|].
  split; [apply Hfalse; reflexivity|].
  apply Htrue. vm_compute. discriminate.
Defined.

(** C3 (amended) at a concrete window: half a second after its start. *)
Lemma status_after_reset_check_witness :
  let status :=
    fst (@RateLimiter.get_rate_limit_status roomy (1#2) (1#2) idle_window) in
  (RateLimiter.tokens_used
     (RateLimiter.check_and_reset_counters (1#2) idle_window)
   <= @TOKENS_PER_MINUTE roomy)%Z
  /\ RateLimiter.remaining (RateLimiter.requests status) = 60%Z
  /\ RateLimiter.remaining (RateLimiter.tokens status) = 60000%Z
  /\ RateLimiter.reset_after_seconds (RateLimiter.requests status)
     = Qfloor (119#2).
Proof.
  intro status.
  assert (H : (RateLimiter.tokens_used
                 (RateLimiter.check_and_reset_counters (1#2) idle_window)
               <= @TOKENS_PER_MINUTE roomy)%Z)
    by (vm_compute; discriminate).
  split; [exact H|].
  pose proof (@status_after_reset_check roomy (1#2) (1#2) idle_window)
    as (_ & _ & Hreq & _ & _ & _ & Htok & Hreset & _).
  split; [exact Hreq|]. split; [exact (Htok H)|]. exact Hreset.
Defined.

(** C8 at a concrete sequence: three tokens admitted at second 0, then a
    request at second 61 and two tokens at second 62. *)
Lemma counters_restart_at_window_boundary_witness :
  let before := [RateLimiter.CheckTokenRateLimit 0 3] in
  let c := RateLimiter.TrackRequest 61 in
  let rest := [RateLimiter.CheckTokenRateLimit 62 2] in
  let window := snd (@RateLimiter.run_calls tight before idle_window) in
  (RateLimiter.reset_check_time c - RateLimiter.last_reset window > 60)%Q
  /\ @RateLimiter.no_reset tight rest (snd (@RateLimiter.run_call tight c window))
     = true
  /\ window = RateLimiter.Usage 0 3 0
  /\ snd (@RateLimiter.run_calls tight (before ++ c :: rest) idle_window)
     = snd (@RateLimiter.run_calls tight (c :: rest)
              (RateLimiter.fresh_window 61))
  /\ RateLimiter.requests_used
       (snd (@RateLimiter.run_calls tight (before ++ c :: rest) idle_window))
     = 1%Z
  /\ RateLimiter.tokens_used
       (snd (@RateLimiter.run_calls tight (before ++ c :: rest) idle_window))
     = 2%Z.
Proof.
  intros before c rest window.
  assert (H : (RateLimiter.reset_check_time c
               - RateLimiter.last_reset window > 60)%Q)
    by (vm_compute; reflexivity).
  assert (Hquiet : @RateLimiter.no_reset tight rest
                     (snd (@RateLimiter.run_call tight c window)) = true)
    by (vm_compute; reflexivity).
  destruct (@counters_restart_at_window_boundary tight before c rest
              idle_window H)
    as (_ & _ & _ & Hfinal & Htally).
  destruct (Htally Hquiet) as (_ & Hrequests & Htokens).
  split; [exact H|]. split; [exact Hquiet|]. split; [reflexivity|].
  split; [exact Hfinal|]. split; [exact Hrequests | exact Htokens].
Defined.

(** C6 on the example of the specification: token limit 5, a tokenizer
    returning [len(text)], fragments ["aaaaa"] and ["bbbbb"]. *)
Lemma truncation_stops_forwarding_witness :
  let w := start alices_thread in
  let w0 := append_log (SendMessageStream (py "q")) w in
  let w1 := snd (@for_chunk_in tight
                   (chunks_then [Some (py "aaaaa")] StopIteration) [] w0) in
  two_fragments (py "q")
    = inr (chunks_then [Some (py "aaaaa")]
             (Next (Some (py "bbbbb")) StopIteration))
  /\ @for_chunk_in tight (chunks_then [Some (py "aaaaa")] StopIteration) [] w0
     = (inr (Exhausted (py "aaaaa")), w1)
  /\ @within_limit tight (py "bbbbb") w1 = false
  /\ exists w2,
       @stream_response tight two_fragments (py "q") 1%N gemini w = (inr tt, w2)
       /\ log w2 = [SendMessageStream (py "q");
                    Yield (content_event (py "aaaaa"));
                    Yield (content_event TRUNCATED);
                    Yield DONE].
Proof.
  intros w w0 w1.
  assert (H1 : two_fragments (py "q")
               = inr (chunks_then [Some (py "aaaaa")]
                        (Next (Some (py "bbbbb")) StopIteration)))
    by reflexivity.
  assert (H2 : chunk_text (Some (py "bbbbb")) = Some (py "bbbbb"))
    by reflexivity.
  assert (H3 : @for_chunk_in tight
                 (chunks_then [Some (py "aaaaa")] StopIteration) [] w0
               = (inr (Exhausted (py "aaaaa")), w1))
    by (vm_compute; reflexivity).
  assert (H4 : @within_limit tight (py "bbbbb") w1 = false)
    by (vm_compute; reflexivity).
  split; [exact H1|]. split; [exact H3|]. split; [exact H4|].
  exact (@truncation_stops_forwarding tight two_fragments (py "q") 1%N gemini
           w [Some (py "aaaaa")] (Some (py "bbbbb")) (py "bbbbb")
           StopIteration (py "aaaaa") w1 H1 H2 H3 H4).
Defined.

(** C1 (amended) on the same run: the tables are left as they were. *)
Lemma truncation_persists_nothing_witness :
  let w := start alices_thread in
  let w0 := append_log (SendMessageStream (py "q")) w in
  let w1 := snd (@for_chunk_in tight
                   (chunks_then [Some (py "aaaaa")] StopIteration) [] w0) in
  @within_limit tight (py "bbbbb") w1 = false
  /\ exists w2,
       @stream_response tight two_fragments (py "q") 1%N gemini w = (inr tt, w2)
       /\ db w2 = alices_thread.
Proof.
  intros w w0 w1.
  assert (H1 : two_fragments (py "q")
               = inr (chunks_then [Some (py "aaaaa")]
                        (Next (Some (py "bbbbb")) StopIteration)))
    by reflexivity.
  assert (H2 : chunk_text (Some (py "bbbbb")) = Some (py "bbbbb"))
    by reflexivity.
  assert (H3 : @for_chunk_in tight
                 (chunks_then [Some (py "aaaaa")] StopIteration) [] w0
               = (inr (Exhausted (py "aaaaa")), w1))
    by (vm_compute; reflexivity).
  assert (H4 : @within_limit tight (py "bbbbb") w1 = false)
    by (vm_compute; reflexivity).
  split; [exact H4|].
  destruct (@truncation_persists_nothing tight two_fragments (py "q") 1%N gemini
              w [Some (py "aaaaa")] (Some (py "bbbbb")) (py "bbbbb")
              StopIteration (py "aaaaa") w1 H1 H2 H3 H4)
    as (w2 & Hrun & Hdb & _).
  exists w2. split; [exact Hrun | exact Hdb].
Defined.

(** C5 (amended) on the example of the specification: the fragments
    ["Hel"], ["lo"], [" world"] give one model-role row with content
    ["Hello world"]. *)
Lemma completed_stream_persists_reply_witness :
  let w := start alices_thread in
  let w0 := append_log (SendMessageStream (py "q")) w in
  let cs := map Some [py "Hel"; py "lo"; py " world"] in
  let w1 := snd (@for_chunk_in roomy (chunks_then cs StopIteration) [] w0) in
  @for_chunk_in roomy (chunks_then cs StopIteration) [] w0
    = (inr (Exhausted (py "Hello world")), w1)
  /\ thread_exists 1%N (db w)
  /\ exists w2,
       @stream_response roomy hello_world (py "q") 1%N gemini w = (inr tt, w2)
       /\ conversations (db w2)
          = conversations (db w)
            ++ [Conversation.Make 1%N (py "model") (py "Hello world")
                  (Some gemini) (Some 11%Z)].
Proof.
  intros w w0 cs w1.
  assert (H1 : hello_world (py "q") = inr (chunks_then cs StopIteration))
    by reflexivity.
  assert (H2 : @for_chunk_in roomy (chunks_then cs StopIteration) [] w0
               = (inr (Exhausted (py "Hello world")), w1))
    by (vm_compute; reflexivity).
  assert (H3 : thread_exists 1%N (db w)) by (eexists; reflexivity).
  split; [exact H2|]. split; [exact H3|].
  destruct (@completed_stream_persists_reply roomy hello_world (py "q") 1%N
              gemini w cs (py "Hello world") w1 H1 H2 H3
              eq_refl eq_refl eq_refl)
    as (w2 & Hrun & _ & Hrows & _).
  exists w2. split; [exact Hrun | exact Hrows].
Defined.

(** C7 on a call that raises at once and on a stream that raises after
    one fragment. *)
Lemma stream_ends_with_sentinel_witness :
  let w := start alices_thread in
  let w0 := append_log (SendMessageStream (py "q")) w in
  let w1 := snd (@for_chunk_in flaky
                   (chunks_then [Some (py "Hel")] StopIteration) [] w0) in
  (refuses (py "q") = inl (py "quota exhausted")
   /\ exists w',
        @stream_response flaky refuses (py "q") 1%N gemini w = (inr tt, w')
        /\ log w' = [SendMessageStream (py "q");
                     Yield (content_event
                              (error_text (Exception (py "quota exhausted"))));
                     Yield DONE]
        /\ db w' = alices_thread)
  /\ (broken_stream (py "q")
        = inr (chunks_then [Some (py "Hel")] (Raises (py "upstream reset")))
      /\ exists w',
           @stream_response flaky broken_stream (py "q") 1%N gemini w
             = (inr tt, w')
           /\ log w' = [SendMessageStream (py "q");
                        Yield (content_event (py "Hel"));
                        Yield (content_event
                                 (error_text (Exception (py "upstream reset"))));
                        Yield DONE]
           /\ db w' = alices_thread).
Proof.
  intros w w0 w1.
  destruct (@stream_ends_with_sentinel flaky) as (_ & _ & Hcall & Hiter & _).
  split.
  - split; [reflexivity|].
    exact (Hcall refuses (py "q") 1%N gemini w (py "quota exhausted") eq_refl).
  - split; [reflexivity|].
    assert (H : @for_chunk_in flaky
                  (chunks_then [Some (py "Hel")] StopIteration) [] w0
                = (inr (Exhausted (py "Hel")), w1))
      by (vm_compute; reflexivity).
    exact (Hiter broken_stream (py "q") 1%N gemini w [Some (py "Hel")]
             (py "upstream reset") (py "Hel") w1 eq_refl H).
Defined.

(** C9 (amended) on a request to an existing thread: the row of the
    question is the first thing written, the model calls come after. *)
Lemma user_turn_precedes_model_call_witness :
  let w := start alices_thread in
  thread_exists 1%N (db w)
  /\ (exists r w2 new,
        @serve_chat roomy (ask "q") 1%N w = (r, w2)
        /\ log w2 = log w ++ new
        /\ r = inr tt)
  /\ firstn 4 (log (snd (@serve_chat roomy (ask "q") 1%N w)))
     = [Inserted (Conversation.Make 1%N (py "user") (py "q") None (Some 1%Z));
        Touched 1%N 0;
        ChatsCreate gemini [HistoryItem (py "user") [py "hi"]];
        SendMessageStream (py "q")].
Proof.
  intro w.
  assert (H : thread_exists 1%N (db w)) by (eexists; reflexivity).
  split; [exact H|]. split; [|vm_compute; reflexivity].
  destruct (@user_turn_precedes_model_call roomy (ask "q") 1%N w H)
    as (r & w2 & new & Hrun & Hlog & _ & Hok).
  exists r, w2, new. split; [exact Hrun|]. split; [exact Hlog|].
  exact (Hok eq_refl eq_refl eq_refl).
Defined.


(* ===================================================================== *)
(** * Further properties of the code *)
(* ===================================================================== *)

Section MoreThrottleProperties.
Context {env : Environment}.
Import RateLimiter.

(** One call keeps a request count within a non-negative budget. *)
Lemma requests_used_within_budget (c : call) (u : usage) :
  (0 <= REQUESTS_PER_MINUTE)%Z ->
  (requests_used u <= REQUESTS_PER_MINUTE)%Z ->
  (requests_used (snd (run_call c u)) <= REQUESTS_PER_MINUTE)%Z.
Proof.
  intros Hbudget Hu.
  assert (Hw : forall t,
    (requests_used (check_and_reset_counters t u) <= REQUESTS_PER_MINUTE)%Z).
  { intro t. unfold check_and_reset_counters.
    destruct (Qgtb (t - last_reset u) 60); simpl; assumption. }
  destruct c as [t | t n | t t']; simpl.
  - unfold track_request. specialize (Hw t).
    destruct (Z.geb_spec (requests_used (check_and_reset_counters t u))
                REQUESTS_PER_MINUTE); simpl; lia.
  - unfold check_token_rate_limit. specialize (Hw t).
    destruct (tokens_used (check_and_reset_counters t u) + n
              >? TOKENS_PER_MINUTE)%Z; simpl; assumption.
  - apply Hw.
Qed.

(** X1. With non-negative budgets, no sequence of throttle calls, whatever
    the clock readings and the token counts, takes a window that is within
    both budgets to one that is beyond either: [requests_used] never passes
    [REQUESTS_PER_MINUTE] and [tokens_used] never passes
    [TOKENS_PER_MINUTE]. *)
Theorem budgets_are_never_exceeded (cs : list call) (u : usage) :
  (0 <= REQUESTS_PER_MINUTE)%Z ->
  (0 <= TOKENS_PER_MINUTE)%Z ->
  (requests_used u <= REQUESTS_PER_MINUTE)%Z ->
  (tokens_used u <= TOKENS_PER_MINUTE)%Z ->
  (requests_used (snd (run_calls cs u)) <= REQUESTS_PER_MINUTE)%Z
  /\ (tokens_used (snd (run_calls cs u)) <= TOKENS_PER_MINUTE)%Z.
Proof.
  intros Hr Ht. revert u.
  induction cs as [|c cs IH]; intros u Hur Hut; simpl.
  - split; assumption.
  - pose proof (requests_used_within_budget c u Hr Hur) as H1.
    pose proof (tokens_used_within_budget c u Ht Hut) as H2.
    destruct (run_call c u) as [o u1]. simpl in H1, H2.
    specialize (IH u1 H1 H2).
    destruct (run_calls cs u1) as [os u2]. exact IH.
Qed.

Lemma admitted_request_nonneg (o : outcome) : (0 <= admitted_request o)%Z.
Proof. destruct o as [[e | []] | b | s]; simpl; lia. Qed.

Lemma admitted_requests_nonneg (os : list outcome) :
  (0 <= admitted_requests os)%Z.
Proof.
  induction os as [|o os IH]; simpl; [lia|].
  pose proof (admitted_request_nonneg o). lia.
Qed.

(** Without a reset, what one call admits fits what is left of the budget
    it is charged to, whatever the sign of the budgets. *)
Lemma run_call_admits_within_budget (c : call) (u : usage) :
  expires c u = false ->
  (admitted_request (fst (run_call c u)) = 0
   \/ admitted_request (fst (run_call c u)) = 1
      /\ requests_used u + 1 <= REQUESTS_PER_MINUTE)%Z
  /\ (admitted_token_count c (fst (run_call c u)) = 0
      \/ tokens_used u + admitted_token_count c (fst (run_call c u))
         <= TOKENS_PER_MINUTE)%Z.
Proof.
  unfold expires. intro Hlive.
  assert (Hsame : check_and_reset_counters (reset_check_time c) u = u).
  { unfold check_and_reset_counters. rewrite Hlive. reflexivity. }
  destruct c as [t | t n | t t']; cbn [reset_check_time] in Hsame;
    unfold run_call.
  - unfold track_request. rewrite Hsame.
    destruct (Z.geb_spec (requests_used u) REQUESTS_PER_MINUTE); simpl.
    + split; left; reflexivity.
    + split; [right; split; [reflexivity | lia] | left; reflexivity].
  - unfold check_token_rate_limit. rewrite Hsame. rewrite Z.gtb_ltb.
    destruct (Z.ltb_spec TOKENS_PER_MINUTE (tokens_used u + n)); simpl.
    + split; left; reflexivity.
    + split; [left; reflexivity | right; lia].
  - unfold get_rate_limit_status. rewrite Hsame. simpl.
    split; left; reflexivity.
Qed.

(** Without a reset, a sequence of calls admits nothing or stays within
    the budget, for requests and for tokens. *)
Lemma run_calls_admit_within_budget (cs : list call) :
  forall u,
    no_reset cs u = true ->
    (admitted_requests (fst (run_calls cs u)) = 0
     \/ requests_used u + admitted_requests (fst (run_calls cs u))
        <= REQUESTS_PER_MINUTE)%Z
    /\ (admitted_tokens cs (fst (run_calls cs u)) = 0
        \/ tokens_used u + admitted_tokens cs (fst (run_calls cs u))
           <= TOKENS_PER_MINUTE)%Z.
Proof.
  induction cs as [|c cs IH]; intros u H; simpl in *.
  - split; left; reflexivity.
  - apply andb_true_iff in H. destruct H as [Hc Hcs].
    apply negb_true_iff in Hc.
    pose proof (run_call_without_reset c u Hc) as Hstep.
    pose proof (run_call_admits_within_budget c u Hc) as Hadmit.
    destruct (run_call c u) as [o u1]. simpl in Hcs, Hadmit.
    specialize (IH u1 Hcs).
    destruct (run_calls cs u1) as [os u2]. simpl in *.
    destruct Hstep as (_ & Hr1 & Ht1).
    destruct Hadmit as [Har Hat]. destruct IH as [IHr IHt].
    rewrite Hr1 in IHr. rewrite Ht1 in IHt.
    split.
    + destruct Har as [Har | [Har Hle]]; destruct IHr as [IHr | IHr]; lia.
    + destruct Hat as [Hat | Hat]; destruct IHt as [IHt | IHt]; lia.
Qed.

(** X2. Between two resets of the window the throttle admits at most what
    is left of each budget, and nothing when the window is already at or
    beyond it: the requests admitted by a sequence of calls that meets no
    reset number at most [max(0, REQUESTS_PER_MINUTE - requests_used)],
    and the token counts it admits sum to at most
    [max(0, TOKENS_PER_MINUTE - tokens_used)], whatever the window and
    the budgets are. *)
Theorem window_admits_at_most_the_budget (cs : list call) (u : usage) :
  no_reset cs u = true ->
  (admitted_requests (fst (run_calls cs u))
   <= Z.max 0 (REQUESTS_PER_MINUTE - requests_used u))%Z
  /\ (admitted_tokens cs (fst (run_calls cs u))
      <= Z.max 0 (TOKENS_PER_MINUTE - tokens_used u))%Z.
Proof.
  intro Hquiet.
  destruct (run_calls_admit_within_budget cs u Hquiet) as [Hr Ht].
  split; lia.
Qed.

(** X3. A request that was refused stays refused until the window
    expires: after [track_request] has raised, whatever calls follow
    without a reset, the next [track_request] that finds the window still
    live raises the same [RateLimitError]. *)
Theorem refused_request_stays_refused
  (t : Q) (cs : list call) (t' : Q) (u : usage) :
  let refused := snd (track_request t u) in
  let later := snd (run_calls cs refused) in
  fst (track_request t u)
    = inl (RateLimitError (py "Request") REQUESTS_PER_MINUTE) ->
  no_reset cs refused = true ->
  expires (TrackRequest t') later = false ->
  fst (track_request t' later)
    = inl (RateLimitError (py "Request") REQUESTS_PER_MINUTE).
Proof.
  intros refused later Hrefused Hquiet Hlive.
  assert (Hfull : (REQUESTS_PER_MINUTE <= requests_used refused)%Z).
  { unfold refused. unfold track_request in *.
    destruct (Z.geb_spec
                (requests_used (check_and_reset_counters t u))
                REQUESTS_PER_MINUTE); simpl in *; [assumption | discriminate]. }
  pose proof (run_calls_without_reset cs refused Hquiet) as Htally.
  fold later in Htally.
  assert (Hlater : (REQUESTS_PER_MINUTE <= requests_used later)%Z).
  { unfold later in *. destruct (run_calls cs refused) as [os u'].
    simpl in *. destruct Htally as (_ & Hreq & _).
    pose proof (admitted_requests_nonneg os). lia. }
  unfold expires in Hlive. simpl in Hlive.
  unfold track_request, check_and_reset_counters. rewrite Hlive.
  destruct (Z.geb_spec (requests_used later) REQUESTS_PER_MINUTE);
    simpl; [reflexivity | lia].
Qed.

(** X4. Reading the status twice within a window gives the same counters:
    the second read leaves the window as the first left it, reports the
    same [used] and [remaining] for both budgets, and its countdown is no
    larger when the clock has not gone back. *)
Theorem status_reads_agree_within_a_window
  (t1 t1' t2 t2' : Q) (u : usage) :
  let first := get_rate_limit_status t1 t1' u in
  let second := get_rate_limit_status t2 t2' (snd first) in
  (t2 - last_reset (snd first) <= 60)%Q ->
  snd second = snd first
  /\ used (requests (fst second)) = used (requests (fst first))
  /\ used (tokens (fst second)) = used (tokens (fst first))
  /\ remaining (requests (fst second)) = remaining (requests (fst first))
  /\ remaining (tokens (fst second)) = remaining (tokens (fst first))
  /\ ((t1' <= t2')%Q ->
      (reset_after_seconds (requests (fst second))
       <= reset_after_seconds (requests (fst first)))%Z
      /\ (reset_after_seconds (tokens (fst second))
          <= reset_after_seconds (tokens (fst first)))%Z).
Proof.
  intros first second Hlive.
  unfold second, first, get_rate_limit_status in *. simpl in *.
  rewrite (check_and_reset_live _ _ Hlive). simpl.
  do 5 (split; [reflexivity|]).
  intro Hclock.
  split;
    (rewrite !py_int_floor by apply Q.le_max_l;
     apply Qfloor_resp_le;
     apply Q.max_le_compat_l;
     apply Qplus_le_r; apply Qopp_le_compat;
     apply Qplus_le_l; exact Hclock).
Qed.

End MoreThrottleProperties.


Section RateLimitsRouteProperties.
Context {env : Environment}.
Import RateLimiter.

(** The lifted [track_request]: one clock reading, the window updated. *)
Lemma track_request_run (w : world) :
  Process.track_request w
  = (fst (RateLimiter.track_request (clock (ticks w)) (usage_tracking w)),
     set_usage_tracking
       (snd (RateLimiter.track_request (clock (ticks w)) (usage_tracking w)))
       (tick w)).
Proof.
  unfold Process.track_request. run. simpl.
  destruct (RateLimiter.track_request _ _); reflexivity.
Qed.

(** X5. The status endpoint counts itself.  When the request budget of
    the current window is used up, it raises
    [RateLimitError("Request", REQUESTS_PER_MINUTE)] and reports nothing;
    otherwise, unless the window expires between its two steps, the
    [used] it reports for requests is one more than the window held, so a
    fresh window is reported with [used = 1], and the token counter is
    reported as it was. *)
Theorem status_endpoint_counts_itself (w : world) :
  let window :=
    check_and_reset_counters (clock (ticks w)) (usage_tracking w) in
  ((requests_used window >= REQUESTS_PER_MINUTE)%Z ->
   RateLimitsRoute.get_rate_limits w
   = (inl (RateLimitError (py "Request") REQUESTS_PER_MINUTE),
      set_usage_tracking window (tick w)))
  /\ ((requests_used window < REQUESTS_PER_MINUTE)%Z ->
      (clock (S (ticks w)) - last_reset window <= 60)%Q ->
      exists status w',
        RateLimitsRoute.get_rate_limits w = (inr status, w')
        /\ used (requests status) = (requests_used window + 1)%Z
        /\ remaining (requests status)
           = (REQUESTS_PER_MINUTE - (requests_used window + 1))%Z
        /\ used (tokens status) = tokens_used window
        /\ usage_tracking w' = add_requests_used 1 window
        /\ db w' = db w).
Proof.
  intro window.
  assert (Hrun : RateLimitsRoute.get_rate_limits w
    = match fst (RateLimiter.track_request (clock (ticks w)) (usage_tracking w))
      with
      | inl e =>
        (inl e,
         set_usage_tracking
           (snd (RateLimiter.track_request (clock (ticks w))
                   (usage_tracking w))) (tick w))
      | inr _ =>
        Process.get_rate_limit_status
          (set_usage_tracking
             (snd (RateLimiter.track_request (clock (ticks w))
                     (usage_tracking w))) (tick w))
      end).
  { unfold RateLimitsRoute.get_rate_limits. unfold bind at 1.
    rewrite track_request_run.
    destruct (fst (RateLimiter.track_request _ _)) as [e | []];
      [reflexivity|].
    unfold bind, ret.
    destruct (Process.get_rate_limit_status _) as [[e | s] w']; reflexivity. }
  rewrite Hrun. unfold RateLimiter.track_request. fold window.
  split; intro Hbudget.
  - destruct (Z.geb_spec (requests_used window) REQUESTS_PER_MINUTE);
      [reflexivity | lia].
  - intro Hlive.
    destruct (Z.geb_spec (requests_used window) REQUESTS_PER_MINUTE);
      [lia|].
    simpl. unfold Process.get_rate_limit_status. run. simpl.
    unfold RateLimiter.get_rate_limit_status.
    assert (Hsame : check_and_reset_counters (clock (S (ticks w)))
                      (add_requests_used 1 window)
                    = add_requests_used 1 window)
      by (apply check_and_reset_live; exact Hlive).
    rewrite Hsame. simpl.
    eexists. eexists. split; [reflexivity|]. simpl.
    repeat split. lia.
Qed.

End RateLimitsRouteProperties.

Section EventProperties.
Import ChatService.

Lemma hex_digit_printable (d : N) :
  (d < 16)%N -> printableb (hex_digit d) = true.
Proof.
  intro H. unfold hex_digit, printableb.
  destruct (N.ltb_spec d 10); apply andb_true_iff; split;
    apply N.leb_le; lia.
Qed.

Lemma u_escape_printable (n : N) : forallb printableb (u_escape n) = true.
Proof.
  unfold u_escape. simpl.
  rewrite !hex_digit_printable by (apply N.mod_lt; discriminate).
  reflexivity.
Qed.

Lemma escape_char_printable (c : N) :
  forallb printableb (escape_char c) = true.
Proof.
  unfold escape_char.
  repeat match goal with
  | |- context [if (?a =? ?b)%N then _ else _] =>
    destruct (a =? b)%N; [reflexivity|]
  end.
  destruct ((32 <=? c) && (c <=? 126))%N eqn:Hp.
  - simpl. unfold printableb. rewrite Hp. reflexivity.
  - destruct (c <? 65536)%N.
    + apply u_escape_printable.
    + rewrite forallb_app, !u_escape_printable. reflexivity.
Qed.

Lemma json_string_printable (text : pystr) :
  forallb printableb (json_string text) = true.
Proof.
  unfold json_string. rewrite !forallb_app. simpl.
  rewrite andb_true_r.
  induction text as [|c text IH]; [reflexivity|].
  simpl. rewrite forallb_app, escape_char_printable. exact IH.
Qed.

(** X6. Every event the generator yields for a text, whatever the text
    holds (line breaks, quotes, non-ASCII characters), is one line of
    printable ASCII followed by the two line feeds that end the event:
    no text can break the framing of the stream or forge a second event. *)
Theorem content_event_is_one_ascii_line (text : pystr) :
  exists line,
    content_event text = line ++ [10; 10]%N
    /\ forallb printableb line = true.
Proof.
  exists (py "data: " ++ json_dumps_content text).
  split.
  - unfold content_event, sse. now rewrite <- app_assoc.
  - unfold json_dumps_content. rewrite !forallb_app.
    rewrite !json_string_printable. reflexivity.
Qed.

End EventProperties.


Section MoreStreamProperties.
Context {env : Environment}.
Import ChatService.

Lemma for_chunk_in_drop_textless (it : iterator) :
  forall (acc : pystr) (w : world),
    for_chunk_in (drop_textless it) acc w = for_chunk_in it acc w.
Proof.
  induction it as [| c rest IH | message]; intros acc w; try reflexivity.
  simpl drop_textless.
  destruct (chunk_text c) as [new_text|] eqn:Hc.
  - destruct (within_limit new_text w) eqn:Hok.
    + rewrite !(for_chunk_in_forward c new_text _ acc w Hc Hok). apply IH.
    + rewrite !(for_chunk_in_truncate c new_text _ acc w Hc Hok).
      reflexivity.
  - rewrite (for_chunk_in_skip c rest acc w Hc). apply IH.
Qed.

(** X7. Chunks without text (no [text] attribute, [None] or the empty
    string) are ignored altogether: a stream behaves exactly as the stream
    with those chunks removed, in what it yields, what it stores, what it
    charges to the token budget and how often it reads the clock. *)
Theorem textless_chunks_are_ignored
  (chat : chat_session) (question : pystr) (thread_id : uuid) (model : pystr)
  (w : world) :
  let chat' := fun q => match chat q with
                        | inl message => inl message
                        | inr it => inr (drop_textless it)
                        end in
  stream_response chat' question thread_id model w
  = stream_response chat question thread_id model w.
Proof.
  intro chat'. rewrite !stream_response_paths. unfold chat'.
  destruct (chat question) as [message | it]; [reflexivity|].
  simpl. rewrite for_chunk_in_drop_textless. reflexivity.
Qed.

(** The token check leaves the request counter alone, unless it finds the
    window expired and zeroes it, and keeps the token counter within a
    non-negative budget. *)
Lemma after_check_throttle (new_text : pystr) (w : world) :
  let u := usage_tracking w in
  let u' := usage_tracking (after_check new_text w) in
  (RateLimiter.requests_used u' = RateLimiter.requests_used u
   \/ RateLimiter.requests_used u' = 0%Z)
  /\ ((0 <= TOKENS_PER_MINUTE)%Z ->
      (RateLimiter.tokens_used u <= TOKENS_PER_MINUTE)%Z ->
      (RateLimiter.tokens_used u' <= TOKENS_PER_MINUTE)%Z).
Proof.
  intros u u'. unfold u', after_check. simpl. fold u.
  split.
  - unfold RateLimiter.check_token_rate_limit,
      RateLimiter.check_and_reset_counters.
    destruct (RateLimiter.Qgtb _ 60); simpl;
      match goal with
      | |- context [if ?b then _ else _] => destruct b
      end; simpl; auto.
  - intros Hb Hu.
    pose proof (tokens_used_within_budget
                  (RateLimiter.CheckTokenRateLimit (clock (ticks w))
                     (RateLimiter.count_tokens new_text)) u Hb Hu) as H.
    simpl in H.
    destruct (RateLimiter.check_token_rate_limit _ _ u). exact H.
Qed.

Lemma for_chunk_in_throttle (it : iterator) :
  forall (acc : pystr) (w : world),
    let u := usage_tracking w in
    let u' := usage_tracking (snd (for_chunk_in it acc w)) in
    (RateLimiter.requests_used u' = RateLimiter.requests_used u
     \/ RateLimiter.requests_used u' = 0%Z)
    /\ ((0 <= TOKENS_PER_MINUTE)%Z ->
        (RateLimiter.tokens_used u <= TOKENS_PER_MINUTE)%Z ->
        (RateLimiter.tokens_used u' <= TOKENS_PER_MINUTE)%Z).
Proof.
  induction it as [| c rest IH | message]; intros acc w; simpl;
    try (split; [left; reflexivity | intros _ H; exact H]).
  change (match chunk_text c with
          | Some new_text => _
          | None => _
          end)
    with (for_chunk_in (Next c rest) acc) .
  destruct (chunk_text c) as [new_text|] eqn:Hc.
  - pose proof (after_check_throttle new_text w) as [Hreq Htok].
    destruct (within_limit new_text w) eqn:Hok.
    + rewrite (for_chunk_in_forward c new_text rest acc w Hc Hok).
      specialize (IH (acc ++ new_text)
        (append_log (Yield (content_event new_text)) (after_check new_text w))).
      destruct IH as [IHreq IHtok]. simpl in IHreq, IHtok.
      split.
      * destruct IHreq as [E | E]; [rewrite E; exact Hreq | right; exact E].
      * intros Hb Hu. apply IHtok; [exact Hb | apply Htok; assumption].
    + rewrite (for_chunk_in_truncate c new_text rest acc w Hc Hok). simpl.
      split; assumption.
  - rewrite (for_chunk_in_skip c rest acc w Hc). apply IH.
Qed.


(** Touching a thread twice leaves the later timestamp. *)
Lemma set_updated_at_twice (thread_id : uuid) (t1 t2 : datetime) (d : Db) :
  threads (ThreadService.set_updated_at thread_id t2
             (ThreadService.set_updated_at thread_id t1 d))
  = threads (ThreadService.set_updated_at thread_id t2 d).
Proof.
  unfold ThreadService.set_updated_at. simpl. rewrite map_map.
  apply map_ext. intro th.
  destruct (Thread.id th =? thread_id)%N eqn:E; simpl; rewrite E; reflexivity.
Qed.

(** The threads of a touched table depend on the threads only. *)
Lemma set_updated_at_threads (thread_id : uuid) (t : datetime) (d d' : Db) :
  threads d' = threads d ->
  threads (ThreadService.set_updated_at thread_id t d')
  = threads (ThreadService.set_updated_at thread_id t d).
Proof. intro H. unfold ThreadService.set_updated_at. simpl. now rewrite H. Qed.

(** Touching a thread keeps every thread findable under its id. *)
Lemma find_after_set_updated_at (thread_id other : uuid) (t : datetime) (d : Db) :
  option_map Thread.id
    (find (fun th => (Thread.id th =? other)%N)
          (threads (ThreadService.set_updated_at thread_id t d)))
  = option_map Thread.id
      (find (fun th => (Thread.id th =? other)%N) (threads d)).
Proof.
  unfold ThreadService.set_updated_at. simpl.
  induction (threads d) as [|th ths IH]; [reflexivity|]. simpl.
  destruct (Thread.id th =? thread_id)%N; simpl;
    destruct (Thread.id th =? other)%N; simpl; auto.
Qed.

(** Everything [add_messages_to_thread] can do, whatever the session
    does: the window is left alone, rows are only appended, in the order
    user then model, and the threads are as they were or the thread has
    been touched. *)
Lemma add_messages_effects
  (thread_id : uuid) (um ar : option Message.t) (w : world) :
  let expected :=
    match um with Some m => [user_row thread_id m] | None => [] end
    ++ match ar with Some m => [model_row thread_id m] | None => [] end in
  let r := fst (ThreadService.add_messages_to_thread thread_id um ar w) in
  let w1 := snd (ThreadService.add_messages_to_thread thread_id um ar w) in
  usage_tracking w1 = usage_tracking w
  /\ (exists k, conversations (db w1)
                = conversations (db w) ++ firstn k expected)
  /\ (threads (db w1) = threads (db w)
      \/ exists t, threads (db w1)
                   = threads (ThreadService.set_updated_at thread_id t (db w)))
  /\ (r = inr true ->
      conversations (db w1) = conversations (db w) ++ expected
      /\ thread_exists thread_id (db w))
  /\ (r = inr false -> db w1 = db w /\ ~ thread_exists thread_id (db w))
  /\ (forall e, r = inl e ->
      (exists message, e = Exception message)
      /\ (thread_exists thread_id (db w) \/ db w1 = db w)).
Proof.
  intros expected r w1. unfold r, w1, expected.
  unfold ThreadService.add_messages_to_thread, ThreadService.get_thread,
    Crud.get_thread, Crud.create_conversation, round_trip, thread_exists. run.
  assert (Hdb : forall w0 : world, {| threads := threads (db w0);
                          conversations := conversations (db w0) |} = db w0)
    by (intro w0; destruct w0 as [[? ?] ? ? ? ?]; reflexivity).
  destruct (db_fault (db_ops w)) as [m0|]; simpl.
  { split; [reflexivity|].
    split; [exists 0%nat; simpl; now rewrite app_nil_r|].
    split; [now left|].
    split; [discriminate|]. split; [discriminate|].
    intros e He. inversion He. split; [now exists m0 | now right]. }
  destruct (find _ (threads (db w))) as [th|] eqn:Hfind; simpl.
  2: { split; [reflexivity|].
       split; [exists 0%nat; simpl; now rewrite app_nil_r|].
       split; [now left|].
       split; [discriminate|].
       split; [intros _; split; [reflexivity | intros [th Hth]; congruence]|].
       discriminate. }
  destruct um as [um|], ar as [ar|]; simpl;
    repeat match goal with
    | |- context [db_fault ?n] => destruct (db_fault n) as [?m|]; simpl
    end;
    repeat match goal with |- _ /\ _ => split end;
    first
      [ reflexivity
      | exists 0%nat; simpl; rewrite ?app_nil_r; reflexivity
      | exists 1%nat; simpl; rewrite ?app_nil_r; reflexivity
      | exists 2%nat; simpl; rewrite <- ?app_assoc; reflexivity
      | left; reflexivity
      | right; eexists; reflexivity
      | intro H; discriminate H
      | intros e He; discriminate He
      | intros _; split;
        [ rewrite <- ?app_assoc, ?app_nil_r; reflexivity
        | eexists; reflexivity ]
      | intros e He; inversion He; split;
        [ eexists; reflexivity | left; eexists; reflexivity ] ].
Qed.


(** What a run of the generator can do to the tables and to the window,
    whatever the model and the session do. *)
Lemma stream_response_effects
  (chat : chat_session) (question : pystr) (thread_id : uuid) (model : pystr)
  (w : world) :
  let w' := snd (stream_response chat question thread_id model w) in
  let u := usage_tracking w in
  let u' := usage_tracking w' in
  (RateLimiter.requests_used u' = RateLimiter.requests_used u
   \/ RateLimiter.requests_used u' = 0%Z)
  /\ ((0 <= TOKENS_PER_MINUTE)%Z ->
      (RateLimiter.tokens_used u <= TOKENS_PER_MINUTE)%Z ->
      (RateLimiter.tokens_used u' <= TOKENS_PER_MINUTE)%Z)
  /\ (exists added,
        conversations (db w') = conversations (db w) ++ added
        /\ (added = []
            \/ thread_exists thread_id (db w)
               /\ exists reply,
                    added = [model_row thread_id
                               (assistant_message reply model)]))
  /\ (threads (db w') = threads (db w)
      \/ exists t, threads (db w')
                   = threads (ThreadService.set_updated_at thread_id t (db w))).
Proof.
  cbv zeta. rewrite stream_response_paths. cbv zeta.
  set (w0 := append_log (SendMessageStream question) w).
  assert (Hnothing : forall x : world,
    usage_tracking x = usage_tracking w -> db x = db w ->
    (RateLimiter.requests_used (usage_tracking x)
       = RateLimiter.requests_used (usage_tracking w)
     \/ RateLimiter.requests_used (usage_tracking x) = 0%Z)
    /\ ((0 <= TOKENS_PER_MINUTE)%Z ->
        (RateLimiter.tokens_used (usage_tracking w) <= TOKENS_PER_MINUTE)%Z ->
        (RateLimiter.tokens_used (usage_tracking x) <= TOKENS_PER_MINUTE)%Z)
    /\ (exists added,
          conversations (db x) = conversations (db w) ++ added
          /\ (added = []
              \/ thread_exists thread_id (db w)
                 /\ exists reply,
                      added = [model_row thread_id
                                 (assistant_message reply model)]))
    /\ (threads (db x) = threads (db w)
        \/ exists t, threads (db x)
                     = threads (ThreadService.set_updated_at thread_id t
                                  (db w)))).
  { intros x Hu Hd. rewrite Hu, Hd.
    split; [now left|]. split; [auto|].
    split; [exists []; split; [now rewrite app_nil_r | now left] | now left]. }
  destruct (chat question) as [message | response].
  { apply Hnothing; reflexivity. }
  pose proof (for_chunk_in_frame response [] w0) as Hframe.
  pose proof (for_chunk_in_throttle response [] w0) as Hthrottle.
  destruct (for_chunk_in response [] w0) as [[e | [acc |]] w1];
    destruct Hframe as (Hdb & _ & _ & _);
    cbv zeta in Hthrottle; simpl in Hthrottle, Hdb;
    destruct Hthrottle as [Hreq Htok].
  - simpl. rewrite Hdb. split; [exact Hreq|]. split; [exact Htok|].
    split; [exists []; split; [now rewrite app_nil_r | now left] | now left].
  - pose proof (add_messages_effects thread_id None
                  (Some (assistant_message acc model)) w1) as Heff.
    cbv zeta in Heff.
    destruct (ThreadService.add_messages_to_thread thread_id None _ w1)
      as [r w2].
    simpl in Heff.
    destruct Heff as (Hu & [k Hrows] & Hthreads & Htrue & Hfalse & Hraise).
    assert (Hout : usage_tracking w2 = usage_tracking w1
                   /\ conversations (db w2)
                      = conversations (db w) ++
                        firstn k [model_row thread_id
                                    (assistant_message acc model)]
                   /\ (firstn k [model_row thread_id
                                   (assistant_message acc model)] = []
                       \/ thread_exists thread_id (db w))).
    { split; [exact Hu|]. split; [now rewrite Hrows, Hdb|].
      destruct k as [|k]; [now left|]. right.
      destruct r as [e | [|]].
      - destruct (Hraise e eq_refl) as (_ & [Hex | Hsame]).
        + now rewrite <- Hdb.
        + exfalso. rewrite Hsame in Hrows. simpl in Hrows.
          apply (f_equal (@List.length _)) in Hrows.
          rewrite length_app in Hrows. simpl in Hrows. lia.
      - destruct (Htrue eq_refl) as [_ Hex]. now rewrite <- Hdb.
      - destruct (Hfalse eq_refl) as [Hsame _].
        exfalso. rewrite Hsame in Hrows. simpl in Hrows.
        apply (f_equal (@List.length _)) in Hrows.
        rewrite length_app in Hrows. simpl in Hrows. lia. }
    destruct Hout as (Hu2 & Hconv & Hadded).
    assert (Hth : threads (db w2) = threads (db w)
                  \/ exists t, threads (db w2)
                       = threads (ThreadService.set_updated_at thread_id t
                                    (db w))).
    { destruct Hthreads as [H | [t H]].
      - left. now rewrite H, Hdb.
      - right. exists t. rewrite H.
        apply set_updated_at_threads. now rewrite Hdb. }
    assert (Hgoal : forall x : world,
      usage_tracking x = usage_tracking w2 -> db x = db w2 ->
      (RateLimiter.requests_used (usage_tracking x)
         = RateLimiter.requests_used (usage_tracking w)
       \/ RateLimiter.requests_used (usage_tracking x) = 0%Z)
      /\ ((0 <= TOKENS_PER_MINUTE)%Z ->
          (RateLimiter.tokens_used (usage_tracking w) <= TOKENS_PER_MINUTE)%Z ->
          (RateLimiter.tokens_used (usage_tracking x) <= TOKENS_PER_MINUTE)%Z)
      /\ (exists added,
            conversations (db x) = conversations (db w) ++ added
            /\ (added = []
                \/ thread_exists thread_id (db w)
                   /\ exists reply,
                        added = [model_row thread_id
                                   (assistant_message reply model)]))
      /\ (threads (db x) = threads (db w)
          \/ exists t, threads (db x)
                       = threads (ThreadService.set_updated_at thread_id t
                                    (db w)))).
    { intros x Hux Hdx. rewrite Hux, Hdx, Hu2.
      split; [exact Hreq|]. split; [exact Htok|]. split; [|exact Hth].
      eexists. split; [exact Hconv|].
      destruct Hadded as [Hnil | Hex]; [left; exact Hnil|].
      destruct k as [|k]; [now left|]. right. split; [exact Hex|].
      exists acc. destruct k; reflexivity. }
    destruct r as [e | b]; apply Hgoal; reflexivity.
  - simpl. rewrite Hdb. split; [exact Hreq|]. split; [exact Htok|].
    split; [exists []; split; [now rewrite app_nil_r | now left] | now left].
Qed.

End MoreStreamProperties.


Section ServedRequestProperties.
Context {env : Environment}.
Import ChatService ChatRoute.

(** Touching a thread changes no id, and no thread with another id. *)
Lemma set_updated_at_ids (thread_id : uuid) (t : datetime) (d : Db) :
  map Thread.id (threads (ThreadService.set_updated_at thread_id t d))
  = map Thread.id (threads d).
Proof.
  unfold ThreadService.set_updated_at. simpl. rewrite map_map.
  apply map_ext. intro th. destruct (Thread.id th =? thread_id)%N; reflexivity.
Qed.

Lemma set_updated_at_others
  (thread_id : uuid) (t : datetime) (d : Db) (th : Thread.t) :
  In th (threads d) -> Thread.id th <> thread_id ->
  In th (threads (ThreadService.set_updated_at thread_id t d)).
Proof.
  intros Hin Hid. unfold ThreadService.set_updated_at. simpl.
  apply in_map_iff. exists th. split; [|exact Hin].
  destruct (N.eqb_spec (Thread.id th) thread_id); [contradiction | reflexivity].
Qed.

(** What serving a chat request can do to the tables and to the window,
    whatever the model and the session do. *)
Lemma serve_chat_effects
  (chat_request : ChatRequestWithThread.t) (thread_id : uuid) (w : world) :
  let question := ChatRequestWithThread.question chat_request in
  let model := ChatRequestWithThread.model chat_request in
  let w' := snd (serve_chat chat_request thread_id w) in
  (RateLimiter.requests_used (usage_tracking w')
     = RateLimiter.requests_used (usage_tracking w)
   \/ RateLimiter.requests_used (usage_tracking w') = 0%Z)
  /\ ((0 <= TOKENS_PER_MINUTE)%Z ->
      (RateLimiter.tokens_used (usage_tracking w) <= TOKENS_PER_MINUTE)%Z ->
      (RateLimiter.tokens_used (usage_tracking w') <= TOKENS_PER_MINUTE)%Z)
  /\ (exists added,
        conversations (db w') = conversations (db w) ++ added
        /\ (added = []
            \/ added = [user_row thread_id (new_user_message question)]
            \/ exists reply,
                 added = [user_row thread_id (new_user_message question);
                          model_row thread_id
                            (assistant_message reply model)]))
  /\ (threads (db w') = threads (db w)
      \/ exists t, threads (db w')
                   = threads (ThreadService.set_updated_at thread_id t (db w))).
Proof.
  cbv zeta.
  set (question := ChatRequestWithThread.question chat_request).
  set (model := ChatRequestWithThread.model chat_request).
  unfold serve_chat, bind.
  pose proof (chat_with_thread_steps chat_request thread_id w) as Hsteps.
  cbv zeta in Hsteps. fold question model in Hsteps. rewrite Hsteps.
  pose proof (add_messages_effects thread_id
                (Some (new_user_message question)) None (count_db_op w))
    as Heff.
  cbv zeta in Heff.
  destruct (ThreadService.add_messages_to_thread thread_id _ None
              (count_db_op w)) as [r w1].
  simpl in Heff.
  destruct Heff as (Hu & [k Hrows] & Hthreads & Htrue & Hfalse & Hraise).
  assert (Hadded1 :
    firstn k [user_row thread_id (new_user_message question)] = []
    \/ firstn k [user_row thread_id (new_user_message question)]
       = [user_row thread_id (new_user_message question)]).
  { destruct k as [|[|k]]; [now left | now right | now right]. }
  assert (Hstop : forall x : world,
    usage_tracking x = usage_tracking w1 -> db x = db w1 ->
    (RateLimiter.requests_used (usage_tracking x)
       = RateLimiter.requests_used (usage_tracking w)
     \/ RateLimiter.requests_used (usage_tracking x) = 0%Z)
    /\ ((0 <= TOKENS_PER_MINUTE)%Z ->
        (RateLimiter.tokens_used (usage_tracking w) <= TOKENS_PER_MINUTE)%Z ->
        (RateLimiter.tokens_used (usage_tracking x) <= TOKENS_PER_MINUTE)%Z)
    /\ (exists added,
          conversations (db x) = conversations (db w) ++ added
          /\ (added = []
              \/ added = [user_row thread_id (new_user_message question)]
              \/ exists reply,
                   added = [user_row thread_id (new_user_message question);
                            model_row thread_id
                              (assistant_message reply model)]))
    /\ (threads (db x) = threads (db w)
        \/ exists t, threads (db x)
                     = threads (ThreadService.set_updated_at thread_id t
                                  (db w)))).
  { intros x Hux Hdx. rewrite Hux, Hdx, Hu. simpl.
    split; [now left|]. split; [auto|]. split; [|exact Hthreads].
    eexists. split; [exact Hrows|].
    destruct Hadded1 as [H | H]; rewrite H; auto. }
  destruct r as [e | stored_ok]; [apply Hstop; reflexivity|].
  unfold chat_response.
  destruct (chats_create model (history_seen thread_id w)) as [message | chat];
    [apply Hstop; reflexivity|].
  set (w2 := append_log (ChatsCreate model (history_seen thread_id w)) w1).
  pose proof (stream_response_effects chat question thread_id model w2)
    as Hstream.
  cbv zeta in Hstream.
  destruct (stream_response chat question thread_id model w2) as [r' w3].
  simpl in Hstream. simpl.
  destruct Hstream as (Hreq & Htok & (added2 & Hconv2 & Hadded2) & Hthreads2).
  change (usage_tracking w2) with (usage_tracking w1) in *.
  change (db w2) with (db w1) in *.
  rewrite Hu in *. simpl in Hreq, Htok.
  split; [exact Hreq|]. split; [exact Htok|]. split.
  - exists (firstn k [user_row thread_id (new_user_message question)]
            ++ added2).
    split; [now rewrite Hconv2, Hrows, app_assoc|].
    destruct Hadded2 as [Hnil | [Hex [reply Hreply]]].
    + rewrite Hnil, app_nil_r.
      destruct Hadded1 as [H | H]; rewrite H; auto.
    + right. right. exists reply. rewrite Hreply.
      destruct stored_ok.
      * destruct (Htrue eq_refl) as [Hall _].
        rewrite Hrows in Hall. apply app_inv_head in Hall.
        simpl in Hall. rewrite Hall. reflexivity.
      * destruct (Hfalse eq_refl) as [Hsame Hmissing].
        exfalso. apply Hmissing. rewrite Hsame in Hex. exact Hex.
  - destruct Hthreads2 as [H2 | [t2 H2]].
    + rewrite H2. exact Hthreads.
    + right. exists t2. rewrite H2.
      destruct Hthreads as [H1 | [t1 H1]].
      * apply set_updated_at_threads. exact H1.
      * transitivity
          (threads (ThreadService.set_updated_at thread_id t2
                      (ThreadService.set_updated_at thread_id t1 (db w))));
          [apply set_updated_at_threads; exact H1
          | apply set_updated_at_twice].
Qed.

(** X8. A chat request is never counted against the request budget, and
    its stream never overdraws the token budget: serving it leaves
    [requests_used] as it was (or at zero, when a token check found the
    window expired), whatever the model and the session do, and with a
    non-negative token budget it leaves [tokens_used] within
    [TOKENS_PER_MINUTE] if it found it there. *)
Theorem chat_request_and_the_budgets
  (chat_request : ChatRequestWithThread.t) (thread_id : uuid) (w : world) :
  let w' := snd (serve_chat chat_request thread_id w) in
  (RateLimiter.requests_used (usage_tracking w')
     = RateLimiter.requests_used (usage_tracking w)
   \/ RateLimiter.requests_used (usage_tracking w') = 0%Z)
  /\ ((0 <= TOKENS_PER_MINUTE)%Z ->
      (RateLimiter.tokens_used (usage_tracking w) <= TOKENS_PER_MINUTE)%Z ->
      (RateLimiter.tokens_used (usage_tracking w') <= TOKENS_PER_MINUTE)%Z).
Proof.
  intro w'.
  destruct (serve_chat_effects chat_request thread_id w) as (Hreq & Htok & _).
  split; [exact Hreq | exact Htok].
Qed.

(** X9. A chat request only ever appends to its own thread.  Whatever the
    model and the session do, the rows it leaves behind are the old rows
    followed by nothing, by the question, or by the question and one
    model-role reply (never a reply without its question); the rows of
    every other thread are as they were, no thread is created or deleted,
    and every thread with another id is unchanged. *)
Theorem chat_request_only_appends_to_its_thread
  (chat_request : ChatRequestWithThread.t) (thread_id : uuid) (w : world) :
  let question := ChatRequestWithThread.question chat_request in
  let model := ChatRequestWithThread.model chat_request in
  let w' := snd (serve_chat chat_request thread_id w) in
  let question_row :=
    {| Conversation.thread_id := thread_id;
       Conversation.role := py "user";
       Conversation.content := question;
       Conversation.model := None;
       Conversation.token_count := Some (RateLimiter.count_tokens question) |} in
  let reply_row := fun reply =>
    {| Conversation.thread_id := thread_id;
       Conversation.role := py "model";
       Conversation.content := reply;
       Conversation.model := Some model;
       Conversation.token_count := Some (RateLimiter.count_tokens reply) |} in
  (exists added,
     conversations (db w') = conversations (db w) ++ added
     /\ (added = [] \/ added = [question_row]
         \/ exists reply, added = [question_row; reply_row reply]))
  /\ (forall other, other <> thread_id ->
      Sql.rows_of other (db w') = Sql.rows_of other (db w))
  /\ map Thread.id (threads (db w')) = map Thread.id (threads (db w))
  /\ (forall th, In th (threads (db w)) -> Thread.id th <> thread_id ->
      In th (threads (db w'))).
Proof.
  intros question model w' question_row reply_row.
  destruct (serve_chat_effects chat_request thread_id w)
    as (_ & _ & (added & Hconv & Hadded) & Hthreads).
  fold question model w' in Hconv, Hadded, Hthreads.
  assert (Hq : user_row thread_id (new_user_message question) = question_row).
  { unfold user_row. rewrite token_count_of_new_user_message. reflexivity. }
  assert (Hr : forall reply,
    model_row thread_id (assistant_message reply model) = reply_row reply).
  { intro reply. unfold model_row.
    rewrite token_count_of_assistant_message. reflexivity. }
  rewrite Hq in Hadded.
  assert (Hadded' : added = [] \/ added = [question_row]
                    \/ exists reply, added = [question_row; reply_row reply]).
  { destruct Hadded as [H | [H | [reply H]]]; auto.
    right. right. exists reply. now rewrite <- Hr. }
  split; [exists added; split; assumption|].
  split.
  - intros other Hother. unfold Sql.rows_of. rewrite Hconv, filter_app.
    assert (Hnone : filter
              (fun row => (Conversation.thread_id row =? other)%N) added = []).
    { assert (Hneq : (thread_id =? other)%N = false)
        by (apply N.eqb_neq; congruence).
      destruct Hadded' as [H | [H | [reply H]]]; rewrite H; simpl;
        rewrite ?Hneq; reflexivity. }
    rewrite Hnone. apply app_nil_r.
  - destruct Hthreads as [H | [t H]]; rewrite H.
    + split; [reflexivity | auto].
    + split; [apply set_updated_at_ids|].
      intros th Hin Hid. now apply set_updated_at_others.
Qed.

End ServedRequestProperties.


Section ChargeAndHistoryProperties.
Context {env : Environment}.
Import ChatService ChatRoute.

(** A token check that finds the window live and within the budget adds
    the count; one that finds it live and beyond the budget adds nothing. *)
Lemma after_check_live (new_text : pystr) (w : world) :
  (clock (ticks w) - RateLimiter.last_reset (usage_tracking w) <= 60)%Q ->
  usage_tracking (after_check new_text w)
  = if within_limit new_text w
    then RateLimiter.add_tokens_used (RateLimiter.count_tokens new_text)
           (usage_tracking w)
    else usage_tracking w.
Proof.
  intro Hlive. unfold after_check, within_limit. simpl.
  unfold RateLimiter.check_token_rate_limit.
  rewrite (check_and_reset_live _ _ Hlive).
  destruct (_ >? _)%Z; reflexivity.
Qed.

(** X10. Each forwarded fragment is charged to the token budget exactly
    once, and a refused fragment is not charged.  When the loop gets
    through a run of chunks without truncation and no clock reading finds
    the window expired, [tokens_used] has grown by the sum of
    [count_tokens] over the forwarded texts, the clock has been read once
    per text, and [requests_used] and [last_reset] are as they were; a
    fragment refused in a live window leaves the window untouched. *)
Theorem forwarded_fragments_are_charged_once (cs : list chunk) :
  forall (acc : pystr) (w : world) (acc1 : pystr) (w1 : world),
    for_chunk_in (chunks_then cs StopIteration) acc w
      = (inr (Exhausted acc1), w1) ->
    (forall i, (i < List.length (texts cs))%nat ->
       (clock (ticks w + i)
        - RateLimiter.last_reset (usage_tracking w) <= 60)%Q) ->
    (RateLimiter.tokens_used (usage_tracking w1)
     = RateLimiter.tokens_used (usage_tracking w)
       + fold_right Z.add 0 (map RateLimiter.count_tokens (texts cs)))%Z
    /\ RateLimiter.requests_used (usage_tracking w1)
       = RateLimiter.requests_used (usage_tracking w)
    /\ RateLimiter.last_reset (usage_tracking w1)
       = RateLimiter.last_reset (usage_tracking w)
    /\ ticks w1 = (ticks w + List.length (texts cs))%nat
    /\ forall c new_text rest,
         chunk_text c = Some new_text ->
         within_limit new_text w1 = false ->
         (clock (ticks w1)
          - RateLimiter.last_reset (usage_tracking w1) <= 60)%Q ->
         usage_tracking (snd (for_chunk_in (Next c rest) acc1 w1))
         = usage_tracking w1.
Proof.
  induction cs as [|c cs IH]; intros acc w acc1 w1 Hloop Hlive.
  - simpl in Hloop. unfold ret in Hloop. inversion Hloop; subst.
    split; [simpl; lia|]. split; [reflexivity|]. split; [reflexivity|].
    split; [simpl; lia|].
    intros c new_text rest Hc Hrefused Hl.
    rewrite (for_chunk_in_truncate c new_text rest _ _ Hc Hrefused).
    change (usage_tracking (after_check new_text w1) = usage_tracking w1).
    rewrite (after_check_live new_text w1 Hl), Hrefused. reflexivity.
  - change (chunks_then (c :: cs) StopIteration)
      with (Next c (chunks_then cs StopIteration)) in Hloop.
    unfold texts in *. simpl flat_map in *. fold (texts cs) in *.
    destruct (chunk_text c) as [new_text|] eqn:Hc.
    + destruct (within_limit new_text w) eqn:Hok.
      * rewrite (for_chunk_in_forward c new_text _ acc w Hc Hok) in Hloop.
        assert (H0 : (clock (ticks w)
                      - RateLimiter.last_reset (usage_tracking w) <= 60)%Q).
        { specialize (Hlive 0%nat). rewrite Nat.add_0_r in Hlive.
          apply Hlive. simpl. lia. }
        pose proof (after_check_live new_text w H0) as Hcharged.
        rewrite Hok in Hcharged.
        specialize (IH _ _ _ _ Hloop).
        change (usage_tracking
                  (append_log (Yield (content_event new_text))
                     (after_check new_text w)))
          with (usage_tracking (after_check new_text w)) in IH.
        change (ticks
                  (append_log (Yield (content_event new_text))
                     (after_check new_text w)))
          with (S (ticks w)) in IH.
        rewrite Hcharged in IH.
        destruct IH as (Htok & Hreq & Hreset & Hticks & Hrefuse).
        { intros i Hi. replace (S (ticks w) + i)%nat with (ticks w + S i)%nat by lia.
          apply Hlive. simpl. lia. }
        simpl in Htok, Hreq, Hreset.
        split; [simpl; lia|]. split; [exact Hreq|]. split; [exact Hreset|].
        split; [simpl; lia|]. exact Hrefuse.
      * rewrite (for_chunk_in_truncate c new_text _ acc w Hc Hok) in Hloop.
        discriminate.
    + rewrite (for_chunk_in_skip c _ acc w Hc) in Hloop.
      exact (IH _ _ _ _ Hloop Hlive).
Qed.

(** X11. What [add_messages_to_thread] has stored is what the next
    request is given as history: once it has returned [True], the history
    query for the thread returns the earlier history followed by the user
    message and the assistant response, in that order, each with its role
    and content, and the history of every other thread is as it was. *)
Theorem stored_messages_are_the_next_history
  (thread_id : uuid) (um ar : option Message.t) (w w1 : world) :
  ThreadService.add_messages_to_thread thread_id um ar w = (inr true, w1) ->
  db_fault (db_ops w1) = None ->
  ThreadService.get_thread_messages_optimized thread_id w1
    = (inr (history_of thread_id (db w)
            ++ match um with
               | Some m => [HistoryItem (py "user") [Message.content m]]
               | None => []
               end
            ++ match ar with
               | Some m => [HistoryItem (py "model") [Message.content m]]
               | None => []
               end),
       count_db_op w1)
  /\ forall other, other <> thread_id ->
       ThreadService.get_thread_messages_optimized other w1
       = (inr (history_of other (db w)), count_db_op w1).
Proof.
  intros Hstore Hhealthy.
  pose proof (add_messages_effects thread_id um ar w) as Heff.
  cbv zeta in Heff. rewrite Hstore in Heff. simpl in Heff.
  destruct Heff as (_ & _ & _ & Htrue & _).
  destruct (Htrue eq_refl) as [Hrows _].
  assert (Hquery : forall t,
    ThreadService.get_thread_messages_optimized t w1
    = (inr (history_of t (db w1)), count_db_op w1)).
  { intro t. unfold ThreadService.get_thread_messages_optimized, round_trip.
    rewrite Hhealthy. unfold history_of.
    destruct w1 as [[ths cvs] u tk ops lg]. reflexivity. }
  assert (Heq : (thread_id =? thread_id)%N = true) by apply N.eqb_refl.
  split.
  - rewrite Hquery. f_equal. f_equal. unfold history_of.
    rewrite Hrows, filter_app, map_app. f_equal.
    destruct um as [um|], ar as [ar|]; simpl; rewrite ?Heq; reflexivity.
  - intros other Hother. rewrite Hquery. f_equal. f_equal.
    unfold history_of. rewrite Hrows, filter_app, map_app.
    assert (Hneq : (thread_id =? other)%N = false)
      by (apply N.eqb_neq; congruence).
    destruct um as [um|], ar as [ar|]; simpl; rewrite ?Hneq;
      simpl; now rewrite app_nil_r.
Qed.

(** X12. When the chat session cannot be created, the question stays
    stored without a reply and nothing is streamed: for an existing
    thread and a session that does not raise, the handler answers with the
    dictionary [{"role": "model", "content": "⚠️ Error processing
    request: ..."}] instead of an exception, no event is yielded, not
    even the sentinel, and the thread has gained exactly the question. *)
Theorem session_failure_leaves_the_question_unanswered
  (chat_request : ChatRequestWithThread.t) (thread_id : uuid) (w : world)
  (message : pystr) :
  let question := ChatRequestWithThread.question chat_request in
  let model := ChatRequestWithThread.model chat_request in
  chats_create model (history_seen thread_id w) = inl message ->
  thread_exists thread_id (db w) ->
  db_fault (S (db_ops w)) = None ->
  db_fault (S (S (db_ops w))) = None ->
  db_fault (S (S (S (db_ops w)))) = None ->
  exists w1,
    chat_with_thread chat_request thread_id w
      = (inr (Dict (py "model")
                (py "⚠️ Error processing request: " ++ message)), w1)
    /\ serve_chat chat_request thread_id w = (inr tt, w1)
    /\ (forall event, In (Yield event) (log w1) -> In (Yield event) (log w))
    /\ conversations (db w1)
       = conversations (db w)
         ++ [ {| Conversation.thread_id := thread_id;
                 Conversation.role := py "user";
                 Conversation.content := question;
                 Conversation.model := None;
                 Conversation.token_count :=
                   Some (RateLimiter.count_tokens question) |} ].
Proof.
  intros question model Hcreate Hthread H1 H2 H3.
  pose proof (chat_with_thread_steps chat_request thread_id w) as Hsteps.
  cbv zeta in Hsteps. fold question model in Hsteps.
  rewrite (add_messages_user thread_id _ (count_db_op w) Hthread H1 H2 H3)
    in Hsteps.
  unfold chat_response in Hsteps. rewrite Hcreate in Hsteps.
  eexists. split; [exact Hsteps|].
  split; [unfold serve_chat, bind; rewrite Hsteps; reflexivity|].
  split.
  - intros event Hin. revert Hin.
    worlds. rewrite <- !app_assoc. intro Hin.
    apply in_app_or in Hin. destruct Hin as [Hin | Hin]; [exact Hin|].
    simpl in Hin. destruct Hin as [Hin | [Hin | [Hin | []]]]; discriminate.
  - worlds. unfold user_row. rewrite token_count_of_new_user_message.
    reflexivity.
Qed.

End ChargeAndHistoryProperties.


Section StoreProperties.
Context {env : Environment}.

Lemma round_trip_query {A} (f : Db -> A) (w : world) :
  db_fault (db_ops w) = None ->
  round_trip (fun d => (f d, d)) w = (inr (f (db w)), count_db_op w).
Proof.
  intro H. unfold round_trip. rewrite H.
  destruct w as [[ths cvs] u tk ops lg]. reflexivity.
Qed.

Lemma round_trip_fault {A} (statement : Db -> A * Db) (w : world)
  (message : pystr) :
  db_fault (db_ops w) = Some message ->
  round_trip statement w = (inl (Exception message), count_db_op w).
Proof. intro H. unfold round_trip. now rewrite H. Qed.

Lemma round_trip_query_db {A} (f : Db -> A) (w : world) :
  db (snd (round_trip (fun d => (f d, d)) w)) = db w.
Proof.
  destruct (db_fault (db_ops w)) as [m|] eqn:Hf.
  - now rewrite (round_trip_fault _ w m Hf).
  - now rewrite (round_trip_query _ w Hf).
Qed.

Lemma or_zero_sum (rows : list Conversation.t) :
  Sql.or_zero (Sql.sum_token_count rows)
  = fold_right Z.add 0%Z (Sql.token_counts rows).
Proof.
  unfold Sql.sum_token_count.
  destruct (Sql.token_counts rows); reflexivity.
Qed.

Lemma or_zero_coalesce (result : option Z) :
  Sql.or_zero (Sql.coalesce_zero result) = Sql.or_zero result.
Proof. destruct result; reflexivity. Qed.

Lemma sum_app (xs ys : list Z) :
  (fold_right Z.add 0 (xs ++ ys)
   = fold_right Z.add 0 xs + fold_right Z.add 0 ys)%Z.
Proof. induction xs as [|x xs IH]; simpl; lia. Qed.

Lemma token_counts_app (xs ys : list Conversation.t) :
  Sql.token_counts (xs ++ ys) = Sql.token_counts xs ++ Sql.token_counts ys.
Proof. unfold Sql.token_counts. apply flat_map_app. Qed.

(** X13. The three totals of a thread agree.  [get_thread_token_count],
    [get_total_tokens_from_db] and [get_thread_total_tokens_optimized]
    behave alike on every state of the session, and when the query does
    not raise each returns the sum of the counts stored for the thread,
    rows without a count left out, and leaves the tables alone; for a
    thread none of whose rows has a count that is 0. *)
Theorem token_totals_agree (thread_id : uuid) (w : world) :
  ChatServiceMore.get_total_tokens_from_db thread_id w
  = ThreadServiceMore.get_thread_token_count thread_id w
  /\ TokenUtils.get_thread_total_tokens_optimized thread_id w
     = ThreadServiceMore.get_thread_token_count thread_id w
  /\ (db_fault (db_ops w) = None ->
      ThreadServiceMore.get_thread_token_count thread_id w
      = (inr (thread_total thread_id (db w)), count_db_op w))
  /\ (Forall (fun row => Conversation.token_count row = None)
        (Sql.rows_of thread_id (db w)) ->
      thread_total thread_id (db w) = 0%Z).
Proof.
  split; [reflexivity|]. split; [|split].
  - unfold TokenUtils.get_thread_total_tokens_optimized,
      ThreadServiceMore.get_thread_token_count, bind, ret.
    destruct (db_fault (db_ops w)) as [m|] eqn:Hf.
    + now rewrite !(round_trip_fault _ w m Hf).
    + rewrite !(round_trip_query _ w Hf). now rewrite or_zero_coalesce.
  - intro Hf. unfold ThreadServiceMore.get_thread_token_count, bind, ret.
    rewrite (round_trip_query _ w Hf). now rewrite or_zero_sum.
  - unfold thread_total. induction 1 as [|row rows Hrow _ IH]; [reflexivity|].
    unfold Sql.token_counts in *. simpl. now rewrite Hrow.
Qed.

Lemma rows_of_app (thread_id : uuid) (ths : list Thread.t)
  (old new : list Conversation.t) :
  Sql.rows_of thread_id {| threads := ths; conversations := old ++ new |}
  = filter (fun row => (Conversation.thread_id row =? thread_id)%N) old
    ++ filter (fun row => (Conversation.thread_id row =? thread_id)%N) new.
Proof. unfold Sql.rows_of. simpl. apply filter_app. Qed.

(** X14. Storing messages raises the thread's total by their counts.
    After [add_messages_to_thread] has returned [True], the total of the
    thread is the earlier total plus, for each message given, its
    ["token_count"] or, when that is missing or 0, the count of its
    content; the total of every other thread is as it was. *)
Theorem stored_messages_add_their_counts
  (thread_id : uuid) (um ar : option Message.t) (w w1 : world) :
  ThreadService.add_messages_to_thread thread_id um ar w = (inr true, w1) ->
  (thread_total thread_id (db w1)
   = thread_total thread_id (db w)
     + match um with
       | Some m => ThreadService.token_count_or_count m
       | None => 0
       end
     + match ar with
       | Some m => ThreadService.token_count_or_count m
       | None => 0
       end)%Z
  /\ forall other, other <> thread_id ->
       thread_total other (db w1) = thread_total other (db w).
Proof.
  intro Hstore.
  pose proof (add_messages_effects thread_id um ar w) as Heff.
  cbv zeta in Heff. rewrite Hstore in Heff. simpl in Heff.
  destruct Heff as (_ & _ & _ & Htrue & _).
  destruct (Htrue eq_refl) as [Hrows _].
  assert (Heq : (thread_id =? thread_id)%N = true) by apply N.eqb_refl.
  unfold thread_total, Sql.rows_of. rewrite Hrows, !filter_app.
  split.
  - rewrite token_counts_app, sum_app.
    destruct um as [um|], ar as [ar|]; simpl; rewrite ?Heq; simpl; lia.
  - intros other Hother.
    assert (Hneq : (thread_id =? other)%N = false)
      by (apply N.eqb_neq; congruence).
    rewrite !filter_app, token_counts_app, sum_app.
    destruct um as [um|], ar as [ar|]; simpl; rewrite ?Hneq; simpl; lia.
Qed.

Lemma is_user_not_assistant (row : Conversation.t) :
  TokenUtils.is_user row = true -> TokenUtils.is_assistant row = false.
Proof.
  unfold TokenUtils.is_user, TokenUtils.is_assistant.
  destruct (list_eq_dec N.eq_dec (Conversation.role row) (py "user"))
    as [Hu|]; [|discriminate].
  intros _. rewrite Hu.
  destruct (list_eq_dec N.eq_dec (py "user") (py "assistant"));
    [discriminate|].
  destruct (list_eq_dec N.eq_dec (py "user") (py "model"));
    [discriminate|reflexivity].
Qed.

Lemma sum_by_role (rows : list Conversation.t) :
  (fold_right Z.add 0 (Sql.token_counts rows)
   = fold_right Z.add 0 (Sql.token_counts (filter TokenUtils.is_user rows))
     + fold_right Z.add 0
         (Sql.token_counts (filter TokenUtils.is_assistant rows))
     + fold_right Z.add 0
         (Sql.token_counts
            (filter (fun row => negb (TokenUtils.is_user row)
                                && negb (TokenUtils.is_assistant row))
               rows)))%Z.
Proof.
  induction rows as [|row rows IH]; [reflexivity|].
  change (row :: rows) with ([row] ++ rows).
  rewrite !filter_app, !token_counts_app, !sum_app, IH.
  simpl filter.
  destruct (TokenUtils.is_user row) eqn:Hu.
  - rewrite (is_user_not_assistant row Hu). simpl.
    rewrite !app_nil_r. lia.
  - destruct (TokenUtils.is_assistant row); simpl; rewrite !app_nil_r; lia.
Qed.

(** X15. The usage statistics count every row as a message but only the
    rows of the roles "user", "assistant" and "model" as tokens.  When
    the three queries do not raise, [message_count] is the number of rows
    of the thread, [total_tokens] is [user_tokens + assistant_tokens],
    and the thread's total exceeds it by the counts of the rows with any
    other role; so it is the thread's total when every row has one of
    the three roles, as the rows [add_messages_to_thread] writes do. *)
Theorem usage_stats_count_known_roles (thread_id : uuid) (w : world) :
  db_fault (db_ops w) = None ->
  db_fault (S (db_ops w)) = None ->
  db_fault (S (S (db_ops w))) = None ->
  exists s,
    TokenUtils.get_thread_token_usage_stats thread_id w
      = (inr s, count_db_op (count_db_op (count_db_op w)))
    /\ TokenUtils.message_count s
       = Z.of_nat (List.length (Sql.rows_of thread_id (db w)))
    /\ (TokenUtils.total_tokens s
        = TokenUtils.user_tokens s + TokenUtils.assistant_tokens s)%Z
    /\ (thread_total thread_id (db w)
        = TokenUtils.total_tokens s
          + fold_right Z.add 0
              (Sql.token_counts
                 (filter (fun row => negb (TokenUtils.is_user row)
                                     && negb (TokenUtils.is_assistant row))
                    (Sql.rows_of thread_id (db w)))))%Z
    /\ (Forall (fun row => TokenUtils.is_user row = true
                           \/ TokenUtils.is_assistant row = true)
          (Sql.rows_of thread_id (db w)) ->
        TokenUtils.total_tokens s = thread_total thread_id (db w))
    /\ (Sql.rows_of thread_id (db w) = [] ->
        TokenUtils.average_tokens_per_message s == 0).
Proof.
  intros H0 H1 H2.
  unfold TokenUtils.get_thread_token_usage_stats, bind, ret.
  rewrite (round_trip_query _ w H0).
  rewrite (round_trip_query _ (count_db_op w) H1).
  rewrite (round_trip_query _ (count_db_op (count_db_op w)) H2).
  change (db (count_db_op (count_db_op w))) with (db w).
  change (db (count_db_op w)) with (db w).
  eexists. split; [reflexivity|]. simpl.
  rewrite !or_zero_sum.
  split; [reflexivity|]. split; [reflexivity|].
  assert (Hsum := sum_by_role (Sql.rows_of thread_id (db w))).
  split; [unfold thread_total; lia|]. split.
  - intro Hroles. unfold thread_total. rewrite Hsum.
    assert (Hnone : filter (fun row => negb (TokenUtils.is_user row)
                                       && negb (TokenUtils.is_assistant row))
                      (Sql.rows_of thread_id (db w)) = []).
    { clear Hsum. induction Hroles as [|row rows Hrow _ IH]; [reflexivity|].
      simpl. destruct Hrow as [Hrow | Hrow]; rewrite Hrow; simpl;
        rewrite ?andb_false_r; exact IH. }
    rewrite Hnone. simpl. lia.
  - intro Hempty. rewrite Hempty. simpl. reflexivity.
Qed.

(** X16. The caching pass of [calculate_input_tokens_for_messages] does
    not change what the function computes: the messages it leaves behind
    all carry a count, keep their role, content and model, give the same
    total when the function is applied to them again, and are left as
    they are by that second application. *)
Theorem cached_counts_give_the_same_total (messages : list Message.t) :
  let total := fst (TokenUtils.calculate_input_tokens_for_messages messages) in
  let cached := snd (TokenUtils.calculate_input_tokens_for_messages messages) in
  TokenUtils.calculate_input_tokens_for_messages cached = (total, cached)
  /\ Forall (fun msg => Message.token_count msg <> None) cached
  /\ map Message.content cached = map Message.content messages
  /\ map Message.role cached = map Message.role messages
  /\ map Message.model cached = map Message.model messages.
Proof.
  unfold TokenUtils.calculate_input_tokens_for_messages.
  match goal with
  | |- context [(_, map ?f messages)] => set (cache := f)
  end.
  cbn [fst snd].
  assert (Hcount : forall m, ThreadService.token_count_or_count (cache m)
                             = ThreadService.token_count_or_count m).
  { intro m. unfold cache, ThreadService.token_count_or_count.
    destruct (Message.token_count m) as [n|] eqn:Hm; [now rewrite Hm|].
    simpl. now destruct (_ =? 0)%Z. }
  assert (Hidem : forall m, cache (cache m) = cache m).
  { intro m. unfold cache.
    destruct (Message.token_count m) as [n|] eqn:Hm; [now rewrite Hm|].
    reflexivity. }
  assert (Hsome : forall m, Message.token_count (cache m) <> None).
  { intro m. unfold cache.
    destruct (Message.token_count m) as [n|] eqn:Hm;
      [rewrite Hm|]; discriminate. }
  split.
  { f_equal.
    - f_equal. rewrite map_map. apply map_ext. exact Hcount.
    - rewrite map_map. apply map_ext. exact Hidem. }
  split.
  { apply Forall_forall. intros m Hin. apply in_map_iff in Hin.
    destruct Hin as (m0 & <- & _). apply Hsome. }
  repeat split; rewrite map_map; apply map_ext; intro m; unfold cache;
    now destruct (Message.token_count m).
Qed.

(** X17. [get_thread_messages] returns the oldest 100 rows of the thread
    and no more, although its documentation says "all messages": when the
    query does not raise the result is the first 100 rows in insertion
    order, it is the whole thread exactly when the thread has at most 100
    rows, and its roles and contents are the first 100 entries of the
    history the chat handler is given, which is not cut. *)
Theorem thread_messages_are_the_oldest_100 (thread_id : uuid) (w : world) :
  db_fault (db_ops w) = None ->
  let rows := firstn 100 (Sql.rows_of thread_id (db w)) in
  ThreadServiceMore.get_thread_messages thread_id w = (inr rows, count_db_op w)
  /\ (List.length rows <= 100)%nat
  /\ (rows = Sql.rows_of thread_id (db w)
      <-> (List.length (Sql.rows_of thread_id (db w)) <= 100)%nat)
  /\ map (fun row => HistoryItem (Conversation.role row)
                       [Conversation.content row]) rows
     = firstn 100 (history_of thread_id (db w))
  /\ ThreadService.get_thread_messages_optimized thread_id w
     = (inr (history_of thread_id (db w)), count_db_op w).
Proof.
  intros Hf rows.
  split.
  { unfold ThreadServiceMore.get_thread_messages,
      CrudMore.get_thread_conversations.
    now rewrite (round_trip_query _ w Hf). }
  split; [apply firstn_le_length|].
  split.
  { unfold rows. split.
    - intro Heq. rewrite <- Heq. apply firstn_le_length.
    - intro Hle. now apply firstn_all2. }
  split.
  { unfold rows, history_of, Sql.rows_of. now rewrite firstn_map. }
  unfold ThreadService.get_thread_messages_optimized.
  now rewrite (round_trip_query _ w Hf).
Qed.

Lemma find_without_thread (thread_id other : uuid) (ths : list Thread.t) :
  find (fun th => (Thread.id th =? other)%N)
       (filter (fun th => negb (Thread.id th =? thread_id)%N) ths)
  = if (other =? thread_id)%N
    then None
    else find (fun th => (Thread.id th =? other)%N) ths.
Proof.
  induction ths as [|th ths IH]; simpl; [now destruct (_ =? _)%N|].
  destruct (Thread.id th =? thread_id)%N eqn:Hid; simpl.
  - rewrite IH. destruct (other =? thread_id)%N eqn:Ho; [reflexivity|].
    apply N.eqb_eq in Hid. apply N.eqb_neq in Ho.
    assert (Hne : (Thread.id th =? other)%N = false)
      by (apply N.eqb_neq; congruence).
    now rewrite Hne.
  - destruct (Thread.id th =? other)%N eqn:Hto.
    + apply N.eqb_eq in Hto. apply N.eqb_neq in Hid.
      assert (Hne : (other =? thread_id)%N = false)
        by (apply N.eqb_neq; congruence).
      now rewrite Hne.
    + exact IH.
Qed.

Lemma rows_without (thread_id other : uuid) (rows : list Conversation.t) :
  filter (fun row => (Conversation.thread_id row =? other)%N)
    (filter (fun row => negb (Conversation.thread_id row =? thread_id)%N) rows)
  = if (other =? thread_id)%N
    then []
    else filter (fun row => (Conversation.thread_id row =? other)%N) rows.
Proof.
  induction rows as [|row rows IH]; simpl; [now destruct (_ =? _)%N|].
  destruct (Conversation.thread_id row =? thread_id)%N eqn:Hid; simpl.
  - rewrite IH. destruct (other =? thread_id)%N eqn:Ho; [reflexivity|].
    apply N.eqb_eq in Hid. apply N.eqb_neq in Ho.
    assert (Hne : (Conversation.thread_id row =? other)%N = false)
      by (apply N.eqb_neq; congruence).
    now rewrite Hne.
  - destruct (Conversation.thread_id row =? other)%N eqn:Hto.
    + apply N.eqb_eq in Hto. apply N.eqb_neq in Hid.
      assert (Hne : (other =? thread_id)%N = false)
        by (apply N.eqb_neq; congruence).
      rewrite Hne. simpl. f_equal.
      rewrite IH. now rewrite Hne.
    + exact IH.
Qed.

(** The tables after [delete_thread] found the thread. *)
Lemma delete_thread_run (thread_id : uuid) (w : world) :
  ThreadServiceMore.delete_thread thread_id w
  = match db_fault (db_ops w) with
    | Some message => (inl (Exception message), count_db_op w)
    | None =>
      match thread_of thread_id (db w) with
      | None => (inr false, count_db_op w)
      | Some _ =>
        match db_fault (S (db_ops w)) with
        | Some message =>
          (inl (Exception message), count_db_op (count_db_op w))
        | None =>
          (inr true,
           set_db (Sql.without_thread thread_id (db w))
             (count_db_op (count_db_op w)))
        end
      end
    end.
Proof.
  unfold ThreadServiceMore.delete_thread, CrudMore.delete_thread,
    Crud.get_thread, bind, ret, thread_of.
  destruct (db_fault (db_ops w)) as [m|] eqn:Hf.
  - now rewrite (round_trip_fault _ w m Hf).
  - rewrite (round_trip_query _ w Hf).
    destruct (find _ (threads (db w))); [|reflexivity].
    unfold round_trip. change (db_ops (count_db_op w)) with (S (db_ops w)).
    destruct (db_fault (S (db_ops w))); reflexivity.
Qed.

(** X18. [delete_thread] removes the thread and its conversations and
    nothing else.  It returns [False] exactly when no thread has the id,
    and then the tables are as they were; when it returns [True] the
    thread can no longer be found, it has no rows left, and every other
    thread is found as before with the rows it had. *)
Theorem delete_thread_cascades (thread_id : uuid) (w w1 : world) (deleted : bool) :
  ThreadServiceMore.delete_thread thread_id w = (inr deleted, w1) ->
  (deleted = false <-> thread_of thread_id (db w) = None)
  /\ (deleted = false -> db w1 = db w)
  /\ (deleted = true ->
      thread_of thread_id (db w1) = None
      /\ Sql.rows_of thread_id (db w1) = []
      /\ forall other, other <> thread_id ->
           thread_of other (db w1) = thread_of other (db w)
           /\ Sql.rows_of other (db w1) = Sql.rows_of other (db w)).
Proof.
  rewrite delete_thread_run.
  destruct (db_fault (db_ops w)); [discriminate|].
  destruct (thread_of thread_id (db w)) as [th|] eqn:Hth.
  - destruct (db_fault (S (db_ops w))); [discriminate|].
    intro H. inversion H; subst. clear H.
    split; [split; discriminate|]. split; [discriminate|]. intros _.
    unfold thread_of, Sql.rows_of, set_db, Sql.without_thread. simpl.
    split; [rewrite find_without_thread; now rewrite N.eqb_refl|].
    split; [rewrite rows_without; now rewrite N.eqb_refl|].
    intros other Hother.
    assert (Hne : (other =? thread_id)%N = false) by now apply N.eqb_neq.
    rewrite find_without_thread, rows_without, Hne. now split.
  - intro H. inversion H; subst. clear H.
    split; [now split|]. split; [intros _; destruct w as [[? ?] ? ? ? ?]; reflexivity|].
    discriminate.
Qed.

End StoreProperties.


Section ThreadRouteProperties.
Context {env : Environment}.
Import ThreadsRoute.

(** What the thread routes have in common: the request is counted, the
    thread looked up, and the action reached only by its owner. *)
Lemma guarded_route_run {A} (forbidden : pystr) (action : Thread.t -> M A)
  (thread_id current_user : uuid) (w : world) :
  (Process.track_request ;;
   thread <- ThreadService.get_thread thread_id ;;
   match thread with
   | None => raise (not_found thread_id)
   | Some thread =>
     if negb (Thread.user_id thread =? current_user)%N
     then raise (HTTPException 403 forbidden)
     else action thread
   end) w
  = if (RateLimiter.requests_used (window_now w) >=? REQUESTS_PER_MINUTE)%Z
    then (inl (RateLimitError (py "Request") REQUESTS_PER_MINUTE),
          set_usage_tracking (window_now w) (tick w))
    else match db_fault (db_ops w) with
         | Some message => (inl (Exception message), count_db_op (tracked w))
         | None =>
           match thread_of thread_id (db w) with
           | None => (inl (not_found thread_id), count_db_op (tracked w))
           | Some thread =>
             if negb (Thread.user_id thread =? current_user)%N
             then (inl (HTTPException 403 forbidden),
                   count_db_op (tracked w))
             else action thread (count_db_op (tracked w))
           end
         end.
Proof.
  unfold bind at 1. rewrite track_request_run.
  unfold RateLimiter.track_request. fold (window_now w).
  destruct (_ >=? _)%Z; [reflexivity|]. cbn [fst snd]. fold (tracked w).
  unfold bind, ThreadService.get_thread, Crud.get_thread, raise.
  change (db_fault (db_ops w)) with (db_fault (db_ops (tracked w))).
  destruct (db_fault (db_ops (tracked w))) as [m|] eqn:Hf.
  - now rewrite (round_trip_fault _ (tracked w) m Hf).
  - rewrite (round_trip_query _ (tracked w) Hf).
    change (db (tracked w)) with (db w). fold (thread_of thread_id (db w)).
    destruct (thread_of thread_id (db w)) as [th|]; [|reflexivity].
    destruct (negb _); reflexivity.
Qed.

Lemma not_owner (current_user thread_id : uuid) (d : Db) (th : Thread.t) :
  ~ owns current_user thread_id d ->
  thread_of thread_id d = Some th ->
  negb (Thread.user_id th =? current_user)%N = true.
Proof.
  intros Hno Hth. destruct (N.eqb_spec (Thread.user_id th) current_user);
    [|reflexivity].
  exfalso. apply Hno. now exists th.
Qed.

(** X19. The two destructive thread routes change nothing for anyone but
    the owner.  If the thread does not exist or belongs to another user,
    [delete_thread_by_id] and [clear_thread_messages] end in an exception
    and leave both tables exactly as they were, whatever the throttle and
    the session do; when the request is admitted and the lookup does not
    raise, the exception is the 404 for a missing thread and the 403 for
    another user's. *)
Theorem only_the_owner_deletes_or_clears
  (thread_id current_user : uuid) (w : world) :
  ~ owns current_user thread_id (db w) ->
  (exists e, fst (delete_thread_by_id thread_id current_user w) = inl e)
  /\ db (snd (delete_thread_by_id thread_id current_user w)) = db w
  /\ (exists e, fst (clear_thread_messages thread_id current_user w) = inl e)
  /\ db (snd (clear_thread_messages thread_id current_user w)) = db w
  /\ (~ budget_used_up w -> db_fault (db_ops w) = None ->
      let refusal (what : pystr) :=
        match thread_of thread_id (db w) with
        | None => not_found thread_id
        | Some _ =>
          HTTPException 403
            (py "You don't have permission to " ++ what ++ py " this thread")
        end in
      fst (delete_thread_by_id thread_id current_user w)
        = inl (refusal (py "delete"))
      /\ fst (clear_thread_messages thread_id current_user w)
        = inl (refusal (py "clear messages in"))).
Proof.
  intro Hno.
  unfold delete_thread_by_id, clear_thread_messages, try_except.
  rewrite !guarded_route_run. unfold budget_used_up.
  destruct (Z.geb_spec (RateLimiter.requests_used (window_now w))
              REQUESTS_PER_MINUTE) as [Hge | Hlt].
  { cbn [fst snd raise].
    split; [eexists; reflexivity|]. split; [reflexivity|].
    split; [eexists; reflexivity|]. split; [reflexivity|].
    intros Hbudget. lia. }
  destruct (db_fault (db_ops w)) as [m|].
  { cbn [fst snd raise].
    split; [eexists; reflexivity|]. split; [reflexivity|].
    split; [eexists; reflexivity|]. split; [reflexivity|].
    discriminate. }
  destruct (thread_of thread_id (db w)) as [th|] eqn:Hth.
  - rewrite (not_owner _ _ _ _ Hno Hth). cbn [fst snd raise].
    split; [eexists; reflexivity|]. split; [reflexivity|].
    split; [eexists; reflexivity|]. split; [reflexivity|].
    intros _ _. split; reflexivity.
  - cbn [fst snd raise].
    split; [eexists; reflexivity|]. split; [reflexivity|].
    split; [eexists; reflexivity|]. split; [reflexivity|].
    intros _ _. split; reflexivity.
Qed.

(** X20. The reading thread routes disclose only what belongs to the
    caller and change no table.  Whatever [get_thread_by_id] returns is
    the thread with the requested id and is owned by the caller; whatever
    [get_messages_for_thread] returns are the oldest 100 rows of a thread
    the caller owns; [list_all_threads] returns exactly the caller's
    threads. *)
Theorem reading_routes_disclose_only_own_threads
  (thread_id current_user : uuid) (w : world) :
  (forall th w1,
     get_thread_by_id thread_id current_user w = (inr th, w1) ->
     thread_of thread_id (db w) = Some th
     /\ Thread.id th = thread_id
     /\ Thread.user_id th = current_user)
  /\ (forall rows w1,
        get_messages_for_thread thread_id current_user w = (inr rows, w1) ->
        owns current_user thread_id (db w)
        /\ rows = firstn 100 (Sql.rows_of thread_id (db w)))
  /\ (forall ths w1,
        list_all_threads current_user w = (inr ths, w1) ->
        ths = filter (fun th => (Thread.user_id th =? current_user)%N)
                (threads (db w))
        /\ Forall (fun th => Thread.user_id th = current_user) ths)
  /\ db (snd (get_thread_by_id thread_id current_user w)) = db w
  /\ db (snd (get_messages_for_thread thread_id current_user w)) = db w
  /\ db (snd (list_all_threads current_user w)) = db w.
Proof.
  assert (Hguard : forall A (action : Thread.t -> M A) forbidden a w1,
    (if (RateLimiter.requests_used (window_now w) >=? REQUESTS_PER_MINUTE)%Z
     then (inl (RateLimitError (py "Request") REQUESTS_PER_MINUTE),
           set_usage_tracking (window_now w) (tick w))
     else match db_fault (db_ops w) with
          | Some message => (inl (Exception message), count_db_op (tracked w))
          | None =>
            match thread_of thread_id (db w) with
            | None => (inl (not_found thread_id), count_db_op (tracked w))
            | Some thread =>
              if negb (Thread.user_id thread =? current_user)%N
              then (inl (HTTPException 403 forbidden),
                    count_db_op (tracked w))
              else action thread (count_db_op (tracked w))
            end
          end) = (inr a, w1) ->
    exists th, thread_of thread_id (db w) = Some th
               /\ Thread.user_id th = current_user
               /\ action th (count_db_op (tracked w)) = (inr a, w1)).
  { intros A action forbidden a w1 Hrun.
    destruct (_ >=? _)%Z; [discriminate|].
    destruct (db_fault (db_ops w)); [discriminate|].
    destruct (thread_of thread_id (db w)) as [th|]; [|discriminate].
    destruct (N.eqb_spec (Thread.user_id th) current_user) as [Hu|];
      [|discriminate].
    exists th. now repeat split. }
  split; [|split; [|split]].
  - intros th w1 Hrun. unfold get_thread_by_id in Hrun.
    rewrite (guarded_route_run _ (fun thread => ret thread)) in Hrun.
    apply (Hguard _ (fun thread => ret thread)) in Hrun.
    destruct Hrun as (th0 & Hth & Hu & Hret). inversion Hret; subst.
    split; [exact Hth|]. split; [|reflexivity].
    unfold thread_of in Hth. apply find_some in Hth.
    now apply N.eqb_eq.
  - intros rows w1 Hrun. unfold get_messages_for_thread in Hrun.
    rewrite (guarded_route_run _
               (fun _ => ThreadServiceMore.get_thread_messages thread_id))
      in Hrun.
    apply (Hguard _
             (fun _ => ThreadServiceMore.get_thread_messages thread_id))
      in Hrun.
    destruct Hrun as (th0 & Hth & Hu & Hrows).
    split; [now exists th0|].
    unfold ThreadServiceMore.get_thread_messages,
      CrudMore.get_thread_conversations in Hrows.
    destruct (db_fault (db_ops (count_db_op (tracked w)))) as [m|] eqn:Hf.
    + rewrite (round_trip_fault _ _ m Hf) in Hrows. discriminate.
    + rewrite (round_trip_query _ _ Hf) in Hrows.
      inversion Hrows. reflexivity.
  - intros ths w1 Hrun.
    unfold list_all_threads, ThreadServiceMore.get_all_threads,
      CrudMore.get_user_threads in Hrun.
    unfold bind in Hrun. rewrite track_request_run in Hrun.
    destruct (fst (RateLimiter.track_request _ _)); [discriminate|].
    match type of Hrun with
    | round_trip _ ?w0 = _ =>
      destruct (db_fault (db_ops w0)) as [m|] eqn:Hf;
        [rewrite (round_trip_fault _ _ m Hf) in Hrun; discriminate
        |rewrite (round_trip_query _ _ Hf) in Hrun]
    end.
    inversion Hrun. split; [reflexivity|].
    apply Forall_forall. intros th Hin. apply filter_In in Hin.
    now apply N.eqb_eq.
  - unfold get_thread_by_id, get_messages_for_thread.
    rewrite !guarded_route_run.
    unfold list_all_threads, ThreadServiceMore.get_all_threads,
      CrudMore.get_user_threads, ThreadServiceMore.get_thread_messages,
      CrudMore.get_thread_conversations.
    unfold bind at 1. rewrite track_request_run.
    clear Hguard.
    split; [|split].
    + destruct (_ >=? _)%Z; [reflexivity|].
      destruct (db_fault (db_ops w)); [reflexivity|].
      destruct (thread_of thread_id (db w)); [|reflexivity].
      destruct (negb _); reflexivity.
    + destruct (_ >=? _)%Z; [reflexivity|].
      destruct (db_fault (db_ops w)); [reflexivity|].
      destruct (thread_of thread_id (db w)); [|reflexivity].
      destruct (negb _); [reflexivity|]. now rewrite round_trip_query_db.
    + destruct (fst (RateLimiter.track_request _ _)); [reflexivity|].
      now rewrite round_trip_query_db.
Qed.

(** X21. The owner's delete goes through.  When the request is admitted
    and no round trip raises, [delete_thread_by_id] called by the owner
    returns "Thread '<title>' deleted successfully" with the title the
    thread had, the request has been counted, and the tables are left
    without the thread and without its conversations. *)
Theorem owner_deletes_the_thread
  (thread_id current_user : uuid) (w : world) (th : Thread.t) :
  thread_of thread_id (db w) = Some th ->
  Thread.user_id th = current_user ->
  ~ budget_used_up w ->
  db_fault (db_ops w) = None ->
  db_fault (S (db_ops w)) = None ->
  db_fault (S (S (db_ops w))) = None ->
  exists w1,
    delete_thread_by_id thread_id current_user w
      = (inr (py "Thread '" ++ Thread.title th
                ++ py "' deleted successfully"), w1)
    /\ db w1 = Sql.without_thread thread_id (db w)
    /\ thread_of thread_id (db w1) = None
    /\ Sql.rows_of thread_id (db w1) = []
    /\ RateLimiter.requests_used (usage_tracking w1)
       = (RateLimiter.requests_used (window_now w) + 1)%Z.
Proof.
  intros Hth Hu Hbudget H0 H1 H2.
  unfold delete_thread_by_id, try_except. rewrite guarded_route_run.
  unfold budget_used_up in Hbudget.
  destruct (Z.geb_spec (RateLimiter.requests_used (window_now w))
              REQUESTS_PER_MINUTE) as [Hge | Hlt]; [lia|].
  rewrite H0, Hth, Hu, N.eqb_refl. cbn [negb].
  unfold bind at 1. rewrite delete_thread_run.
  change (db_ops (count_db_op (tracked w))) with (S (db_ops w)).
  change (db (count_db_op (tracked w))) with (db w).
  rewrite H1, Hth.
  change (db_fault (S (S (db_ops w)))) with (db_fault (S (S (db_ops w)))).
  rewrite H2. cbn [negb]. unfold ret.
  eexists. split; [reflexivity|].
  unfold set_db. cbn [db usage_tracking].
  split; [reflexivity|].
  unfold thread_of, Sql.rows_of, Sql.without_thread. simpl.
  split; [rewrite find_without_thread; now rewrite N.eqb_refl|].
  split; [rewrite rows_without; now rewrite N.eqb_refl|].
  reflexivity.
Qed.

(** X22. Clearing a thread empties it and keeps it.  When the request is
    admitted and no round trip raises, [clear_thread_messages] called by
    the owner returns "Messages cleared successfully"; afterwards the
    thread has no rows, the threads table is as it was, so the thread
    itself is still found, and the rows of every other thread are as
    they were. *)
Theorem owner_clears_the_thread
  (thread_id current_user : uuid) (w : world) :
  owns current_user thread_id (db w) ->
  ~ budget_used_up w ->
  db_fault (db_ops w) = None ->
  db_fault (S (db_ops w)) = None ->
  exists w1,
    clear_thread_messages thread_id current_user w
      = (inr (py "Messages cleared successfully"), w1)
    /\ Sql.rows_of thread_id (db w1) = []
    /\ threads (db w1) = threads (db w)
    /\ owns current_user thread_id (db w1)
    /\ thread_total thread_id (db w1) = 0%Z
    /\ forall other, other <> thread_id ->
         Sql.rows_of other (db w1) = Sql.rows_of other (db w).
Proof.
  intros (th & Hth & Hu) Hbudget H0 H1.
  unfold clear_thread_messages. rewrite guarded_route_run.
  unfold budget_used_up in Hbudget.
  destruct (Z.geb_spec (RateLimiter.requests_used (window_now w))
              REQUESTS_PER_MINUTE) as [Hge | Hlt]; [lia|].
  rewrite H0, Hth, Hu, N.eqb_refl. cbn [negb].
  unfold bind, ret, round_trip.
  change (db_ops (count_db_op (tracked w))) with (S (db_ops w)).
  rewrite H1. simpl.
  eexists. split; [reflexivity|]. simpl.
  assert (Hrows : Sql.rows_of thread_id
                    (Sql.without_messages thread_id (db w)) = []).
  { unfold Sql.rows_of, Sql.without_messages. simpl.
    rewrite rows_without. now rewrite N.eqb_refl. }
  split; [exact Hrows|].
  split; [reflexivity|].
  split; [exists th; now split|].
  split; [unfold thread_total; now rewrite Hrows|].
  intros other Hother.
  unfold Sql.rows_of, Sql.without_messages. simpl.
  rewrite rows_without.
  assert (Hne : (other =? thread_id)%N = false) by now apply N.eqb_neq.
  now rewrite Hne.
Qed.

(** X23. A request over the budget is reported differently by the delete
    route.  Once the request budget of the window is used up, the routes
    without a [try] of their own let [RateLimitError("Request",
    REQUESTS_PER_MINUTE)] through, while [delete_thread_by_id] turns it
    into [HTTPException(500)] whose detail is the error's message; none
    of them opens the session.  Whatever happens, [delete_thread_by_id]
    raises nothing but an [HTTPException] with status 403, 404 or 500. *)
Theorem refused_request_is_a_500_on_delete
  (thread_id current_user : uuid) (w : world) :
  (budget_used_up w ->
   let refused := set_usage_tracking (window_now w) (tick w) in
   let error := RateLimitError (py "Request") REQUESTS_PER_MINUTE in
   get_thread_by_id thread_id current_user w = (inl error, refused)
   /\ get_messages_for_thread thread_id current_user w = (inl error, refused)
   /\ clear_thread_messages thread_id current_user w = (inl error, refused)
   /\ list_all_threads current_user w = (inl error, refused)
   /\ delete_thread_by_id thread_id current_user w
      = (inl (HTTPException 500
                (py "Request rate limit exceeded: "
                   ++ str_int REQUESTS_PER_MINUTE ++ py " per minute")),
         refused)
   /\ db_ops refused = db_ops w)
  /\ (forall e,
        fst (delete_thread_by_id thread_id current_user w) = inl e ->
        exists status_code detail,
          e = HTTPException status_code detail
          /\ (status_code = 403 \/ status_code = 404 \/ status_code = 500)%Z).
Proof.
  split.
  - intros Hused refused error. unfold budget_used_up in Hused.
    unfold get_thread_by_id, get_messages_for_thread, clear_thread_messages,
      delete_thread_by_id, try_except.
    rewrite !guarded_route_run.
    assert (Hlist : list_all_threads current_user w = (inl error, refused)).
    { unfold list_all_threads, bind. rewrite track_request_run.
      unfold RateLimiter.track_request. fold (window_now w).
      destruct (Z.geb_spec (RateLimiter.requests_used (window_now w))
                  REQUESTS_PER_MINUTE) as [Hge | Hlt]; [reflexivity|lia]. }
    rewrite Hlist.
    destruct (Z.geb_spec (RateLimiter.requests_used (window_now w))
                REQUESTS_PER_MINUTE) as [Hge | Hlt]; [|lia].
    repeat split.
  - intros e. unfold delete_thread_by_id, try_except.
    rewrite guarded_route_run.
    destruct (_ >=? _)%Z.
    { simpl. intro H. inversion H. eexists. eexists. split; [reflexivity|].
      now right; right. }
    destruct (db_fault (db_ops w)).
    { simpl. intro H. inversion H. eexists. eexists. split; [reflexivity|].
      now right; right. }
    destruct (thread_of thread_id (db w)) as [th|].
    2: { simpl. intro H. inversion H. eexists. eexists.
         split; [reflexivity|]. now right; left. }
    destruct (negb _).
    { simpl. intro H. inversion H. eexists. eexists.
      split; [reflexivity|]. now left. }
    unfold bind at 1. rewrite delete_thread_run.
    destruct (db_fault (db_ops (count_db_op (tracked w)))).
    { simpl. intro H. inversion H. eexists. eexists. split; [reflexivity|].
      now right; right. }
    destruct (thread_of thread_id (db (count_db_op (tracked w)))).
    2: { simpl. intro H. inversion H. eexists. eexists.
         split; [reflexivity|]. now right; right. }
    destruct (db_fault (S (db_ops (count_db_op (tracked w))))).
    { simpl. intro H. inversion H. eexists. eexists. split; [reflexivity|].
      now right; right. }
    simpl. discriminate.
Qed.

End ThreadRouteProperties.


(* ===================================================================== *)
(** * Concrete runs of the further properties *)
(* ===================================================================== *)

Import Visitors.

(** X1 on a budget of 5 tokens: the second fragment of five is refused. *)
Lemma budgets_are_never_exceeded_witness :
  let cs := [RateLimiter.CheckTokenRateLimit 0 5;
             RateLimiter.CheckTokenRateLimit 0 5;
             RateLimiter.TrackRequest 0] in
  @RateLimiter.run_calls tight cs idle_window
    = ([RateLimiter.Checked true; RateLimiter.Checked false;
        RateLimiter.Tracked (inr tt)],
       RateLimiter.Usage 0 5 1)
  /\ (RateLimiter.requests_used (snd (@RateLimiter.run_calls tight cs idle_window))
      <= 60)%Z
  /\ (RateLimiter.tokens_used (snd (@RateLimiter.run_calls tight cs idle_window))
      <= 5)%Z.
Proof.
  intro cs. split; [reflexivity|].
  apply (@budgets_are_never_exceeded tight cs idle_window);
    vm_compute; discriminate.
Defined.

(** X2 on the same calls. *)
Lemma window_admits_at_most_the_budget_witness :
  let cs := [RateLimiter.CheckTokenRateLimit 0 5;
             RateLimiter.CheckTokenRateLimit 0 5;
             RateLimiter.TrackRequest 0] in
  @RateLimiter.no_reset tight cs idle_window = true
  /\ (RateLimiter.admitted_requests
        (fst (@RateLimiter.run_calls tight cs idle_window))
      <= Z.max 0 (60 - 0))%Z
  /\ (RateLimiter.admitted_tokens cs
        (fst (@RateLimiter.run_calls tight cs idle_window))
      <= Z.max 0 (5 - 0))%Z.
Proof.
  intro cs.
  assert (H : @RateLimiter.no_reset tight cs idle_window = true)
    by reflexivity.
  split; [exact H|].
  exact (@window_admits_at_most_the_budget tight cs idle_window H).
Defined.

(** X3: a spent window refuses again half a minute later. *)
Lemma refused_request_stays_refused_witness :
  fst (@RateLimiter.track_request tight 0 spent_window)
    = inl (RateLimitError (py "Request") 60)
  /\ fst (@RateLimiter.track_request tight 30
            (snd (@RateLimiter.run_calls tight
                    [RateLimiter.CheckTokenRateLimit 10 1]
                    (snd (@RateLimiter.track_request tight 0 spent_window)))))
     = inl (RateLimitError (py "Request") 60).
Proof.
  assert (H : fst (@RateLimiter.track_request tight 0 spent_window)
              = inl (RateLimitError (py "Request") 60)) by reflexivity.
  split; [exact H|].
  apply (@refused_request_stays_refused tight 0
           [RateLimiter.CheckTokenRateLimit 10 1] 30 spent_window H);
    reflexivity.
Defined.

(** X4: two reads ten seconds apart. *)
Lemma status_reads_agree_within_a_window_witness :
  let first := @RateLimiter.get_rate_limit_status roomy 0 0 idle_window in
  let second :=
    @RateLimiter.get_rate_limit_status roomy 10 10 (snd first) in
  snd second = snd first
  /\ RateLimiter.used (RateLimiter.requests (fst second)) = 0%Z
  /\ RateLimiter.reset_after_seconds (RateLimiter.requests (fst first)) = 60%Z
  /\ RateLimiter.reset_after_seconds (RateLimiter.requests (fst second)) = 50%Z.
Proof.
  intros first second.
  destruct (@status_reads_agree_within_a_window roomy 0 0 10 10 idle_window)
    as (Hsame & Hused & _ & _ & _ & Hcountdown);
    [vm_compute; discriminate|].
  assert (Hclock : (0 <= 10)%Q) by (vm_compute; discriminate).
  destruct (Hcountdown Hclock) as [_ _].
  split; [exact Hsame|]. split; [exact Hused|]. split; reflexivity.
Defined.

(** X5: the status of an idle window reports one request, and a spent
    window reports nothing. *)
Lemma status_endpoint_counts_itself_witness :
  (exists status w',
     @RateLimitsRoute.get_rate_limits roomy (start alices_thread)
       = (inr status, w')
     /\ RateLimiter.used (RateLimiter.requests status) = 1%Z
     /\ RateLimiter.remaining (RateLimiter.requests status) = 59%Z)
  /\ @RateLimitsRoute.get_rate_limits roomy (busy alices_thread)
     = (inl (RateLimitError (py "Request") 60),
        set_usage_tracking spent_window (tick (busy alices_thread))).
Proof.
  split.
  - destruct (@status_endpoint_counts_itself roomy (start alices_thread))
      as [_ Hopen].
    destruct Hopen as (status & w' & Hrun & Hused & Hleft & _);
      [reflexivity | vm_compute; discriminate |].
    exists status, w'. split; [exact Hrun|]. split; [exact Hused|].
    exact Hleft.
  - destruct (@status_endpoint_counts_itself roomy (busy alices_thread))
      as [Hspent _].
    apply Hspent. vm_compute. discriminate.
Defined.

(** X8 on a completed request. *)
Lemma chat_request_and_the_budgets_witness :
  let w' := snd (@serve_chat roomy (ask "q") 1%N (start alices_thread)) in
  (RateLimiter.tokens_used (usage_tracking w') <= 60000)%Z
  /\ RateLimiter.tokens_used (usage_tracking w') = 11%Z
  /\ RateLimiter.requests_used (usage_tracking w') = 0%Z.
Proof.
  intro w'.
  destruct (@chat_request_and_the_budgets roomy (ask "q") 1%N
              (start alices_thread)) as [_ Htokens].
  split; [apply Htokens; vm_compute; discriminate|]. split; reflexivity.
Defined.

(** X10: two fragments and a chunk without text. *)
Lemma forwarded_fragments_are_charged_once_witness :
  let cs := [Some (py "Hel"); None; Some (py "lo")] in
  let w := start alices_thread in
  let w1 := snd (@for_chunk_in roomy (chunks_then cs StopIteration) [] w) in
  @for_chunk_in roomy (chunks_then cs StopIteration) [] w
    = (inr (Exhausted (py "Hello")), w1)
  /\ RateLimiter.tokens_used (usage_tracking w1) = 5%Z
  /\ ticks w1 = 2%nat.
Proof.
  intros cs w w1.
  assert (H : @for_chunk_in roomy (chunks_then cs StopIteration) [] w
              = (inr (Exhausted (py "Hello")), w1))
    by (vm_compute; reflexivity).
  split; [exact H|].
  destruct (@forwarded_fragments_are_charged_once roomy cs [] w
              (py "Hello") w1 H) as (Htokens & _ & _ & Hticks & _).
  { intros i Hi. vm_compute. discriminate. }
  split; [exact Htokens | exact Hticks].
Defined.

(** X11: an exchange stored in thread 1 is its next history. *)
Lemma stored_messages_are_the_next_history_witness :
  let w := start two_threads in
  let w1 := snd (@ThreadService.add_messages_to_thread roomy 1%N
                   (Some question) (Some answer) w) in
  @ThreadService.get_thread_messages_optimized roomy 1%N w1
    = (inr [HistoryItem (py "user") [py "hi"];
            HistoryItem (py "user") [py "q"];
            HistoryItem (py "model") [py "fine"]],
       count_db_op w1)
  /\ @ThreadService.get_thread_messages_optimized roomy 2%N w1
     = (inr (history_of 2%N two_threads), count_db_op w1).
Proof.
  intros w w1.
  destruct (@stored_messages_are_the_next_history roomy 1%N
              (Some question) (Some answer) w w1) as [Hown Hother];
    [vm_compute; reflexivity | reflexivity |].
  split; [exact Hown|]. apply Hother. discriminate.
Defined.

(** X12: the key is rejected when the session is created. *)
Lemma session_failure_leaves_the_question_unanswered_witness :
  let w := start alices_thread in
  exists w1,
    @chat_with_thread no_session (ask "q") 1%N w
      = (inr (Dict (py "model")
                (py "⚠️ Error processing request: API key not valid")), w1)
    /\ @serve_chat no_session (ask "q") 1%N w = (inr tt, w1)
    /\ map Conversation.content (conversations (db w1)) = [py "hi"; py "q"].
Proof.
  intro w.
  destruct (@session_failure_leaves_the_question_unanswered no_session
              (ask "q") 1%N w (py "API key not valid"))
    as (w1 & Hdict & Hserved & _ & Hrows);
    [reflexivity | eexists; reflexivity | reflexivity | reflexivity
    | reflexivity |].
  exists w1. split; [exact Hdict|]. split; [exact Hserved|].
  rewrite Hrows. reflexivity.
Defined.

(** X13: thread 2 holds a row without a count. *)
Lemma token_totals_agree_witness :
  let w := start two_threads in
  @ThreadServiceMore.get_thread_token_count roomy 2%N w
    = (inr 12%Z, count_db_op w)
  /\ @TokenUtils.get_thread_total_tokens_optimized roomy 2%N w
     = (inr 12%Z, count_db_op w).
Proof.
  intro w.
  destruct (@token_totals_agree roomy 2%N w) as (_ & Hsame & Hvalue & _).
  rewrite Hsame. split; exact (Hvalue eq_refl).
Defined.

(** X14: a question without a count and an answer whose count is 0. *)
Lemma stored_messages_add_their_counts_witness :
  let w := start two_threads in
  let w1 := snd (@ThreadService.add_messages_to_thread roomy 1%N
                   (Some question) (Some answer) w) in
  thread_total 1%N (db w1) = (2 + 1 + 4)%Z
  /\ thread_total 2%N (db w1) = 12%Z.
Proof.
  intros w w1.
  destruct (@stored_messages_add_their_counts roomy 1%N
              (Some question) (Some answer) w w1) as [Hown Hother];
    [vm_compute; reflexivity |].
  split; [exact Hown|].
  rewrite (Hother 2%N); [reflexivity | discriminate].
Defined.

(** X15: the "system" row of thread 2 is a message but not tokens. *)
Lemma usage_stats_count_known_roles_witness :
  let w := start two_threads in
  exists s,
    @TokenUtils.get_thread_token_usage_stats roomy 2%N w
      = (inr s, count_db_op (count_db_op (count_db_op w)))
    /\ TokenUtils.message_count s = 3%Z
    /\ TokenUtils.total_tokens s = 4%Z
    /\ thread_total 2%N (db w) = 12%Z.
Proof.
  intro w.
  destruct (@usage_stats_count_known_roles roomy 2%N w)
    as (s & Hrun & Hcount & _ & _ & _); [reflexivity ..|].
  exists s. split; [exact Hrun|]. split; [exact Hcount|].
  vm_compute in Hrun. inversion Hrun. split; reflexivity.
Defined.

(** X17 on a short thread. *)
Lemma thread_messages_are_the_oldest_100_witness :
  let w := start two_threads in
  @ThreadServiceMore.get_thread_messages roomy 2%N w
    = (inr (Sql.rows_of 2%N two_threads), count_db_op w).
Proof.
  intro w.
  destruct (@thread_messages_are_the_oldest_100 roomy 2%N w)
    as (Hrun & _ & Hall & _); [reflexivity|].
  rewrite Hrun. f_equal.
Defined.

(** X18: thread 2 goes with its three rows; thread 5 does not exist. *)
Lemma delete_thread_cascades_witness :
  let w := start two_threads in
  let w1 := snd (@ThreadServiceMore.delete_thread roomy 2%N w) in
  thread_of 2%N (db w1) = None
  /\ Sql.rows_of 2%N (db w1) = []
  /\ Sql.rows_of 1%N (db w1) = Sql.rows_of 1%N (db w)
  /\ db (snd (@ThreadServiceMore.delete_thread roomy 5%N w)) = db w.
Proof.
  intros w w1.
  destruct (@delete_thread_cascades roomy 2%N w w1 true)
    as (_ & _ & Hgone); [vm_compute; reflexivity|].
  destruct (Hgone eq_refl) as (Hthread & Hrows & Hothers).
  split; [exact Hthread|]. split; [exact Hrows|].
  split; [apply (Hothers 1%N); discriminate|].
  destruct (@delete_thread_cascades roomy 5%N w
              (snd (@ThreadServiceMore.delete_thread roomy 5%N w)) false)
    as (_ & Hkept & _); [vm_compute; reflexivity|].
  exact (Hkept eq_refl).
Defined.

(** X19: [bob] tries to delete and to clear the thread of [alice]. *)
Lemma only_the_owner_deletes_or_clears_witness :
  let w := start two_threads in
  fst (@ThreadsRoute.delete_thread_by_id roomy 1%N bob w)
    = inl (HTTPException 403
             (py "You don't have permission to delete this thread"))
  /\ db (snd (@ThreadsRoute.delete_thread_by_id roomy 1%N bob w)) = db w
  /\ db (snd (@ThreadsRoute.clear_thread_messages roomy 1%N bob w)) = db w.
Proof.
  intro w.
  destruct (@only_the_owner_deletes_or_clears roomy 1%N bob w)
    as (_ & Hdelete & _ & Hclear & Hwhy).
  { intros (th & Hth & Hu). vm_compute in Hth. inversion Hth; subst.
    discriminate Hu. }
  split; [|split; [exact Hdelete | exact Hclear]].
  apply Hwhy; [vm_compute; intro H; now apply H | reflexivity].
Defined.

(** X20: [alice] reads her thread. *)
Lemma reading_routes_disclose_only_own_threads_witness :
  let w := start two_threads in
  exists th rows ths,
    fst (@ThreadsRoute.get_thread_by_id roomy 1%N alice w) = inr th
    /\ Thread.user_id th = alice
    /\ fst (@ThreadsRoute.get_messages_for_thread roomy 1%N alice w) = inr rows
    /\ rows = firstn 100 (Sql.rows_of 1%N two_threads)
    /\ fst (@ThreadsRoute.list_all_threads roomy alice w) = inr ths
    /\ Forall (fun th => Thread.user_id th = alice) ths.
Proof.
  intro w.
  destruct (@reading_routes_disclose_only_own_threads roomy 1%N alice w)
    as (Hthread & Hrows & Hlist & _).
  destruct (@ThreadsRoute.get_thread_by_id roomy 1%N alice w)
    as [[e | th] w1] eqn:H1; [vm_compute in H1; discriminate|].
  destruct (@ThreadsRoute.get_messages_for_thread roomy 1%N alice w)
    as [[e | rows] w2] eqn:H2; [vm_compute in H2; discriminate|].
  destruct (@ThreadsRoute.list_all_threads roomy alice w)
    as [[e | ths] w3] eqn:H3; [vm_compute in H3; discriminate|].
  exists th, rows, ths.
  split; [reflexivity|]. split; [apply (Hthread th w1 eq_refl)|].
  split; [reflexivity|]. split; [apply (Hrows rows w2 eq_refl)|].
  split; [reflexivity|]. apply (Hlist ths w3 eq_refl).
Defined.

(** X21: [bob] deletes his thread. *)
Lemma owner_deletes_the_thread_witness :
  let w := start two_threads in
  exists w1,
    @ThreadsRoute.delete_thread_by_id roomy 2%N bob w
      = (inr (py "Thread 'plans' deleted successfully"), w1)
    /\ db w1 = alices_thread.
Proof.
  intro w.
  destruct (@owner_deletes_the_thread roomy 2%N bob w
              (Thread.Make 2%N (py "plans") bob None false))
    as (w1 & Hrun & Hdb & _);
    [reflexivity | reflexivity | vm_compute; intro H; now apply H
    | reflexivity ..|].
  exists w1. split; [exact Hrun|]. rewrite Hdb. reflexivity.
Defined.

(** X22: [bob] clears his thread. *)
Lemma owner_clears_the_thread_witness :
  let w := start two_threads in
  exists w1,
    @ThreadsRoute.clear_thread_messages roomy 2%N bob w
      = (inr (py "Messages cleared successfully"), w1)
    /\ Sql.rows_of 2%N (db w1) = []
    /\ threads (db w1) = threads two_threads
    /\ Sql.rows_of 1%N (db w1) = Sql.rows_of 1%N two_threads.
Proof.
  intro w.
  destruct (@owner_clears_the_thread roomy 2%N bob w)
    as (w1 & Hrun & Hrows & Hthreads & _ & _ & Hothers);
    [eexists; split; reflexivity | vm_compute; intro H; now apply H
    | reflexivity | reflexivity |].
  exists w1. split; [exact Hrun|]. split; [exact Hrows|].
  split; [exact Hthreads|]. apply Hothers. discriminate.
Defined.

(** X23 on a spent window. *)
Lemma refused_request_is_a_500_on_delete_witness :
  let w := busy two_threads in
  fst (@ThreadsRoute.get_thread_by_id roomy 2%N bob w)
    = inl (RateLimitError (py "Request") 60)
  /\ fst (@ThreadsRoute.delete_thread_by_id roomy 2%N bob w)
     = inl (HTTPException 500
              (py "Request rate limit exceeded: 60 per minute")).
Proof.
  intro w.
  destruct (@refused_request_is_a_500_on_delete roomy 2%N bob w)
    as [Hspent _].
  destruct Hspent as (Hget & _ & _ & _ & Hdelete & _);
    [vm_compute; discriminate|].
  rewrite Hget, Hdelete. split; reflexivity.
Defined.
